(** * Series 27 outlier analysis and correction

    A shallow embedding of [outlier_analysis_series27.py]
    (Series_27/Analysis) and the properties of its detector, of its
    correction loop and of its orchestration.

    Numbers.  pandas holds the differences and the raw readings as
    float64.  The program is embedded twice over them.  In the first
    embedding, which carries the whole run, a number is an exact rational
    or [nan], pandas' marker of a missing cell: rounding, overflow and
    infinities are left out, the propagation of [nan] and the comparisons
    that [nan] falsifies are kept.  It serves the properties that do not
    depend on rounding: which records a comparison keeps, which sheet is
    read, which file is written, where an exception leaves the run.  The
    module [F64] embeds the detector and the correction loop over the
    binary64 numbers of the machine; the properties of the arithmetic
    itself (the offset added to a reading, the z-score test at a threshold
    or a deviation of zero) are stated there.

    Text.  A character is a code point below 256.

    Files.  The workbook, the corrected files and the summary live in one
    store keyed by path.  Directories are not kept: [os.makedirs] fails on
    the empty path and where a file of the store is in its way, and a
    write to a path never fails. *)

From Stdlib Require Import Floats.
From Stdlib Require Import Reals Qreals Lra.
From Stdlib Require Import ZArith QArith Qabs Lia Lqa.
From Stdlib Require Import String Ascii List DecimalString.
From Stdlib Require DecimalZ.
From stdpp Require Import base option list strings gmap.

Local Open Scope Z_scope.
Local Open Scope string_scope.
Local Open Scope list_scope.

(** ** Numbers *)

Inductive float : Type :=
  | nan
  | fin (q : Q).

Definition fadd (a b : float) : float :=
  match a, b with fin x, fin y => fin (x + y)%Q | _, _ => nan end.

Definition fsub (a b : float) : float :=
  match a, b with fin x, fin y => fin (x - y)%Q | _, _ => nan end.

Definition fmul (a b : float) : float :=
  match a, b with fin x, fin y => fin (x * y)%Q | _, _ => nan end.

Definition fneg (a : float) : float :=
  match a with fin x => fin (- x)%Q | nan => nan end.

Definition fabs (a : float) : float :=
  match a with fin x => fin (Qabs x) | nan => nan end.

(** Comparisons: every comparison with [nan] is false. *)
Definition fge (a b : float) : bool :=
  match a, b with fin x, fin y => Qle_bool y x | _, _ => false end.

Definition flt (a b : float) : bool :=
  match a, b with fin x, fin y => negb (Qle_bool y x) | _, _ => false end.

Definition fgt (a b : float) : bool := flt b a.

(** A standard deviation is the square root of a rational, in general
    not a rational.  [c_sqrt c r] stands for the real [c * sqrt r]
    ([0 <= r]): the value of [col.std()] and of [z_thr * col.std()] is kept
    exact, and [x >= c * sqrt r] is decided on the squares. *)
Inductive surd : Type :=
  | snan
  | c_sqrt (c r : Q).

Definition smul (z : float) (s : surd) : surd :=
  match z, s with
  | fin z, c_sqrt c r => c_sqrt (z * c)%Q r
  | _, _ => snan
  end.

Definition ge_c_sqrt (x c r : Q) : bool :=
  if Qle_bool c 0
  then (if Qle_bool 0 x then true else Qle_bool (x * x) (c * c * r))
  else (if Qle_bool 0 x then Qle_bool (c * c * r) (x * x) else false).

Definition fge_surd (a : float) (s : surd) : bool :=
  match a, s with
  | fin x, c_sqrt c r => ge_c_sqrt x c r
  | _, _ => false
  end.

(** ** Series *)

(** [dropna]: the values of a column that are present. *)
Fixpoint dropna (col : list float) : list Q :=
  match col with
  | [] => []
  | nan :: col' => dropna col'
  | fin q :: col' => q :: dropna col'
  end.

Definition Qsum (l : list Q) : Q := fold_right Qplus 0%Q l.

Definition Qlen (l : list Q) : Q := inject_Z (Z.of_nat (length l)).

(** [Series.mean()], skipna: [nan] on a column without a value. *)
Definition mean (col : list float) : float :=
  match dropna col with
  | [] => nan
  | v => fin (Qsum v / Qlen v)%Q
  end.

(** The sum of squared deviations from the mean, over [count - 1]. *)
Definition var (v : list Q) : Q :=
  let m := (Qsum v / Qlen v)%Q in
  (Qsum (map (fun x => (x - m) * (x - m))%Q v) / (Qlen v - 1))%Q.

(** [Series.std()], skipna and ddof=1: [nan] below two values. *)
Definition std (col : list float) : surd :=
  match dropna col with
  | [] | [_] => snan
  | v => c_sqrt 1 (var v)
  end.

Fixpoint Qinsert (x : Q) (l : list Q) : list Q :=
  match l with
  | [] => [x]
  | y :: l' => if Qle_bool x y then x :: l else y :: Qinsert x l'
  end.

Definition Qsort (l : list Q) : list Q := fold_right Qinsert [] l.

(** [Series.quantile(q)] with [q = num/den], linear interpolation
    between the two order statistics around position [(n-1) * q]. *)
Definition quantile (col : list float) (num den : Z) : float :=
  match Qsort (dropna col) with
  | [] => nan
  | (x :: _) as v =>
      let pos := (Z.of_nat (length v) - 1) * num in
      let lo := nth (Z.to_nat (pos / den)) v x in
      let hi := nth (S (Z.to_nat (pos / den))) v lo in
      fin (lo + (hi - lo) * (inject_Z (pos mod den) / inject_Z den))%Q
  end.

(** ** Tables *)

Inductive cell : Type :=
  | Str (s : string)
  | Num (x : float).

(** A frame as read from a sheet: its columns in order, each with its
    name. *)
Definition column : Type := list cell.
Definition DataFrame : Type := list (string * column).

(** A row of the long-form differences table built by [melt]. *)
Record row : Type := mk_row {
  Year_Pair : cell;
  Sensor : string;
  Difference : float
}.

(** [df[mask]]: the rows whose mask entry is [True], in order. *)
Fixpoint select (df : list row) (mask : list bool) : list row :=
  match df, mask with
  | r :: df', b :: mask' => if b then r :: select df' mask' else select df' mask'
  | _, _ => []
  end.

(** ** Exceptions *)

(** [InvalidLiteral s] is the [ValueError] that [int(s)] raises: its
    message is "invalid literal for int() with base 10: " followed by the
    [repr] of [s], which is kept here as [s] itself.  [FileExistsError]
    and [NotADirectoryError] are those of [os.makedirs]. *)
Inductive exn : Type :=
  | ValueError (msg : string)
  | InvalidLiteral (literal : string)
  | KeyError (key : string)
  | IndexError
  | TypeError
  | FileNotFoundError (path : string)
  | FileExistsError (path : string)
  | NotADirectoryError
  | SystemExit (code : Z).

Definition result (A : Type) : Type := (exn + A)%type.

(** ** detect_outliers *)

Definition detect_outliers (df : list row) (method : string)
    (abs_thr z_thr iqr_fac : float) : result (list row) :=
  let col := map Difference df in
  if String.eqb method "abs" then
    inr (select df (map (fun d => fge (fabs d) abs_thr) col))
  else if String.eqb method "zscore" then
    inr (select df (map (fun d => fge_surd (fabs (fsub d (mean col)))
                                           (smul z_thr (std col))) col))
  else if String.eqb method "iqr" then
    let q1 := quantile col 1 4 in
    let q3 := quantile col 3 4 in
    let iqr := fsub q3 q1 in
    let lower := fsub q1 (fmul iqr_fac iqr) in
    let upper := fadd q3 (fmul iqr_fac iqr) in
    inr (select df (map (fun d => flt d lower || fgt d upper) col))
  else inl (ValueError ("Unknown method: " ++ method)).

(** ** Strings *)

Definition is_digit (c : ascii) : bool :=
  (48 <=? N_of_ascii c)%N && (N_of_ascii c <=? 57)%N.

Definition digit_val (c : ascii) : Z := Z.of_N (N_of_ascii c) - 48.

(** Characters are code points below 256.  [is_space] is [str.isspace]
    there, the white space of [str.split()]: the controls 9-13 and 28-31,
    the space, U+0085 and U+00A0. *)
Definition is_space (c : ascii) : bool :=
  let n := N_of_ascii c in
  ((9 <=? n)%N && (n <=? 13)%N) || ((28 <=? n)%N && (n <=? 32)%N)
  || (n =? 133)%N || (n =? 160)%N.

(** The white space [int()] strips around a literal: the controls 9-13
    and the space, and U+0085 and U+00A0, which it reads as spaces; the
    separators 28-31 are not among them. *)
Definition is_space_int (c : ascii) : bool :=
  let n := N_of_ascii c in
  ((9 <=? n)%N && (n <=? 13)%N) || (n =? 32)%N
  || (n =? 133)%N || (n =? 160)%N.

(** The lower case of a character: A-Z, and the capital letters of
    Latin-1 (192-222 but the sign at 215), are 32 below their small
    letters. *)
Definition lower_ascii (c : ascii) : ascii :=
  let n := N_of_ascii c in
  if ((65 <=? n)%N && (n <=? 90)%N)
     || ((192 <=? n)%N && (n <=? 222)%N && negb (n =? 215)%N)
  then ascii_of_N (n + 32) else c.

(** [s.lower()] *)
Fixpoint lower (s : string) : string :=
  match s with
  | EmptyString => EmptyString
  | String c s' => String (lower_ascii c) (lower s')
  end.

(** [sub in s] *)
Fixpoint contains (sub s : string) : bool :=
  match s with
  | EmptyString => String.prefix sub EmptyString
  | String _ s' => String.prefix sub s || contains sub s'
  end.

(** [s.split()]: the maximal runs of characters that are not white
    space.  [cur] is the run being read, reversed. *)
Fixpoint split_aux (cur : list ascii) (s : string) : list string :=
  let flush := match cur with
               | [] => []
               | _ => [string_of_list_ascii (rev cur)]
               end in
  match s with
  | EmptyString => flush
  | String c s' =>
      if is_space c then flush ++ split_aux [] s' else split_aux (c :: cur) s'
  end.

Definition split (s : string) : list string := split_aux [] s.

(** What [int()] leaves of a literal once the white space before it is
    skipped, and once the white space after it is. *)
Fixpoint lstrip (s : string) : string :=
  match s with
  | EmptyString => EmptyString
  | String c s' => if is_space_int c then lstrip s' else s
  end.

Fixpoint rstrip (s : string) : string :=
  match s with
  | EmptyString => EmptyString
  | String c s' =>
      match rstrip s' with
      | EmptyString => if is_space_int c then EmptyString else String c EmptyString
      | t => String c t
      end
  end.

(** The digits of an integer literal, single underscores allowed between
    digits.  [after_digit] tells whether the previous character was a
    digit. *)
Fixpoint digits_val (acc : Z) (after_digit : bool) (s : string) : option Z :=
  match s with
  | EmptyString => if after_digit then Some acc else None
  | String c s' =>
      if is_digit c then digits_val (10 * acc + digit_val c) true s'
      else if Ascii.eqb c "_" && after_digit then digits_val acc false s'
      else None
  end.

(** [int(s)] in base ten; [None] stands for the [ValueError]. *)
Definition py_int (s : string) : option Z :=
  match rstrip (lstrip s) with
  | String "-" t => option_map Z.opp (digits_val 0 false t)
  | String "+" t => digits_val 0 false t
  | t => digits_val 0 false t
  end.

(** [str(n)] of an integer, as an f-string renders it. *)
Definition py_str (n : Z) : string := NilZero.string_of_int (Z.to_int n).

(** [re.findall(r'(\d{4})', s)]: scanning from the left, four digits in
    a row are a match and the scan resumes after them; otherwise it moves
    on by one character. *)
Fixpoint findall4 (s : string) : list string :=
  match s with
  | EmptyString => []
  | String a t =>
      match t with
      | String b (String c (String d r)) =>
          if is_digit a && is_digit b && is_digit c && is_digit d
          then String a (String b (String c (String d EmptyString))) :: findall4 r
          else findall4 t
      | _ => []
      end
  end.

(** ** Paths (posixpath) *)

Fixpoint str_take (n : nat) (s : string) : string :=
  match n, s with
  | S n', String c s' => String c (str_take n' s')
  | _, _ => EmptyString
  end.

Fixpoint str_drop (n : nat) (s : string) : string :=
  match n, s with
  | S n', String _ s' => str_drop n' s'
  | _, _ => s
  end.

(** [s.rfind(c)]; [None] stands for -1. *)
Fixpoint rfind (c : ascii) (s : string) : option nat :=
  match s with
  | EmptyString => None
  | String a s' =>
      match rfind c s' with
      | Some i => Some (S i)
      | None => if Ascii.eqb a c then Some O else None
      end
  end.

(** [os.path.basename(p)]: what follows the last slash. *)
Definition basename (p : string) : string :=
  match rfind "/" p with
  | Some i => str_drop (S i) p
  | None => p
  end.

Fixpoint all_dots (s : string) : bool :=
  match s with
  | EmptyString => true
  | String c s' => Ascii.eqb c "." && all_dots s'
  end.

(** [os.path.splitext(p)]: split at the last dot of the last component,
    unless only dots precede it there. *)
Definition splitext (p : string) : string * string :=
  let start := match rfind "/" p with Some i => S i | None => O end in
  match rfind "." p with
  | Some d =>
      if (start <=? d)%nat && negb (all_dots (str_take (d - start) (str_drop start p)))
      then (str_take d p, str_drop d p)
      else (p, EmptyString)
  | None => (p, EmptyString)
  end.

Definition ends_with_sep (p : string) : bool :=
  match rfind "/" p with
  | Some i => (S i =? String.length p)%nat
  | None => false
  end.

Definition starts_with_sep (p : string) : bool :=
  match p with
  | String c _ => Ascii.eqb c "/"
  | EmptyString => false
  end.

(** [os.path.join(a, b)] *)
Definition join (a b : string) : string :=
  if starts_with_sep b then b
  else if (String.length a =? 0)%nat || ends_with_sep a then a ++ b
  else a ++ "/" ++ b.

(** ** The world of a run *)

Inductive file : Type :=
  | Xlsx (sheets : list (string * DataFrame))
  | Png.

Inductive event : Type :=
  | Makedirs (dir : string)
  | ReadExcel (path sheet : string)
  | ToExcel (path sheet : string)
  | LogInfo (msg : string)
  | LogWarning (sheet : string) (e : exn)
  | Savefig (path : string) (xticks : list (cell * Z))
  | Print (n_rows : nat).

Record world : Type := mk_world {
  files : gmap string file;
  trace : list event
}.

Definition emit (e : event) (w : world) : world :=
  mk_world (files w) (trace w ++ [e]).

(** State and exceptions: a statement runs in a world and either raises
    or returns, leaving the world it reached. *)
Definition M (A : Type) : Type := world -> result A * world.

Definition ret {A} (a : A) : M A := fun w => (inr a, w).

Definition raise {A} (e : exn) : M A := fun w => (inl e, w).

Definition bind {A B} (m : M A) (k : A -> M B) : M B :=
  fun w => match m w with
           | (inl e, w') => (inl e, w')
           | (inr a, w') => k a w'
           end.

Definition lift {A} (r : result A) : M A := fun w => (r, w).

Definition tell (e : event) : M unit := fun w => (inr tt, emit e w).

Notation "x <- m ;; k" := (bind m (fun x => k))
  (at level 100, m at next level, right associativity).
Notation "m ;;; k" := (bind m (fun _ => k))
  (at level 100, right associativity).

(** [try: m except Exception as e: h e].  [SystemExit] is not an
    [Exception] and passes through. *)
Definition try_except {A} (m : M A) (h : exn -> M A) : M A :=
  fun w => match m w with
           | (inl (SystemExit c), w') => (inl (SystemExit c), w')
           | (inl e, w') => h e w'
           | (inr a, w') => (inr a, w')
           end.

Fixpoint assoc {A} (k : string) (l : list (string * A)) : option A :=
  match l with
  | [] => None
  | (k', a) :: l' => if String.eqb k k' then Some a else assoc k l'
  end.

(** What [pd.read_excel(path, sheet_name=sheet)] finds in a store. *)
Definition lookup_sheet (fs : gmap string file) (path sheet : string)
    : result DataFrame :=
  match fs !! path with
  | None => inl (FileNotFoundError path)
  | Some Png => inl (ValueError "Excel file format cannot be determined")
  | Some (Xlsx sheets) =>
      match assoc sheet sheets with
      | None => inl (ValueError ("Worksheet named '" ++ sheet ++ "' not found"))
      | Some df => inr df
      end
  end.

(** [pd.read_excel(path, sheet_name=sheet)] *)
Definition read_excel (path sheet : string) : M DataFrame :=
  tell (ReadExcel path sheet) ;;;
  fun w => (lookup_sheet (files w) path sheet, w).

(** [df.to_excel(path, sheet_name=sheet, index=False)]: the file at
    [path] becomes a workbook with this one sheet. *)
Definition to_excel (path sheet : string) (df : DataFrame) : M unit :=
  fun w => (inr tt,
            mk_world (<[path := Xlsx [(sheet, df)]]> (files w))
                     (trace w ++ [ToExcel path sheet])).

(** ** Directories *)

Definition is_file (fs : gmap string file) (p : string) : bool :=
  match fs !! p with
  | Some _ => true
  | None => false
  end.

Fixpoint all_seps (s : string) : bool :=
  match s with
  | EmptyString => true
  | String c s' => Ascii.eqb c "/" && all_seps s'
  end.

(** [p.rstrip('/')] *)
Fixpoint rstrip_sep (p : string) : string :=
  match p with
  | EmptyString => EmptyString
  | String c p' =>
      match rstrip_sep p' with
      | EmptyString => if Ascii.eqb c "/" then EmptyString else String c EmptyString
      | t => String c t
      end
  end.

(** A file stands where [p] needs a directory: at what precedes one of
    the slashes of [p], with a further component after that slash.  [pre]
    is the part of the path already gone through. *)
Fixpoint file_above (fs : gmap string file) (pre p : string) : bool :=
  match p with
  | EmptyString => false
  | String c p' =>
      (Ascii.eqb c "/" && is_file fs pre && negb (all_seps p'))
      || file_above fs (pre ++ String c EmptyString) p'
  end.

(** [os.makedirs(dir, exist_ok=True)] in a store of files: the empty
    path is a [FileNotFoundError], a file on the way a
    [NotADirectoryError], a file at the path itself a [FileExistsError];
    otherwise the directory is there when the call returns. *)
Definition makedirs (dir : string) : M unit :=
  fun w =>
    if (String.length dir =? 0)%nat then (inl (FileNotFoundError dir), w)
    else if file_above (files w) EmptyString dir then (inl NotADirectoryError, w)
    else if is_file (files w) (rstrip_sep dir) then (inl (FileExistsError dir), w)
    else (inr tt, emit (Makedirs dir) w).

(** ** Command line *)

Record cmdline : Type := mk_cmdline {
  cl_input : option string;
  cl_sheet_summary : option string;
  cl_method : option string;
  cl_threshold : option float;
  cl_zscore : option float;
  cl_iqr_factor : option float;
  cl_output : option string
}.

Record args : Type := mk_args {
  input : string;
  sheet_summary : string;
  method : string;
  threshold : float;
  zscore : float;
  iqr_factor : float;
  output : string
}.

Definition method_choices : list string := ["abs"; "zscore"; "iqr"].

Definition in_choices (m : string) : bool :=
  existsb (String.eqb m) method_choices.

(** [parse_args()]: argparse leaves with status 2 when the required
    input is missing or the method is not one of the choices.  The text of
    the numeric options is taken as already converted. *)
Definition parse_args (cl : cmdline) : result args :=
  match cl_input cl with
  | None => inl (SystemExit 2)
  | Some i =>
      let m := default "abs" (cl_method cl) in
      if in_choices m then
        inr (mk_args i
               (default "Year-to-Year Differences" (cl_sheet_summary cl))
               m
               (default (fin (1 # 10)) (cl_threshold cl))
               (default (fin 3) (cl_zscore cl))
               (default (fin (3 # 2)) (cl_iqr_factor cl))
               (default "output" (cl_output cl)))
      else inl (SystemExit 2)
  end.

(** ** melt *)

(** The rows of one value column, against the identifier column. *)
Fixpoint melt_column (ids : column) (name : string) (vals : column)
    : result (list row) :=
  match ids, vals with
  | i :: ids', Num x :: vals' =>
      match melt_column ids' name vals' with
      | inr rows => inr (mk_row i name x :: rows)
      | inl e => inl e
      end
  | _ :: _, Str _ :: _ => inl TypeError
  | _, _ => inr []
  end.

Fixpoint melt_columns (ids : column) (cols : DataFrame) : result (list row) :=
  match cols with
  | [] => inr []
  | (name, vals) :: cols' =>
      match melt_column ids name vals, melt_columns ids cols' with
      | inr a, inr b => inr (a ++ b)
      | inl e, _ => inl e
      | _, inl e => inl e
      end
  end.

(** The argument of the [KeyError] of [melt] when the identifier column
    is not in the frame. *)
Definition missing_id_vars : string :=
  "The following id_vars or value_vars are not present in the DataFrame: ['Year_Pair']".

(** [diff_df.melt(id_vars='Year_Pair', var_name='Sensor',
    value_name='Difference')]: one row per value column and table row,
    column by column.  The differences are numbers: a text cell among them
    is the [TypeError] that pandas raises in the detector's arithmetic,
    before anything else happens. *)
Definition melt (df : DataFrame) : result (list row) :=
  if existsb (fun c => String.eqb (fst c) "Difference") df
  then inl (ValueError "value_name (Difference) cannot match an element in the DataFrame columns.")
  else match assoc "Year_Pair" df with
       | None => inl (KeyError missing_id_vars)
       | Some ids =>
           melt_columns ids
             (List.filter (fun c => negb (String.eqb (fst c) "Year_Pair")) df)
       end.

(** ** The correction loop *)

Record correction : Type := mk_correction {
  c_Year_Pair : cell;
  c_Sensor : Z;
  c_OrigDiff : float;
  c_OffsetApplied : float;
  c_CorrectedFile : string
}.

(** [s.split()[-1]] *)
Definition last_token (s : string) : result string :=
  match last (split s) with
  | Some t => inr t
  | None => inl IndexError
  end.

(** [int(s)] *)
Definition int (s : string) : result Z :=
  match py_int s with
  | Some n => inr n
  | None => inl (InvalidLiteral s)
  end.

(** [int(label.split()[-1])]: the sensor number of a column label. *)
Definition sensor_of (label : string) : result Z :=
  match last_token label with
  | inl e => inl e
  | inr tok => int tok
  end.

(** [re.findall(r'(\d{4})', pair)]: a label that is not text is a
    [TypeError]. *)
Definition re_findall (pair : cell) : result (list string) :=
  match pair with
  | Str s => inr (findall4 s)
  | Num _ => inl TypeError
  end.

(** [df[col]] *)
Definition getitem (df : DataFrame) (col : string) : result column :=
  match assoc col df with
  | Some c => inr c
  | None => inl (KeyError col)
  end.

(** [series + offset], element by element; text plus a number is a
    [TypeError]. *)
Fixpoint add_offset (c : column) (offset : float) : result column :=
  match c with
  | [] => inr []
  | Num x :: c' =>
      match add_offset c' offset with
      | inr t => inr (Num (fadd x offset) :: t)
      | inl e => inl e
      end
  | Str _ :: _ => inl TypeError
  end.

(** [df[col] = values]: in place when the column exists, appended
    otherwise. *)
Fixpoint setitem (df : DataFrame) (col : string) (values : column) : DataFrame :=
  match df with
  | [] => [(col, values)]
  | (name, c) :: df' =>
      if String.eqb col name then (name, values) :: df'
      else (name, c) :: setitem df' col values
  end.

Definition columns (df : DataFrame) : list string := map fst df.

(** Lines 110-112: the last column goes when its name contains 'time',
    whatever the case.  [df_raw.columns[-1]] is an [IndexError] on a sheet
    without columns. *)
Definition drop_time (df_raw : DataFrame) : result DataFrame :=
  match last (columns df_raw) with
  | None => inl IndexError
  | Some last_col =>
      inr (if contains "time" (lower last_col)
           then removelast df_raw else df_raw)
  end.

(** Line 116: [df_raw[col] = df_raw[col] + offset]. *)
Definition shift (df_raw : DataFrame) (col : string) (offset : float)
    : result DataFrame :=
  match getitem df_raw col with
  | inl e => inl e
  | inr old =>
      match add_offset old offset with
      | inl e => inl e
      | inr new => inr (setitem df_raw col new)
      end
  end.

Definition sheet_of (next_year : Z) : string := "Raw Data " ++ py_str next_year.

Definition sensor_column (sensor : Z) : string := "V" ++ py_str sensor.

Definition out_file_of (a : args) (next_year : Z) : string :=
  join (output a)
       (fst (splitext (basename (input a))) ++ "_" ++ py_str next_year
        ++ "_corrected.xlsx").

(** The body of [for _, row in outliers.iterrows()]: it returns the list
    [corrections] as the iteration leaves it. *)
Definition loop_body (a : args) (corrections : list correction) (r : row)
    : M (list correction) :=
  let pair := Year_Pair r in
  sensor <- lift (sensor_of (Sensor r)) ;;
  let diff := Difference r in
  years <- lift (re_findall pair) ;;
  match years with
  | [y0; _] =>
      next_year <- lift (int y0) ;;
      let sheet := sheet_of next_year in
      read <- try_except
                (df <- read_excel (input a) sheet ;; ret (Some df))
                (fun e => tell (LogWarning sheet e) ;;; ret None) ;;
      match read with
      | None => ret corrections
      | Some df_raw =>
          df_raw <- lift (drop_time df_raw) ;;
          let col := sensor_column sensor in
          let offset := fneg diff in
          df_raw <- lift (shift df_raw col offset) ;;
          let out_file := out_file_of a next_year in
          to_excel out_file sheet df_raw ;;;
          ret (corrections ++
               [mk_correction pair sensor diff offset out_file])
      end
  | _ => ret corrections
  end.

Fixpoint loop (a : args) (corrections : list correction) (outliers : list row)
    : M (list correction) :=
  match outliers with
  | [] => ret corrections
  | r :: outliers' =>
      corrections' <- loop_body a corrections r ;;
      loop a corrections' outliers'
  end.

(** ** main *)

(** [pd.DataFrame(corrections)] *)
Definition summary_frame (cs : list correction) : DataFrame :=
  match cs with
  | [] => []
  | _ => [("Year_Pair", map c_Year_Pair cs);
          ("Sensor", map (fun c => Num (fin (inject_Z (c_Sensor c)))) cs);
          ("OrigDiff", map (fun c => Num (c_OrigDiff c)) cs);
          ("OffsetApplied", map (fun c => Num (c_OffsetApplied c)) cs);
          ("CorrectedFile", map (fun c => Str (c_CorrectedFile c)) cs)]
  end.

(** The tick labels of the plot, [f"{r['Year_Pair']}/S{int(r['Sensor'])}"]:
    the whole sensor label goes through [int]. *)
Fixpoint xtick_labels (outliers : list row) : result (list (cell * Z)) :=
  match outliers with
  | [] => inr []
  | r :: outliers' =>
      match int (Sensor r) with
      | inl e => inl e
      | inr s =>
          match xtick_labels outliers' with
          | inl e => inl e
          | inr t => inr ((Year_Pair r, s) :: t)
          end
      end
  end.

Definition savefig (path : string) (xticks : list (cell * Z)) : M unit :=
  fun w => (inr tt,
            mk_world (<[path := Png]> (files w))
                     (trace w ++ [Savefig path xticks])).

Definition main (cl : cmdline) : M unit :=
  a <- lift (parse_args cl) ;;
  makedirs (output a) ;;;
  tell (LogInfo "Loading year-to-year differences") ;;;
  diff_df <- read_excel (input a) (sheet_summary a) ;;
  long_df <- lift (melt diff_df) ;;
  outliers <- lift (detect_outliers long_df (method a) (threshold a)
                      (zscore a) (iqr_factor a)) ;;
  tell (LogInfo ("Detected " ++ py_str (Z.of_nat (length outliers))
                 ++ " outliers using '" ++ method a ++ "' method")%string) ;;;
  corrections <- loop a [] outliers ;;
  let corr_file := join (output a) "corrections_summary.xlsx" in
  to_excel corr_file "Sheet1" (summary_frame corrections) ;;;
  tell (LogInfo ("Saved corrections summary to '" ++ corr_file ++ "'")%string) ;;;
  xticks <- lift (xtick_labels outliers) ;;
  let plot_file := join (output a) "outliers_plot.png" in
  savefig plot_file xticks ;;;
  tell (LogInfo ("Saved plot to '" ++ plot_file ++ "'")%string) ;;;
  tell (Print (length corrections)).

(** The world before a run: the files there are, nothing done yet. *)
Definition start (fs : gmap string file) : world := mk_world fs [].

(** * The arithmetic in binary64

    The detector and the correction once more, over the binary64 numbers
    of the machine, with their rounding, their infinities and their NaN:
    [PrimFloat] computes the sums, differences, products and comparisons
    that numpy computes.  What the statements about arithmetic need is
    here; texts, paths and exceptions are those above. *)

#[local] Set Warnings "-inexact-float".

Module F64.

Definition f64 : Type := PrimFloat.float.

(** ** Tables *)

Inductive cell : Type :=
  | Str (s : string)
  | Num (x : f64).

Definition column : Type := list cell.
Definition DataFrame : Type := list (string * column).

Record row : Type := mk_row {
  Year_Pair : cell;
  Sensor : string;
  Difference : f64
}.

(** [df[mask]] *)
Fixpoint select (df : list row) (mask : list bool) : list row :=
  match df, mask with
  | r :: df', b :: mask' => if b then r :: select df' mask' else select df' mask'
  | _, _ => []
  end.

(** ** detect_outliers *)

Section Detector.

(** The reductions of pandas are taken as they come: [mean col] is the
    number [col.mean()] returns, [std col] that of [col.std()], and
    [quantile col num den] that of [col.quantile(num/den)].  Which sums
    they round, and in which order, is up to numpy, to bottleneck and to
    the length of the column. *)
Variables mean std : list f64 -> f64.
Variable quantile : list f64 -> Z -> Z -> f64.

(** Lines 65-75.  [a >= b] on floats is [b <= a]; every comparison with
    NaN is false. *)
Definition detect_outliers (df : list row) (method : string)
    (abs_thr z_thr iqr_fac : f64) : result (list row) :=
  let col := map Difference df in
  if String.eqb method "abs" then
    inr (select df (map (fun d => (abs_thr <=? PrimFloat.abs d)%float) col))
  else if String.eqb method "zscore" then
    inr (select df
           (map (fun d => (z_thr * std col <=? PrimFloat.abs (d - mean col))%float)
                col))
  else if String.eqb method "iqr" then
    let q1 := quantile col 1 4 in
    let q3 := quantile col 3 4 in
    let iqr := (q3 - q1)%float in
    let lower := (q1 - iqr_fac * iqr)%float in
    let upper := (q3 + iqr_fac * iqr)%float in
    inr (select df (map (fun d => (d <? lower)%float || (upper <? d)%float) col))
  else inl (ValueError ("Unknown method: " ++ method)).

End Detector.

(** ** The reductions on a short column

    [pandas.core.nanops] on a column of fewer than eight values, which
    numpy sums in sequence: the values present are summed, the mean is the
    sum over their count, the deviation the square root of the summed
    squares of [mean - x] over the count less one; NaN without a value,
    respectively below two. *)

Definition dropna (col : list f64) : list f64 :=
  List.filter (fun x => negb (PrimFloat.is_nan x)) col.

Definition fsum (v : list f64) : f64 := fold_left PrimFloat.add v 0%float.

Definition count (v : list f64) : f64 :=
  PrimFloat.of_uint63 (Uint63.of_Z (Z.of_nat (length v))).

Definition nanmean (col : list f64) : f64 :=
  match dropna col with
  | [] => PrimFloat.nan
  | v => (fsum v / count v)%float
  end.

Definition nanstd (col : list f64) : f64 :=
  match dropna col with
  | [] | [_] => PrimFloat.nan
  | v =>
      let avg := (fsum v / count v)%float in
      PrimFloat.sqrt
        (fsum (map (fun x => ((avg - x) * (avg - x))%float) v) / (count v - 1))%float
  end.

Fixpoint insert (x : f64) (l : list f64) : list f64 :=
  match l with
  | [] => [x]
  | y :: l' => if (x <=? y)%float then x :: l else y :: insert x l'
  end.

Definition sort (l : list f64) : list f64 := fold_right insert [] l.

(** numpy's linear interpolation between two neighbours. *)
Definition lerp (a b t : f64) : f64 :=
  if (t <? 0.5)%float then (a + (b - a) * t)%float
  else (b - (b - a) * (1 - t))%float.

(** [Series.quantile(num/den)], for [den] a power of two: the position
    [(n-1) * num / den] and its fraction are exact. *)
Definition nanquantile (col : list f64) (num den : Z) : f64 :=
  match sort (dropna col) with
  | [] => PrimFloat.nan
  | (x :: _) as v =>
      let pos := (Z.of_nat (length v) - 1) * num in
      let lo := nth (Z.to_nat (pos / den)) v x in
      let hi := nth (S (Z.to_nat (pos / den))) v lo in
      lerp lo hi (PrimFloat.of_uint63 (Uint63.of_Z (pos mod den))
                  / PrimFloat.of_uint63 (Uint63.of_Z den))%float
  end.

(** ** The correction loop *)

Record correction : Type := mk_correction {
  c_Year_Pair : cell;
  c_Sensor : Z;
  c_OrigDiff : f64;
  c_OffsetApplied : f64;
  c_CorrectedFile : string
}.

Inductive file : Type :=
  | Xlsx (sheets : list (string * DataFrame))
  | Png.

Inductive event : Type :=
  | ReadExcel (path sheet : string)
  | ToExcel (path sheet : string)
  | LogWarning (sheet : string) (e : exn).

Record world : Type := mk_world {
  files : gmap string file;
  trace : list event
}.

Definition emit (e : event) (w : world) : world :=
  mk_world (files w) (trace w ++ [e]).

Definition M (A : Type) : Type := world -> result A * world.

Definition ret {A} (a : A) : M A := fun w => (inr a, w).

Definition bind {A B} (m : M A) (k : A -> M B) : M B :=
  fun w => match m w with
           | (inl e, w') => (inl e, w')
           | (inr a, w') => k a w'
           end.

Definition lift {A} (r : result A) : M A := fun w => (r, w).

Definition tell (e : event) : M unit := fun w => (inr tt, emit e w).

Declare Scope f64_scope.
Notation "x <- m ;; k" := (bind m (fun x => k))
  (at level 100, m at next level, right associativity) : f64_scope.
Notation "m ;;; k" := (bind m (fun _ => k))
  (at level 100, right associativity) : f64_scope.
Local Open Scope f64_scope.

Definition try_except {A} (m : M A) (h : exn -> M A) : M A :=
  fun w => match m w with
           | (inl (SystemExit c), w') => (inl (SystemExit c), w')
           | (inl e, w') => h e w'
           | (inr a, w') => (inr a, w')
           end.

Definition lookup_sheet (fs : gmap string file) (path sheet : string)
    : result DataFrame :=
  match fs !! path with
  | None => inl (FileNotFoundError path)
  | Some Png => inl (ValueError "Excel file format cannot be determined")
  | Some (Xlsx sheets) =>
      match assoc sheet sheets with
      | None => inl (ValueError ("Worksheet named '" ++ sheet ++ "' not found"))
      | Some df => inr df
      end
  end.

Definition read_excel (path sheet : string) : M DataFrame :=
  tell (ReadExcel path sheet) ;;;
  fun w => (lookup_sheet (files w) path sheet, w).

Definition to_excel (path sheet : string) (df : DataFrame) : M unit :=
  fun w => (inr tt,
            mk_world (<[path := Xlsx [(sheet, df)]]> (files w))
                     (trace w ++ [ToExcel path sheet])).

Definition re_findall (pair : cell) : result (list string) :=
  match pair with
  | Str s => inr (findall4 s)
  | Num _ => inl TypeError
  end.

(** [df[col]] *)
Definition getitem (df : DataFrame) (col : string) : result column :=
  match assoc col df with
  | Some c => inr c
  | None => inl (KeyError col)
  end.

(** [series + offset]: each reading plus the offset, rounded to the
    nearest binary64. *)
Fixpoint add_offset (c : column) (offset : f64) : result column :=
  match c with
  | [] => inr []
  | Num x :: c' =>
      match add_offset c' offset with
      | inr t => inr (Num (x + offset)%float :: t)
      | inl e => inl e
      end
  | Str _ :: _ => inl TypeError
  end.

(** [df[col] = values] *)
Fixpoint setitem (df : DataFrame) (col : string) (values : column) : DataFrame :=
  match df with
  | [] => [(col, values)]
  | (name, c) :: df' =>
      if String.eqb col name then (name, values) :: df'
      else (name, c) :: setitem df' col values
  end.

Definition columns (df : DataFrame) : list string := map fst df.

(** Lines 110-112. *)
Definition drop_time (df_raw : DataFrame) : result DataFrame :=
  match last (columns df_raw) with
  | None => inl IndexError
  | Some last_col =>
      inr (if contains "time" (lower last_col)
           then removelast df_raw else df_raw)
  end.

(** Line 116: [df_raw[col] = df_raw[col] + offset]. *)
Definition shift (df_raw : DataFrame) (col : string) (offset : f64)
    : result DataFrame :=
  match getitem df_raw col with
  | inl e => inl e
  | inr old =>
      match add_offset old offset with
      | inl e => inl e
      | inr new => inr (setitem df_raw col new)
      end
  end.

(** Lines 94-128. *)
Definition loop_body (a : args) (corrections : list correction) (r : row)
    : M (list correction) :=
  let pair := Year_Pair r in
  sensor <- lift (sensor_of (Sensor r)) ;;
  let diff := Difference r in
  years <- lift (re_findall pair) ;;
  match years with
  | [y0; _] =>
      next_year <- lift (int y0) ;;
      let sheet := sheet_of next_year in
      read <- try_except
                (df <- read_excel (input a) sheet ;; ret (Some df))
                (fun e => tell (LogWarning sheet e) ;;; ret None) ;;
      match read with
      | None => ret corrections
      | Some df_raw =>
          df_raw <- lift (drop_time df_raw) ;;
          let col := sensor_column sensor in
          let offset := (- diff)%float in
          df_raw <- lift (shift df_raw col offset) ;;
          let out_file := out_file_of a next_year in
          to_excel out_file sheet df_raw ;;;
          ret (corrections ++
               [mk_correction pair sensor diff offset out_file])
      end
  | _ => ret corrections
  end.

Definition start (fs : gmap string file) : world := mk_world fs [].

(** ** Vocabulary *)

(** A cell of the corrected column against the cell it comes from: the
    reading plus the offset, as binary64 adds them. *)
Definition shifted_by (offset : f64) (original corrected : cell) : Prop :=
  exists x, original = Num x /\ corrected = Num (x + offset)%float.

(** The world an iteration leaves when it corrects. *)
Definition corrected_world (a : args) (next_year : Z) (out : DataFrame)
    (w : world) : world :=
  mk_world
    (<[out_file_of a next_year := Xlsx [(sheet_of next_year, out)]]> (files w))
    (trace w ++ [ReadExcel (input a) (sheet_of next_year);
                 ToExcel (out_file_of a next_year) (sheet_of next_year)]).

(** The records whose difference is a number. *)
Definition present (r : row) : bool := negb (PrimFloat.is_nan (Difference r)).

(** The rational a finite binary64 number is: its mantissa times two
    to its exponent, with its sign. *)
Definition to_Q (x : f64) : option Q :=
  match Prim2SF x with
  | S754_zero _ => Some 0%Q
  | S754_finite s m e =>
      Some ((if s then - inject_Z (Z.pos m) else inject_Z (Z.pos m))
            * Qpower 2 e)%Q
  | _ => None
  end.

(** [c - v == t] between the numbers themselves, without rounding. *)
Definition exact_difference (c v t : f64) : bool :=
  match to_Q c, to_Q v, to_Q t with
  | Some c, Some v, Some t => Qeq_bool (c - v) t
  | _, _, _ => false
  end.

(** Classes of binary64 numbers on their specification: the numbers
    other than NaN, the finite ones, the two zeros. *)
Definition not_nan (x : spec_float) : bool :=
  match x with S754_nan => false | _ => true end.

Definition finite_sf (x : spec_float) : bool :=
  match x with S754_zero _ | S754_finite _ _ _ => true | _ => false end.

Definition zero_sf (x : spec_float) : bool :=
  match x with S754_zero _ => true | _ => false end.

(** A number of sign [s] ([true] is minus). *)
Definition has_sign (s : bool) (x : spec_float) : bool :=
  match x with
  | S754_zero b | S754_infinity b | S754_finite b _ _ => Bool.eqb b s
  | S754_nan => false
  end.

(** Readings 0.1 and 0.7 of sensor 1 in 2020, and an outlier of
    difference -0.2 for it. *)
Definition fs_tenths : gmap string file :=
  {[ "in/data.xlsx" :=
       Xlsx [("Raw Data 2020",
               [("V1", [Num 0.1%float; Num 0.7%float]);
                ("TimeStamp", [Str "08:00"; Str "09:00"])])] ]}.

Definition row_tenths : row :=
  mk_row (Str "2020-2021") "Sensor 1" (-0.2)%float.

(** Differences 1, 2, 3; three times 0.1; three times 2^1023; and two
    times 5. *)
Definition df_123 : list row :=
  [mk_row (Str "2019-2020") "Sensor 1" 1%float;
   mk_row (Str "2019-2020") "Sensor 2" 2%float;
   mk_row (Str "2019-2020") "Sensor 3" 3%float].

Definition df_tenths : list row :=
  [mk_row (Str "2019-2020") "Sensor 1" 0.1%float;
   mk_row (Str "2019-2020") "Sensor 2" 0.1%float;
   mk_row (Str "2019-2020") "Sensor 3" 0.1%float].

Definition df_huge : list row :=
  [mk_row (Str "2019-2020") "Sensor 1" 0x1p1023%float;
   mk_row (Str "2019-2020") "Sensor 2" 0x1p1023%float;
   mk_row (Str "2019-2020") "Sensor 3" 0x1p1023%float].

Definition df_55 : list row :=
  [mk_row (Str "2019-2020") "Sensor 1" 5%float;
   mk_row (Str "2019-2020") "Sensor 2" 5%float].

(** One record without a difference between two with one. *)
Definition df_gap : list row :=
  [mk_row (Str "2019-2020") "Sensor 1" 1%float;
   mk_row (Str "2019-2020") "Sensor 2" PrimFloat.nan;
   mk_row (Str "2019-2020") "Sensor 3" 9%float].

Definition df_spread : list row :=
  [mk_row (Str "2019-2020") "Sensor 1" 0.38%float;
   mk_row (Str "2019-2020") "Sensor 2" 0.36%float;
   mk_row (Str "2019-2020") "Sensor 3" (-0.02)%float;
   mk_row (Str "2019-2020") "Sensor 4" 0.53%float;
   mk_row (Str "2019-2020") "Sensor 5" 0.22%float].

End F64.

(** ** Vocabulary of the statements *)

Definition is_fin (x : float) : bool :=
  match x with fin _ => true | nan => false end.

(** [a == b] on floats: false as soon as one side is [nan]. *)
Definition feq (a b : float) : bool :=
  match a, b with fin x, fin y => Qeq_bool x y | _, _ => false end.


Definition flagged_abs (abs_thr : float) (r : row) : bool :=
  fge (fabs (Difference r)) abs_thr.

(** Three records with differences 1, 2, 3: mean 2, deviation 1. *)
Definition df_123 : list row :=
  [mk_row (Str "2019-2020") "Sensor 1" (fin 1);
   mk_row (Str "2019-2020") "Sensor 2" (fin 2);
   mk_row (Str "2019-2020") "Sensor 3" (fin 3)].

(** Two records with the same difference: deviation 0. *)
Definition df_55 : list row :=
  [mk_row (Str "2019-2020") "Sensor 1" (fin 5);
   mk_row (Str "2019-2020") "Sensor 2" (fin 5)].

(** The world an iteration leaves when it corrects: the sheet was read,
    the corrected frame is the one sheet of the file written. *)
Definition corrected_world (a : args) (next_year : Z) (out : DataFrame)
    (w : world) : world :=
  mk_world
    (<[out_file_of a next_year := Xlsx [(sheet_of next_year, out)]]> (files w))
    (trace w ++ [ReadExcel (input a) (sheet_of next_year);
                 ToExcel (out_file_of a next_year) (sheet_of next_year)]).

(** What an iteration that corrects went through, line by line. *)
Record corrects (a : args) (r : row) (w : world)
    (sensor next_year : Z) (raw out : DataFrame) : Prop := mk_corrects {
  cor_sensor : sensor_of (Sensor r) = inr sensor;
  cor_years : exists s y0 y1,
      Year_Pair r = Str s /\ findall4 s = [y0; y1] /\ int y0 = inr next_year;
  cor_read : lookup_sheet (files w) (input a) (sheet_of next_year) = inr raw;
  cor_shift : exists dropped,
      drop_time raw = inr dropped
      /\ shift dropped (sensor_column sensor) (fneg (Difference r)) = inr out
}.

(** The name reads 'time' somewhere, each letter small or capital. *)
Definition has_time (name : string) : Prop :=
  exists pre t i m e post,
    name = (pre ++ String t (String i (String m (String e post))))%string
    /\ (t = "t" \/ t = "T")%char /\ (i = "i" \/ i = "I")%char
    /\ (m = "m" \/ m = "M")%char /\ (e = "e" \/ e = "E")%char.

(** The raw readings of 2020 in [wb_2020], as [read_excel] returns
    them. *)
Definition raw_2020 : DataFrame :=
  [("V1", [Num (fin 1); Num (fin 2)]);
   ("V3", [Num (fin 10); Num nan]);
   ("TimeStamp", [Str "08:00"; Str "09:00"])].

(** Lines 98-101: the year an outlier is corrected in, when its label
    holds two year tokens. *)
Definition target_year (r : row) : option Z :=
  match re_findall (Year_Pair r) with
  | inr [y0; _] => py_int y0
  | _ => None
  end.

(** A workbook with the differences of two sensors over two year pairs
    and the raw readings of 2020, time stamps in the last column. *)
Definition wb_2020 : file :=
  Xlsx [("Year-to-Year Differences",
          [("Year_Pair", [Str "2019-2020"; Str "2020-2021"]);
           ("Sensor 1", [Num (fin (5 # 100)); Num (fin (30 # 100))]);
           ("Sensor 3", [Num (fin (1 # 100)); Num (fin (25 # 100))])]);
        ("Raw Data 2020",
          [("V1", [Num (fin 1); Num (fin 2)]);
           ("V3", [Num (fin 10); Num nan]);
           ("TimeStamp", [Str "08:00"; Str "09:00"])])].

Definition fs_2020 : gmap string file := {[ "in/data.xlsx" := wb_2020 ]}.

Definition args_2020 : args :=
  mk_args "in/data.xlsx" "Year-to-Year Differences" "abs"
          (fin (1 # 10)) (fin 3) (fin (3 # 2)) "output".

Definition row_s1 : row := mk_row (Str "2020-2021") "Sensor 1" (fin (30 # 100)).
Definition row_s3 : row := mk_row (Str "2020-2021") "Sensor 3" (fin (25 # 100)).

Definition digits10 : list ascii :=
  ["0"; "1"; "2"; "3"; "4"; "5"; "6"; "7"; "8"; "9"]%char.

Definition token4 (a b c d : ascii) : string :=
  String a (String b (String c (String d EmptyString))).

(** The number a token of four digits denotes. *)
Definition value4 (a b c d : ascii) : Z :=
  1000 * digit_val a + 100 * digit_val b + 10 * digit_val c + digit_val d.

(** [str(int(tok)) == tok] over the tokens of four digits that do not
    start with a zero. *)
Definition str_int_roundtrip : bool :=
  forallb (fun a => forallb (fun b => forallb (fun c => forallb (fun d =>
    Ascii.eqb a "0" || String.eqb (py_str (value4 a b c d)) (token4 a b c d))
    digits10) digits10) digits10) digits10.

(** A workbook whose outliers are sensor 2, without a column in the raw
    sheet, and then sensor 3, with one. *)
Definition wb_missing : file :=
  Xlsx [("Year-to-Year Differences",
          [("Year_Pair", [Str "2020-2021"]);
           ("Sensor 2", [Num (fin (50 # 100))]);
           ("Sensor 3", [Num (fin (25 # 100))])]);
        ("Raw Data 2020",
          [("V1", [Num (fin 1); Num (fin 2)]);
           ("V3", [Num (fin 10); Num (fin 11)])])].

Definition fs_missing : gmap string file := {[ "in/data.xlsx" := wb_missing ]}.

Definition cl_data : cmdline :=
  mk_cmdline (Some "in/data.xlsx") None None None None None None.

(** The same differences under plain numbers as sensor labels. *)
Definition wb_plain : file :=
  Xlsx [("Year-to-Year Differences",
          [("Year_Pair", [Str "2020-2021"]);
           ("1", [Num (fin (5 # 100))]);
           ("3", [Num (fin (25 # 100))])]);
        ("Raw Data 2020",
          [("V1", [Num (fin 1); Num (fin 2)]);
           ("V3", [Num (fin 10); Num (fin 11)])])].

Definition fs_plain : gmap string file := {[ "in/data.xlsx" := wb_plain ]}.

Definition no_files : gmap string file := ∅.

(** ** Vocabulary of the further statements *)

(** The test of the 'iqr' method on one record, as lines 71-74 write
    it. *)
Definition flagged_iqr (col : list float) (iqr_fac : float) (r : row) : bool :=
  let q1 := quantile col 1 4 in
  let q3 := quantile col 3 4 in
  let iqr := fsub q3 q1 in
  flt (Difference r) (fsub q1 (fmul iqr_fac iqr))
  || fgt (Difference r) (fadd q3 (fmul iqr_fac iqr)).

(** One record without a difference between two with one. *)
Definition df_gap : list row :=
  [mk_row (Str "2019-2020") "Sensor 1" (fin 1);
   mk_row (Str "2019-2020") "Sensor 2" nan;
   mk_row (Str "2019-2020") "Sensor 3" (fin 9)].

(** A workbook whose raw sheet has no column. *)
Definition fs_empty_sheet : gmap string file :=
  {[ "in/data.xlsx" := Xlsx [("Raw Data 2020", [])] ]}.

(** A record of the summary against the outliers of the run: its
    offset is the opposite of its difference, and it comes from one of the
    outliers, whose label, difference, sensor number and year it holds. *)
Definition recorded (a : args) (rows : list row) (c : correction) : Prop :=
  c_OffsetApplied c = fneg (c_OrigDiff c)
  /\ exists r y,
       In r rows
       /\ c_Year_Pair c = Year_Pair r
       /\ c_OrigDiff c = Difference r
       /\ sensor_of (Sensor r) = inr (c_Sensor c)
       /\ target_year r = Some y
       /\ c_CorrectedFile c = out_file_of a y.

(** What [to_excel] leaves at a path: a workbook of one sheet. *)
Definition one_sheet (o : option file) : Prop :=
  exists sheet df, o = Some (Xlsx [(sheet, df)]).

(** The world of [main] once it has asked for the differences sheet
    (lines 80-84). *)
Definition asked (a : args) (w : world) : world :=
  mk_world (files w)
    (trace w ++ [Makedirs (output a);
                 LogInfo "Loading year-to-year differences";
                 ReadExcel (input a) (sheet_summary a)]).

Definition corr_file_of (a : args) : string :=
  join (output a) "corrections_summary.xlsx".

Definition plot_file_of (a : args) : string :=
  join (output a) "outliers_plot.png".

(** The world of [main] once the summary is written (lines 130-133). *)
Definition summarized (a : args) (cs : list correction) (w : world) : world :=
  mk_world
    (<[corr_file_of a := Xlsx [("Sheet1", summary_frame cs)]]> (files w))
    (trace w ++ [ToExcel (corr_file_of a) "Sheet1";
                 LogInfo ("Saved corrections summary to '" ++ corr_file_of a
                          ++ "'")%string]).

(** The world of [main] at its end (lines 135-155). *)
Definition plotted (a : args) (cs : list correction)
    (xticks : list (cell * Z)) (w : world) : world :=
  mk_world
    (<[plot_file_of a := Png]> (files w))
    (trace w ++ [Savefig (plot_file_of a) xticks;
                 LogInfo ("Saved plot to '" ++ plot_file_of a ++ "'")%string;
                 Print (length cs)]).

(** What [main] does from the outliers on (lines 91-155). *)
Definition correct_and_report (a : args) (outliers : list row) (w : world)
    : result unit * world :=
  match loop a [] outliers
          (emit (LogInfo ("Detected " ++ py_str (Z.of_nat (length outliers))
                          ++ " outliers using '" ++ method a ++ "' method")%string)
                w) with
  | (inl e, w2) => (inl e, w2)
  | (inr cs, w2) =>
      match xtick_labels outliers with
      | inl e => (inl e, summarized a cs w2)
      | inr xticks => (inr tt, plotted a cs xticks (summarized a cs w2))
      end
  end.

(** The world of [main] when the loop starts (line 91). *)
Definition screened (a : args) (outliers : list row) (w : world) : world :=
  emit (LogInfo ("Detected " ++ py_str (Z.of_nat (length outliers))
                 ++ " outliers using '" ++ method a ++ "' method")%string)
       (asked a w).

Fixpoint no_space (s : string) : bool :=
  match s with
  | EmptyString => true
  | String c s' => negb (is_space c) && no_space s'
  end.

(** * Properties *)

(** ** The detector *)

Lemma select_filter (p : float -> bool) (df : list row) :
  select df (map p (map Difference df))
  = List.filter (fun r => p (Difference r)) df.
Proof.
  induction df as [|r df IH]; simpl; [reflexivity|].
  rewrite IH. reflexivity.
Qed.

Lemma filter_nil_iff {A} (p : A -> bool) (l : list A) :
  (forall x, In x l -> p x = false) -> List.filter p l = [].
Proof.
  induction l as [|x l IH]; simpl; intros H; [reflexivity|].
  rewrite (H x) by (left; reflexivity).
  apply IH. intros y Hy. apply H. right. exact Hy.
Qed.

Lemma fge_fabs_spec (d t : float) :
  fge (fabs d) t = true <->
  exists q u, d = fin q /\ t = fin u /\ (u <= Qabs q)%Q.
Proof.
  destruct d as [|q], t as [|u]; simpl; split.
  all: try discriminate.
  all: try (intros (q' & u' & H1 & H2 & _); discriminate).
  - intros H. exists q, u. repeat split. apply Qle_bool_iff. exact H.
  - intros (q' & u' & H1 & H2 & H3). inversion H1; inversion H2; subst.
    apply Qle_bool_iff. exact H3.
Qed.

(** C1.  With method 'abs' the detector returns the records whose
    absolute difference is at least the threshold, in their order, and
    none when the threshold exceeds every absolute difference. *)
Theorem detect_abs_exact (df : list row) (abs_thr z_thr iqr_fac : float) :
  detect_outliers df "abs" abs_thr z_thr iqr_fac
    = inr (List.filter (flagged_abs abs_thr) df)
  /\ (forall r, flagged_abs abs_thr r = true <->
        exists d t, Difference r = fin d /\ abs_thr = fin t /\ (t <= Qabs d)%Q)
  /\ (forall t, abs_thr = fin t ->
        (forall r d, In r df -> Difference r = fin d -> (Qabs d < t)%Q) ->
        detect_outliers df "abs" abs_thr z_thr iqr_fac = inr []).
Proof.
  assert (E : detect_outliers df "abs" abs_thr z_thr iqr_fac
              = inr (List.filter (flagged_abs abs_thr) df)).
  { unfold detect_outliers. simpl. rewrite select_filter. reflexivity. }
  split; [exact E|]. split.
  - intros r. unfold flagged_abs. apply fge_fabs_spec.
  - intros t Ht Hmax. rewrite E. f_equal.
    apply filter_nil_iff. intros r Hr.
    destruct (flagged_abs abs_thr r) eqn:F; [|reflexivity].
    apply fge_fabs_spec in F. destruct F as (d & u & Hd & Hu & Hle).
    rewrite Ht in Hu. inversion Hu; subst u.
    specialize (Hmax r d Hr Hd). lra.
Qed.

Example detect_abs_exact_witness :
  detect_outliers df_123 "abs" (fin 4) (fin 3) (fin (3 # 2)) = inr [].
Proof.
  apply (proj2 (proj2 (detect_abs_exact df_123 (fin 4) (fin 3) (fin (3 # 2))))
           4%Q eq_refl).
  intros r d Hr Hd. simpl in Hr.
  destruct Hr as [<-|[<-|[<-|[]]]]; inversion Hd; subst; reflexivity.
Defined.

Lemma filter_ext_in {A} (p q : A -> bool) (l : list A) :
  (forall x, In x l -> p x = q x) -> List.filter p l = List.filter q l.
Proof.
  induction l as [|x l IH]; simpl; intros H; [reflexivity|].
  rewrite (H x) by (left; reflexivity).
  rewrite IH; [reflexivity|]. intros y Hy. apply H. right. exact Hy.
Qed.

Lemma detect_zscore_eq (df : list row) (abs_thr z_thr iqr_fac : float) :
  detect_outliers df "zscore" abs_thr z_thr iqr_fac
  = inr (List.filter
           (fun r => fge_surd (fabs (fsub (Difference r)
                                          (mean (map Difference df))))
                              (smul z_thr (std (map Difference df)))) df).
Proof.
  unfold detect_outliers. simpl.
  rewrite (select_filter
             (fun d => fge_surd (fabs (fsub d (mean (map Difference df))))
                                (smul z_thr (std (map Difference df))))).
  reflexivity.
Qed.

Lemma mean_fin (col : list float) :
  dropna col <> [] ->
  mean col = fin (Qsum (dropna col) / Qlen (dropna col))%Q.
Proof.
  unfold mean. destruct (dropna col); [congruence|reflexivity].
Qed.

Lemma std_defined (col : list float) :
  (2 <= length (dropna col))%nat ->
  std col = c_sqrt 1 (var (dropna col)).
Proof.
  unfold std. destruct (dropna col) as [|x [|y v]]; simpl; try lia.
  reflexivity.
Qed.

Lemma std_undefined (col : list float) :
  (length (dropna col) < 2)%nat -> std col = snan.
Proof.
  unfold std. destruct (dropna col) as [|x [|y v]]; simpl; try lia;
    reflexivity.
Qed.

(** Below two values there is no deviation and nothing is flagged. *)
Lemma zscore_undefined (df : list row) (abs_thr z_thr iqr_fac : float) :
  (length (dropna (map Difference df)) < 2)%nat ->
  detect_outliers df "zscore" abs_thr z_thr iqr_fac = inr [].
Proof.
  intros H. rewrite detect_zscore_eq, (std_undefined _ H).
  f_equal. apply filter_nil_iff. intros r _.
  destruct z_thr; simpl;
    destruct (fabs (fsub (Difference r) (mean (map Difference df))));
    reflexivity.
Qed.

(** C4, refuted as stated: with threshold 0 on the differences 1, 2, 3
    the detector returns all three records, the one equal to the mean
    among them. *)
Lemma zscore_zero_keeps_mean :
  detect_outliers df_123 "zscore" (fin (1 # 10)) (fin 0) (fin (3 # 2))
    = inr df_123
  /\ In (mk_row (Str "2019-2020") "Sensor 2" (fin 2)) df_123
  /\ feq (fin 2) (mean (map Difference df_123)) = true.
Proof.
  split; [reflexivity|]. split; [right; left; reflexivity|reflexivity].
Qed.

Lemma Qsquare_nonneg (x : Q) : (0 <= x * x)%Q.
Proof.
  destruct (Qlt_le_dec x 0) as [N|P].
  - assert (E : (x * x == (- x) * (- x))%Q) by ring.
    rewrite E. apply Qmult_le_0_compat; lra.
  - apply Qmult_le_0_compat; exact P.
Qed.

Lemma Qsum_squares_nonneg (m : Q) (v : list Q) :
  (0 <= Qsum (map (fun x => (x - m) * (x - m)) v))%Q.
Proof.
  induction v as [|z v IH]; simpl; [lra|].
  pose proof (Qsquare_nonneg (z - m)). lra.
Qed.

Lemma Qlen_ge_2 (v : list Q) :
  (2 <= length v)%nat -> (0 < Qlen v - 1)%Q.
Proof.
  intros H. unfold Qlen.
  assert (L : (2 <= inject_Z (Z.of_nat (length v)))%Q).
  { change 2%Q with (inject_Z 2). rewrite <- Zle_Qle. lia. }
  lra.
Qed.


Lemma not_in_choices (m : string) :
  ~ In m method_choices ->
  String.eqb m "abs" = false /\ String.eqb m "zscore" = false
  /\ String.eqb m "iqr" = false.
Proof.
  intros H. repeat split; apply String.eqb_neq; intros ->; apply H;
    unfold method_choices; simpl; tauto.
Qed.

(** C9.  A method outside abs, zscore, iqr makes the detector raise
    instead of falling back on a method; on the command line it stops the
    run in [parse_args], before any file is read or written. *)
Theorem unknown_method_fatal (df : list row) (m : string)
    (abs_thr z_thr iqr_fac : float) (cl : cmdline) (fs : gmap string file) :
  ~ In m method_choices ->
  detect_outliers df m abs_thr z_thr iqr_fac
    = inl (ValueError ("Unknown method: " ++ m))
  /\ (cl_method cl = Some m ->
      main cl (start fs) = (inl (SystemExit 2), start fs)).
Proof.
  intros H. destruct (not_in_choices m H) as (A & Z & I). split.
  - unfold detect_outliers. rewrite A, Z, I. reflexivity.
  - intros Hm. unfold main, bind, lift, parse_args. rewrite Hm.
    destruct (cl_input cl); [|reflexivity].
    unfold in_choices, method_choices. simpl. rewrite A, Z, I. reflexivity.
Qed.

Example unknown_method_fatal_witness :
  detect_outliers df_123 "median" (fin (1 # 10)) (fin 3) (fin (3 # 2))
    = inl (ValueError "Unknown method: median")
  /\ main (mk_cmdline (Some "data.xlsx") None (Some "median") None None None None)
          (start no_files)
     = (inl (SystemExit 2), start no_files).
Proof.
  destruct (unknown_method_fatal df_123 "median" (fin (1 # 10)) (fin 3)
              (fin (3 # 2))
              (mk_cmdline (Some "data.xlsx") None (Some "median") None None None None)
              no_files) as [D R].
  - unfold method_choices. simpl. intros [E|[E|[E|[]]]]; discriminate.
  - split; [exact D|]. apply R. reflexivity.
Defined.

(** ** The correction loop *)

(** Opens the statements of the body up to the sheet lookup. *)
Ltac open_read :=
  unfold try_except, read_excel, bind, tell, ret, emit; cbn [files trace].

(** An iteration either corrects, and then it went through every line of
    the body, or leaves the files and the list of corrections as they
    were. *)
Lemma loop_body_cases (a : args) (cs : list correction) (r : row) (w : world)
    (res : result (list correction)) (w' : world) :
  loop_body a cs r w = (res, w') ->
  (files w' = files w
   /\ (forall cs', res = inr cs' -> cs' = cs)
   /\ (forall p s, ~ In (ToExcel p s) (trace w) -> ~ In (ToExcel p s) (trace w')))
  \/ (exists sensor next_year raw out,
        corrects a r w sensor next_year raw out
        /\ res = inr (cs ++ [mk_correction (Year_Pair r) sensor (Difference r)
                               (fneg (Difference r)) (out_file_of a next_year)])
        /\ w' = corrected_world a next_year out w).
Proof.
  unfold loop_body, bind, lift.
  destruct (sensor_of (Sensor r)) as [e|sensor] eqn:S.
  { intros [= <- <-]. left. repeat split; auto; discriminate. }
  destruct (re_findall (Year_Pair r)) as [e|years] eqn:Y.
  { intros [= <- <-]. left. repeat split; auto; discriminate. }
  destruct years as [|y0 [|y1 [|y2 years]]];
    try (intros [= <- <-]; left; repeat split; auto; congruence).
  destruct (int y0) as [e|year] eqn:I.
  { intros [= <- <-]. left. repeat split; auto; discriminate. }
  open_read.
  destruct (lookup_sheet (files w) (input a) (sheet_of year)) as [e|raw] eqn:L.
  { assert (K : forall p s ev, ev <> ToExcel p s ->
                ~ In (ToExcel p s) (trace w) ->
                ~ In (ToExcel p s) (trace w ++ [ReadExcel (input a) (sheet_of year); ev])).
    { intros p s ev Hev Hn Hin. apply in_app_or in Hin.
      destruct Hin as [Hin|[Hin|[Hin|[]]]]; [tauto|discriminate|congruence]. }
    destruct e; intros [= <- <-]; left; cbn [files trace];
      (repeat split; [congruence| ]);
      intros p s Hn; try (rewrite <- app_assoc; apply K; [discriminate|exact Hn]).
    intros Hin. apply in_app_or in Hin.
    destruct Hin as [Hin|[Hin|[]]]; [tauto|discriminate]. }
  assert (K1 : forall p s, ~ In (ToExcel p s) (trace w) ->
               ~ In (ToExcel p s) (trace w ++ [ReadExcel (input a) (sheet_of year)])).
  { intros p s Hn Hin. apply in_app_or in Hin.
    destruct Hin as [Hin|[Hin|[]]]; [tauto|discriminate]. }
  destruct (drop_time raw) as [e|dropped] eqn:D.
  { intros [= <- <-]. left. cbn [files trace]. repeat split; auto; discriminate. }
  destruct (shift dropped (sensor_column sensor) (fneg (Difference r)))
    as [e|out] eqn:H.
  { intros [= <- <-]. left. cbn [files trace]. repeat split; auto; discriminate. }
  unfold to_excel. cbn [files trace]. intros [= <- <-]. right.
  exists sensor, year, raw, out. split; [|split].
  - constructor.
    + exact S.
    + unfold re_findall in Y. destruct (Year_Pair r) as [s|x]; [|discriminate].
      injection Y as Y. exists s, y0, y1. auto.
    + exact L.
    + exists dropped. auto.
  - reflexivity.
  - unfold corrected_world. f_equal. rewrite <- app_assoc. reflexivity.
Qed.

Lemma loop_body_corrects (a : args) (cs : list correction) (r : row) (w : world)
    (sensor next_year : Z) (raw out : DataFrame) :
  corrects a r w sensor next_year raw out ->
  loop_body a cs r w
  = (inr (cs ++ [mk_correction (Year_Pair r) sensor (Difference r)
                   (fneg (Difference r)) (out_file_of a next_year)]),
     corrected_world a next_year out w).
Proof.
  intros [S (s & y0 & y1 & P & F & I) L (dropped & D & H)].
  unfold loop_body, bind, lift. rewrite S, P. cbn [re_findall]. rewrite F, I.
  open_read.
  rewrite L, D, H. unfold to_excel, corrected_world. cbn [files trace].
  rewrite <- app_assoc. reflexivity.
Qed.

Lemma app_one_neq {A} (l : list A) (x : A) : l ++ [x] <> l.
Proof.
  intros E. apply (f_equal (@length A)) in E.
  rewrite length_app in E. simpl in E. lia.
Qed.

(** An iteration that appended a record is one that corrected. *)
Lemma loop_body_appended (a : args) (cs : list correction) (r : row) (w : world)
    (cs' : list correction) (w' : world) :
  loop_body a cs r w = (inr cs', w') -> cs' <> cs ->
  exists sensor next_year raw out,
    corrects a r w sensor next_year raw out
    /\ cs' = cs ++ [mk_correction (Year_Pair r) sensor (Difference r)
                      (fneg (Difference r)) (out_file_of a next_year)]
    /\ w' = corrected_world a next_year out w.
Proof.
  intros E N. apply loop_body_cases in E.
  destruct E as [(_ & K & _)|(sensor & y & raw & out & C & R & W)].
  - exfalso. apply N. apply K. reflexivity.
  - exists sensor, y, raw, out. injection R as R. auto.
Qed.

(** C7.  An outlier whose label holds a number of year tokens other
    than two is passed over: the iteration raises nothing, appends no
    record, writes no file and leaves the world as it was, and the run goes
    on with the next outlier. *)
Theorem malformed_label_skipped (a : args) (cs : list correction) (r : row)
    (w : world) (sensor : Z) (label : string) :
  sensor_of (Sensor r) = inr sensor ->
  Year_Pair r = Str label ->
  length (findall4 label) <> 2%nat ->
  loop_body a cs r w = (inr cs, w)
  /\ (forall rest, loop a cs (r :: rest) w = loop a cs rest w).
Proof.
  intros S P L.
  assert (E : loop_body a cs r w = (inr cs, w)).
  { unfold loop_body, bind, lift. rewrite S, P. cbn [re_findall].
    destruct (findall4 label) as [|y0 [|y1 [|y2 years]]]; try reflexivity.
    simpl in L. congruence. }
  split; [exact E|].
  intros rest. cbn [loop]. unfold bind. rewrite E. reflexivity.
Qed.

Example malformed_label_skipped_witness :
  loop_body (mk_args "data.xlsx" "Year-to-Year Differences" "abs"
               (fin (1 # 10)) (fin 3) (fin (3 # 2)) "output")
            [] (mk_row (Str "2019-2020-2021") "Sensor 3" (fin (1 # 4)))
            (start no_files)
  = (inr [], start no_files).
Proof.
  apply (malformed_label_skipped _ [] _ (start no_files) 3 "2019-2020-2021");
    [reflexivity|reflexivity|].
  vm_compute. lia.
Defined.

(** ** Frames *)

Lemma assoc_removelast {A} (k : string) (l : list (string * A)) (v : A) :
  assoc k (removelast l) = Some v -> assoc k l = Some v.
Proof.
  induction l as [|[k' x] l IH]; simpl; [discriminate|].
  destruct l as [|p l]; [discriminate|].
  cbn [assoc]. destruct (String.eqb k k'); [auto|]. exact IH.
Qed.

Lemma assoc_setitem_eq (df : DataFrame) (col : string) (old new : column) :
  assoc col df = Some old -> assoc col (setitem df col new) = Some new.
Proof.
  induction df as [|[name c] df IH]; simpl; [discriminate|].
  destruct (String.eqb col name) eqn:E; simpl; rewrite E; auto.
Qed.

Lemma assoc_setitem_ne (df : DataFrame) (col name : string) (new : column) :
  name <> col -> assoc name (setitem df col new) = assoc name df.
Proof.
  intros N. apply String.eqb_neq in N.
  induction df as [|[k c] df IH]; simpl.
  - rewrite N. reflexivity.
  - destruct (String.eqb col k) eqn:E; simpl.
    + apply String.eqb_eq in E. subst k. rewrite N. reflexivity.
    + rewrite IH. reflexivity.
Qed.

Lemma columns_setitem (df : DataFrame) (col : string) (old new : column) :
  assoc col df = Some old -> columns (setitem df col new) = columns df.
Proof.
  unfold columns. induction df as [|[name c] df IH]; simpl; [discriminate|].
  destruct (String.eqb col name) eqn:E; simpl; [reflexivity|].
  intros H. rewrite IH; auto.
Qed.

Lemma columns_removelast (df : DataFrame) :
  columns (removelast df) = removelast (columns df).
Proof.
  unfold columns. induction df as [|p df IH]; [reflexivity|].
  destruct df as [|q df]; [reflexivity|].
  change (fst p :: map fst (removelast (q :: df))
          = fst p :: removelast (map fst (q :: df))).
  rewrite IH. reflexivity.
Qed.

Lemma last_not_in_removelast {A} (l : list A) (x : A) :
  NoDup l -> last l = Some x -> ~ In x (removelast l).
Proof.
  intros ND L. apply last_Some in L as [l' ->]. rewrite removelast_last.
  apply NoDup_app in ND as (_ & H & _). intros Hin.
  apply (H x); [apply list_elem_of_In; exact Hin|left].
Qed.

Lemma drop_time_cases (raw dropped : DataFrame) :
  drop_time raw = inr dropped ->
  exists last_col, last (columns raw) = Some last_col
    /\ dropped = if contains "time" (lower last_col)
                 then removelast raw else raw.
Proof.
  unfold drop_time. destruct (last (columns raw)) as [c|]; [|discriminate].
  intros [= <-]. exists c. auto.
Qed.

Lemma shift_cases (df out : DataFrame) (col : string) (offset : float) :
  shift df col offset = inr out ->
  exists old new, assoc col df = Some old /\ add_offset old offset = inr new
    /\ out = setitem df col new.
Proof.
  unfold shift, getitem. destruct (assoc col df) as [old|]; [|discriminate].
  destruct (add_offset old offset) as [e|new] eqn:E; [discriminate|].
  intros [= <-]. exists old, new. repeat split. exact E.
Qed.

Lemma lookup_sheet_written (fs : gmap string file) (path sheet : string)
    (df : DataFrame) :
  lookup_sheet (<[path := Xlsx [(sheet, df)]]> fs) path sheet = inr df.
Proof.
  unfold lookup_sheet. rewrite lookup_insert_eq. simpl.
  rewrite String.eqb_refl. reflexivity.
Qed.

Lemma lower_app (s t : string) : lower (s ++ t) = (lower s ++ lower t)%string.
Proof.
  induction s as [|c s IH]; [reflexivity|].
  change (String (lower_ascii c) (lower (s ++ t)%string)
          = String (lower_ascii c) (lower s ++ lower t)%string).
  rewrite IH. reflexivity.
Qed.

Lemma contains_app (sub pre s : string) :
  String.prefix sub s = true -> contains sub (pre ++ s)%string = true.
Proof.
  intros H. induction pre as [|c pre IH].
  - change (contains sub s = true).
    destruct s as [|c s]; cbn [contains]; rewrite H; reflexivity.
  - change (contains sub (String c (pre ++ s)%string) = true).
    cbn [contains]. rewrite IH. apply orb_true_r.
Qed.

(** A name that reads 'time' passes the test of line 111. *)
Lemma has_time_contains (name : string) :
  has_time name -> contains "time" (lower name) = true.
Proof.
  intros (pre & t & i & m & e & post & -> & Ht & Hi & Hm & He).
  rewrite lower_app. apply contains_app.
  cbn [lower].
  destruct Ht as [-> | ->], Hi as [-> | ->], Hm as [-> | ->], He as [-> | ->];
    cbn; destruct (lower post); reflexivity.
Qed.

Lemma assoc_split {A} (k : string) (l : list (string * A)) (v : A) :
  assoc k l = Some v ->
  exists pre post, l = pre ++ (k, v) :: post /\ ~ In k (map fst pre).
Proof.
  induction l as [|[k' x] l IH]; simpl; [discriminate|].
  destruct (String.eqb k k') eqn:E.
  - apply String.eqb_eq in E. subst k'. intros [= ->].
    exists [], l. split; [reflexivity|]. simpl. tauto.
  - intros H. destruct (IH H) as (pre & post & -> & N).
    exists ((k', x) :: pre), post. split; [reflexivity|].
    simpl. intros [K|K]; [|exact (N K)].
    apply String.eqb_neq in E. congruence.
Qed.

Lemma setitem_split (pre post : DataFrame) (col : string) (old new : column) :
  ~ In col (columns pre) ->
  setitem (pre ++ (col, old) :: post) col new = pre ++ (col, new) :: post.
Proof.
  unfold columns. induction pre as [|[k c] pre IH]; simpl; intros N.
  - rewrite String.eqb_refl. reflexivity.
  - destruct (String.eqb col k) eqn:E.
    + apply String.eqb_eq in E. subst k. tauto.
    + rewrite IH by tauto. reflexivity.
Qed.

(** Line 116 on a frame: the first column of that name, and only it, is
    replaced by its cells plus the offset; the frame keeps its columns and
    their order. *)
Lemma shift_structure (df out : DataFrame) (col : string) (offset : float) :
  shift df col offset = inr out ->
  exists pre old new post,
    df = pre ++ (col, old) :: post
    /\ ~ In col (columns pre)
    /\ add_offset old offset = inr new
    /\ out = pre ++ (col, new) :: post.
Proof.
  intros H. destruct (shift_cases _ _ _ _ H) as (old & new & G & O & ->).
  destruct (assoc_split _ _ _ G) as (pre & post & -> & N).
  exists pre, old, new, post. repeat split; [exact N|exact O|].
  apply setitem_split. exact N.
Qed.

(** C8.  When the name of the last column of the sheet read has 'time'
    in it, whatever the case of its letters, the iteration goes on with
    the sheet without that column: the offset is applied to it, and the
    table written has the columns of the sheet but the last one, in their
    order and, but for the sensor's, as read; the name is gone from it.
    When the sensor's column is not in what is left the iteration
    raises. *)
Theorem time_column_dropped (a : args) (cs : list correction) (r : row)
    (w : world) (sensor year : Z) (raw : DataFrame) (last_col : string) :
  sensor_of (Sensor r) = inr sensor ->
  target_year r = Some year ->
  lookup_sheet (files w) (input a) (sheet_of year) = inr raw ->
  last (columns raw) = Some last_col ->
  has_time last_col ->
  loop_body a cs r w
  = match shift (removelast raw) (sensor_column sensor)
            (fneg (Difference r)) with
    | inl e => (inl e, emit (ReadExcel (input a) (sheet_of year)) w)
    | inr out =>
        (inr (cs ++ [mk_correction (Year_Pair r) sensor (Difference r)
                       (fneg (Difference r)) (out_file_of a year)]),
         corrected_world a year out w)
    end
  /\ forall out,
       shift (removelast raw) (sensor_column sensor) (fneg (Difference r))
         = inr out ->
       columns out = removelast (columns raw)
       /\ (NoDup (columns raw) -> ~ In last_col (columns out))
       /\ exists pre old new post,
            removelast raw = pre ++ (sensor_column sensor, old) :: post
            /\ out = pre ++ (sensor_column sensor, new) :: post.
Proof.
  intros S T L HL HT. split.
  - unfold target_year in T.
    unfold loop_body, bind, lift. rewrite S.
    destruct (re_findall (Year_Pair r)) as [e|[|y0 [|y1 [|y2 years]]]];
      try discriminate T.
    unfold int. rewrite T. open_read. rewrite L.
    unfold drop_time. rewrite HL, (has_time_contains _ HT).
    destruct (shift (removelast raw) (sensor_column sensor)
                (fneg (Difference r))) as [e|out]; [reflexivity|].
    unfold to_excel, corrected_world. cbn [files trace].
    rewrite <- app_assoc. reflexivity.
  - intros out H.
    destruct (shift_structure _ _ _ _ H) as (pre & old & new & post & E & _ & _ & ->).
    assert (C : columns (pre ++ (sensor_column sensor, new) :: post)
                = removelast (columns raw)).
    { rewrite <- columns_removelast, E. unfold columns.
      rewrite !map_app. reflexivity. }
    split; [exact C|]. split.
    + intros ND. rewrite C. apply last_not_in_removelast; assumption.
    + exists pre, old, new, post. split; [exact E|reflexivity].
Qed.

Example time_column_dropped_witness :
  has_time "TimeStamp"
  /\ loop_body args_2020 [] row_s3 (start fs_2020)
     = (inr [mk_correction (Str "2020-2021") 3 (fin (25 # 100))
               (fneg (fin (25 # 100))) "output/data_2020_corrected.xlsx"],
        corrected_world args_2020 2020
          [("V1", [Num (fin 1); Num (fin 2)]);
           ("V3", [Num (fadd (fin 10) (fneg (fin (25 # 100)))); Num nan])]
          (start fs_2020)).
Proof.
  assert (HT : has_time "TimeStamp").
  { exists "", "T"%char, "i"%char, "m"%char, "e"%char, "Stamp".
    repeat split; auto. }
  split; [exact HT|].
  destruct (time_column_dropped args_2020 [] row_s3 (start fs_2020) 3 2020
              raw_2020 "TimeStamp") as [E _];
    [reflexivity|reflexivity|reflexivity|reflexivity|exact HT|].
  rewrite E. reflexivity.
Defined.

(** ** Year tokens *)

Lemma digit_cases (c : ascii) : is_digit c = true -> In c digits10.
Proof.
  destruct c as [[] [] [] [] [] [] [] []]; intros H;
    try discriminate H; unfold digits10; simpl; tauto.
Qed.

Lemma digit_not_space (c : ascii) : is_digit c = true -> is_space c = false.
Proof.
  intros H. apply digit_cases in H. unfold digits10 in H. simpl in H.
  repeat (destruct H as [<-|H]; [reflexivity|]). contradiction.
Qed.

(** What [int()] strips is white space for [str.split()] too. *)
Lemma not_space_int (c : ascii) : is_space c = false -> is_space_int c = false.
Proof.
  destruct c as [[] [] [] [] [] [] [] []]; intros H;
    try discriminate H; reflexivity.
Qed.

Lemma findall4_step (a b c d : ascii) (r : string) :
  findall4 (String a (String b (String c (String d r))))
  = if is_digit a && is_digit b && is_digit c && is_digit d
    then token4 a b c d :: findall4 r
    else findall4 (String b (String c (String d r))).
Proof. reflexivity. Qed.

Lemma findall4_tokens (s y : string) :
  In y (findall4 s) ->
  exists a b c d, y = token4 a b c d
    /\ is_digit a = true /\ is_digit b = true
    /\ is_digit c = true /\ is_digit d = true.
Proof.
  remember (String.length s) as n eqn:Hn.
  revert s Hn. induction n as [n IH] using lt_wf_ind. intros s Hn.
  destruct s as [|a [|b [|c [|d r]]]]; try (simpl; tauto).
  rewrite findall4_step.
  destruct (is_digit a && is_digit b && is_digit c && is_digit d) eqn:E.
  - intros [<-|Hin].
    + apply andb_prop in E as [E Ed]. apply andb_prop in E as [E Ec].
      apply andb_prop in E as [Ea Eb]. exists a, b, c, d. auto.
    + apply (IH (String.length r)) with (s := r);
        [subst n; simpl; lia|reflexivity|exact Hin].
  - apply (IH (String.length (String b (String c (String d r)))));
      [subst n; simpl; lia|reflexivity].
Qed.

Lemma py_int_token4 (a b c d : ascii) :
  is_digit a = true -> is_digit b = true ->
  is_digit c = true -> is_digit d = true ->
  py_int (token4 a b c d) = Some (value4 a b c d).
Proof.
  intros Ha Hb Hc Hd. unfold py_int, token4.
  pose proof (not_space_int _ (digit_not_space _ Ha)) as Sa.
  pose proof (not_space_int _ (digit_not_space _ Hb)) as Sb.
  pose proof (not_space_int _ (digit_not_space _ Hc)) as Sc.
  pose proof (not_space_int _ (digit_not_space _ Hd)) as Sd.
  cbn [lstrip]. rewrite Sa. cbn [rstrip]. rewrite Sd.
  assert (E : forall t, digits_val 0 false (String a t)
                        = digits_val (digit_val a) true t).
  { intros t. cbn [digits_val]. rewrite Ha. reflexivity. }
  assert (R : digits_val 0 false (String a (String b (String c (String d ""))))
              = Some (value4 a b c d)).
  { rewrite E. cbn [digits_val]. rewrite Hb, Hc, Hd. unfold value4.
    f_equal. lia. }
  apply digit_cases in Ha. unfold digits10 in Ha. simpl in Ha.
  repeat (destruct Ha as [<-|Ha]; [exact R|]). contradiction.
Qed.

Lemma str_int_roundtrip_holds : str_int_roundtrip = true.
Proof. vm_compute. reflexivity. Qed.

Lemma py_str_token4 (a b c d : ascii) :
  is_digit a = true -> is_digit b = true ->
  is_digit c = true -> is_digit d = true ->
  a <> "0"%char ->
  py_str (value4 a b c d) = token4 a b c d.
Proof.
  intros Ha Hb Hc Hd Na.
  pose proof str_int_roundtrip_holds as H. unfold str_int_roundtrip in H.
  rewrite forallb_forall in H. specialize (H a (digit_cases _ Ha)).
  rewrite forallb_forall in H. specialize (H b (digit_cases _ Hb)).
  rewrite forallb_forall in H. specialize (H c (digit_cases _ Hc)).
  rewrite forallb_forall in H. specialize (H d (digit_cases _ Hd)).
  apply orb_prop in H. destruct H as [H|H].
  - apply Ascii.eqb_eq in H. contradiction.
  - apply String.eqb_eq in H. exact H.
Qed.

(** With a sensor number and two year tokens, the first thing an
    iteration does is to read the sheet of the first token's year; if it
    writes, it writes that sheet to the file of that year. *)
Lemma loop_body_trace (a : args) (cs : list correction) (r : row) (w : world)
    (sensor next_year : Z) (label y0 y1 : string) :
  sensor_of (Sensor r) = inr sensor ->
  Year_Pair r = Str label ->
  findall4 label = [y0; y1] ->
  int y0 = inr next_year ->
  exists rest,
    trace (snd (loop_body a cs r w))
    = trace w ++ ReadExcel (input a) (sheet_of next_year) :: rest
    /\ (forall p sh, In (ToExcel p sh) rest ->
          p = out_file_of a next_year /\ sh = sheet_of next_year).
Proof.
  intros S P F I.
  unfold loop_body, bind, lift. rewrite S, P. cbn [re_findall]. rewrite F, I.
  open_read.
  destruct (lookup_sheet (files w) (input a) (sheet_of next_year)) as [e|raw].
  { destruct e; cbn [snd trace]; rewrite <- ?app_assoc; cbn [app];
      eexists; (split; [reflexivity|]); intros p sh Hin; simpl in Hin;
      repeat (destruct Hin as [Hin|Hin]; [discriminate|]); contradiction. }
  destruct (drop_time raw) as [e|dropped].
  { cbn [snd trace]. exists []. split; [reflexivity|]. intros p sh []. }
  destruct (shift dropped (sensor_column sensor) (fneg (Difference r)))
    as [e|out].
  { cbn [snd trace]. exists []. split; [reflexivity|]. intros p sh []. }
  unfold to_excel. cbn [snd files trace]. rewrite <- app_assoc. cbn [app].
  eexists. split; [reflexivity|].
  intros p sh [Hin|[]]. injection Hin as <- <-. auto.
Qed.

(** C6.  An outlier whose label holds exactly two year tokens is
    corrected in the sheet "Raw Data {year}" of the first token, whatever
    the second one: the iteration reads that sheet, and writes no other.
    [year] is the number the token denotes, rendered as the token itself
    unless it starts with a zero. *)
Theorem target_sheet_leftmost (a : args) (cs : list correction) (r : row)
    (w : world) (sensor : Z) (label y0 y1 : string) :
  sensor_of (Sensor r) = inr sensor ->
  Year_Pair r = Str label ->
  findall4 label = [y0; y1] ->
  exists next_year rest,
    py_int y0 = Some next_year
    /\ trace (snd (loop_body a cs r w))
       = trace w ++ ReadExcel (input a) ("Raw Data " ++ py_str next_year)%string :: rest
    /\ (forall p sh, In (ToExcel p sh) rest ->
          sh = ("Raw Data " ++ py_str next_year)%string)
    /\ (String.prefix "0" y0 = false -> py_str next_year = y0).
Proof.
  intros S P F.
  destruct (findall4_tokens label y0) as (ca & cb & cc & cd & -> & Ha & Hb & Hc & Hd).
  { rewrite F. left. reflexivity. }
  pose proof (py_int_token4 _ _ _ _ Ha Hb Hc Hd) as I.
  destruct (loop_body_trace a cs r w sensor (value4 ca cb cc cd) label _ y1 S P F)
    as (rest & T & W).
  { unfold int. rewrite I. reflexivity. }
  exists (value4 ca cb cc cd), rest. split; [exact I|]. split; [exact T|].
  split.
  - intros p sh Hin. apply (W p sh Hin).
  - intros Z. apply py_str_token4; try assumption.
    intros ->. discriminate Z.
Qed.

Example target_sheet_leftmost_witness :
  exists next_year rest,
    py_int "2021" = Some next_year
    /\ trace (snd (loop_body args_2020 []
                     (mk_row (Str "2021-2020") "Sensor 3" (fin (1 # 4)))
                     (start fs_2020)))
       = [] ++ ReadExcel "in/data.xlsx" ("Raw Data " ++ py_str next_year)%string :: rest
    /\ (forall p sh, In (ToExcel p sh) rest ->
          sh = ("Raw Data " ++ py_str next_year)%string)
    /\ (String.prefix "0" "2021" = false -> py_str next_year = "2021").
Proof.
  apply (target_sheet_leftmost args_2020 []
           (mk_row (Str "2021-2020") "Sensor 3" (fin (1 # 4)))
           (start fs_2020) 3 "2021-2020" "2021" "2020");
    reflexivity.
Defined.

(** ** Paths *)

Section Paths.

Local Open Scope string_scope.

Lemma rfind_app_r (c : ascii) (s1 s2 : string) :
  rfind c s2 = None -> rfind c (s1 ++ s2) = rfind c s1.
Proof.
  intros H. induction s1 as [|a s1 IH]; simpl; [exact H|].
  rewrite IH. reflexivity.
Qed.

Lemma rfind_app_sep (c : ascii) (s1 s2 : string) :
  rfind c s2 = None ->
  rfind c (s1 ++ String c s2) = Some (String.length s1).
Proof.
  intros H. induction s1 as [|a s1 IH]; simpl.
  - rewrite H, Ascii.eqb_refl. reflexivity.
  - rewrite IH. reflexivity.
Qed.

Lemma rfind_app_None (c : ascii) (s1 s2 : string) :
  rfind c s1 = None -> rfind c s2 = None -> rfind c (s1 ++ s2) = None.
Proof. intros H1 H2. rewrite rfind_app_r; assumption. Qed.

Lemma str_drop_app (s1 s2 : string) :
  str_drop (String.length s1) (s1 ++ s2) = s2.
Proof. induction s1 as [|a s1 IH]; simpl; [destruct s2|]; auto. Qed.

Lemma take_drop (n : nat) (s : string) : str_take n s ++ str_drop n s = s.
Proof.
  revert n. induction s as [|a s IH]; intros [|n]; try reflexivity.
  change (String a (str_take n s ++ str_drop n s) = String a s).
  f_equal. apply IH.
Qed.

Lemma rfind_drop (c : ascii) (s : string) (i : nat) :
  rfind c s = Some i -> rfind c (str_drop (S i) s) = None.
Proof.
  revert i. induction s as [|a s IH]; simpl; intros i H; [discriminate|].
  destruct (rfind c s) as [j|] eqn:R.
  - injection H as <-. apply IH. reflexivity.
  - destruct (Ascii.eqb a c); [|discriminate]. injection H as <-.
    destruct s; exact R.
Qed.

Lemma rfind_take (c : ascii) (s : string) (n : nat) :
  rfind c s = None -> rfind c (str_take n s) = None.
Proof.
  revert n. induction s as [|a s IH]; intros [|n]; simpl; try reflexivity.
  destruct (rfind c s) as [j|]; [discriminate|].
  destruct (Ascii.eqb a c); [discriminate|]. intros _.
  rewrite IH; reflexivity.
Qed.

Lemma rfind_head (c : ascii) (s : string) (i : nat) :
  rfind c s = Some i -> exists t, str_drop i s = String c t.
Proof.
  revert i. induction s as [|a s IH]; simpl; intros i H; [discriminate|].
  destruct (rfind c s) as [j|] eqn:R.
  - injection H as <-. simpl. apply IH. reflexivity.
  - destruct (Ascii.eqb a c) eqn:E; [|discriminate]. injection H as <-.
    apply Ascii.eqb_eq in E. subst a. exists s. reflexivity.
Qed.

Lemma app_cancel_l (s t u : string) : s ++ t = s ++ u -> t = u.
Proof.
  induction s as [|a s IH]; simpl; intros H; [exact H|].
  injection H as H. auto.
Qed.

Lemma app_self_nil (s t : string) : s = s ++ t -> t = "".
Proof.
  intros H. apply (app_cancel_l s). rewrite <- H.
  clear. induction s as [|a s IH]; [reflexivity|].
  change (String a s = String a (s ++ "")). f_equal. exact IH.
Qed.

Lemma basename_no_sep (p : string) : rfind "/" (basename p) = None.
Proof.
  unfold basename. destruct (rfind "/" p) as [i|] eqn:R; [|exact R].
  apply rfind_drop. exact R.
Qed.

(** The extension is empty or starts with a dot, and the root is cut
    out of the path. *)
Lemma splitext_cases (p : string) :
  splitext p = (p, "")
  \/ exists d t, splitext p = (str_take d p, String "." t)
       /\ str_drop d p = String "." t.
Proof.
  unfold splitext. destruct (rfind "." p) as [d|] eqn:R; [|left; reflexivity].
  destruct (_ && _); [|left; reflexivity].
  right. destruct (rfind_head _ _ _ R) as [t Ht].
  exists d, t. rewrite Ht. auto.
Qed.

Lemma uint_no_sep (d : Decimal.uint) :
  rfind "/" (NilEmpty.string_of_uint d) = None.
Proof. induction d; simpl; rewrite ?IHd; reflexivity. Qed.

Lemma py_str_no_sep (n : Z) : rfind "/" (py_str n) = None.
Proof.
  unfold py_str, NilZero.string_of_int, NilZero.string_of_uint.
  destruct (Z.to_int n) as [d|d].
  - destruct d; try reflexivity; apply (uint_no_sep (_ d)).
  - change (rfind "/" (String "-" match d with
                                  | Decimal.Nil => "0"
                                  | _ => NilEmpty.string_of_uint d
                                  end) = None).
    assert (E : rfind "/" match d with
                          | Decimal.Nil => "0"
                          | _ => NilEmpty.string_of_uint d
                          end = None).
    { destruct d; try reflexivity; apply (uint_no_sep (_ d)). }
    simpl. rewrite E. reflexivity.
Qed.

Lemma str_drop_S_app (c : ascii) (s1 s2 : string) :
  str_drop (S (String.length s1)) (s1 ++ String c s2) = s2.
Proof. induction s1 as [|a s1 IH]; simpl; [destruct s2|]; auto. Qed.

Lemma no_sep_start (s : string) :
  rfind "/" s = None -> starts_with_sep s = false.
Proof.
  destruct s as [|a s]; [reflexivity|]. simpl.
  destruct (rfind "/" s); [discriminate|].
  destruct (Ascii.eqb a "/"); [discriminate|reflexivity].
Qed.

Lemma basename_join (a name : string) :
  rfind "/" name = None -> basename (join a name) = name.
Proof.
  intros N. unfold join. rewrite (no_sep_start _ N).
  destruct (String.length a =? 0)%nat eqn:L.
  { apply Nat.eqb_eq in L. destruct a; [|discriminate].
    change (basename name = name).
    unfold basename. rewrite N. reflexivity. }
  unfold ends_with_sep. cbn [orb].
  destruct (rfind "/" a) as [i|] eqn:R.
  - destruct (S i =? String.length a)%nat eqn:E.
    + apply Nat.eqb_eq in E. unfold basename.
      rewrite (rfind_app_r _ _ _ N), R, E. apply str_drop_app.
    + unfold basename. change (a ++ "/" ++ name) with (a ++ String "/" name).
      rewrite (rfind_app_sep _ _ _ N). apply str_drop_S_app.
  - unfold basename. change (a ++ "/" ++ name) with (a ++ String "/" name).
    rewrite (rfind_app_sep _ _ _ N). apply str_drop_S_app.
Qed.

Lemma stem_no_sep (p : string) :
  rfind "/" (fst (splitext (basename p))) = None.
Proof.
  pose proof (basename_no_sep p) as B.
  destruct (splitext_cases (basename p)) as [E|(d & t & E & _)];
    rewrite E; cbn [fst]; [exact B|].
  apply rfind_take. exact B.
Qed.

Lemma out_file_basename (a : args) (next_year : Z) :
  basename (out_file_of a next_year)
  = fst (splitext (basename (input a))) ++ "_" ++ py_str next_year
    ++ "_corrected.xlsx".
Proof.
  unfold out_file_of. apply basename_join.
  apply rfind_app_None; [apply stem_no_sep|].
  apply (rfind_app_None _ "_"); [reflexivity|].
  apply rfind_app_None; [apply py_str_no_sep|reflexivity].
Qed.

(** The file written is never the workbook read. *)
Lemma out_file_not_input (a : args) (next_year : Z) :
  out_file_of a next_year <> input a.
Proof.
  intros E. pose proof (out_file_basename a next_year) as B.
  rewrite E in B.
  destruct (splitext_cases (basename (input a))) as [S|(d & t & S & D)];
    rewrite S in B; cbn [fst] in B.
  - apply app_self_nil in B. discriminate B.
  - rewrite <- (take_drop d (basename (input a))) in B at 1.
    apply app_cancel_l in B. rewrite D in B. discriminate B.
Qed.

End Paths.

(** ** The workbook through the loop *)

Lemma lookup_sheet_ext (fs fs' : gmap string file) (path sheet : string) :
  fs' !! path = fs !! path ->
  lookup_sheet fs' path sheet = lookup_sheet fs path sheet.
Proof. unfold lookup_sheet. intros ->. reflexivity. Qed.

(** No iteration touches the workbook it reads. *)
Lemma loop_body_input (a : args) (cs : list correction) (r : row) (w : world)
    (res : result (list correction)) (w' : world) :
  loop_body a cs r w = (res, w') ->
  files w' !! input a = files w !! input a.
Proof.
  intros E. apply loop_body_cases in E.
  destruct E as [(F & _)|(sensor & y & raw & out & _ & _ & ->)].
  - rewrite F. reflexivity.
  - unfold corrected_world. cbn [files].
    apply lookup_insert_ne. apply out_file_not_input.
Qed.

Lemma loop_input (a : args) (rows : list row) (cs : list correction) (w : world)
    (res : result (list correction)) (w' : world) :
  loop a cs rows w = (res, w') ->
  files w' !! input a = files w !! input a.
Proof.
  revert cs w. induction rows as [|r rows IH]; intros cs w; cbn [loop].
  - intros [= _ <-]. reflexivity.
  - unfold bind. destruct (loop_body a cs r w) as [[e|cs1] w1] eqn:B.
    + intros [= _ <-]. apply (loop_body_input _ _ _ _ _ _ B).
    + intros L. rewrite (IH _ _ L). apply (loop_body_input _ _ _ _ _ _ B).
Qed.

Lemma corrects_target_year (a : args) (r : row) (w : world)
    (sensor next_year : Z) (raw out : DataFrame) :
  corrects a r w sensor next_year raw out -> target_year r = Some next_year.
Proof.
  intros [_ (s & y0 & y1 & P & F & I) _ _].
  unfold target_year. rewrite P. cbn [re_findall]. rewrite F.
  unfold int in I. destruct (py_int y0); [|discriminate].
  injection I as ->. reflexivity.
Qed.

(** C10.  The file an iteration writes is named after the output
    directory, the base name of the workbook and the year, not after the
    sensor.  Two corrections of one run for the same year write the same
    path; the second replaces what the first wrote, and what it writes is
    its own correction of the sheet as the workbook had it before the run:
    the columns of other sensors are as in the workbook. *)
Theorem same_year_overwrites (a : args) (r1 r2 : row) (mid : list row)
    (cs0 cs1 cs2 cs3 : list correction) (w0 w1 w2 w3 : world) (next_year : Z) :
  target_year r1 = Some next_year ->
  target_year r2 = Some next_year ->
  loop_body a cs0 r1 w0 = (inr cs1, w1) -> cs1 <> cs0 ->
  loop a cs1 mid w1 = (inr cs2, w2) ->
  loop_body a cs2 r2 w2 = (inr cs3, w3) -> cs3 <> cs2 ->
  exists s1 s2 raw dropped out1 out2,
    cs1 = cs0 ++ [mk_correction (Year_Pair r1) s1 (Difference r1)
                    (fneg (Difference r1)) (out_file_of a next_year)]
    /\ cs3 = cs2 ++ [mk_correction (Year_Pair r2) s2 (Difference r2)
                       (fneg (Difference r2)) (out_file_of a next_year)]
    /\ (forall a', output a' = output a ->
          basename (input a') = basename (input a) ->
          out_file_of a' next_year = out_file_of a next_year)
    /\ files w1 !! out_file_of a next_year
       = Some (Xlsx [(sheet_of next_year, out1)])
    /\ files w3 !! out_file_of a next_year
       = Some (Xlsx [(sheet_of next_year, out2)])
    /\ lookup_sheet (files w0) (input a) (sheet_of next_year) = inr raw
    /\ drop_time raw = inr dropped
    /\ shift dropped (sensor_column s1) (fneg (Difference r1)) = inr out1
    /\ shift dropped (sensor_column s2) (fneg (Difference r2)) = inr out2
    /\ (forall name, name <> sensor_column s2 ->
          assoc name out2 = assoc name dropped).
Proof.
  intros T1 T2 B1 N1 L B2 N2.
  pose proof (loop_body_input _ _ _ _ _ _ B1) as I1.
  pose proof (loop_input _ _ _ _ _ _ L) as I2.
  destruct (loop_body_appended _ _ _ _ _ _ B1 N1)
    as (s1 & y1 & raw1 & out1 & C1 & -> & ->).
  destruct (loop_body_appended _ _ _ _ _ _ B2 N2)
    as (s2 & y2 & raw2 & out2 & C2 & -> & ->).
  pose proof (corrects_target_year _ _ _ _ _ _ _ C1) as Y1.
  pose proof (corrects_target_year _ _ _ _ _ _ _ C2) as Y2.
  rewrite T1 in Y1. rewrite T2 in Y2.
  injection Y1 as <-. injection Y2 as <-.
  destruct C1 as [_ _ R1 (d1 & D1 & H1)]. destruct C2 as [_ _ R2 (d2 & D2 & H2)].
  rewrite (lookup_sheet_ext (files w0) (files w2)) in R2
    by (rewrite I2, I1; reflexivity).
  rewrite R1 in R2. injection R2 as <-.
  rewrite D1 in D2. injection D2 as <-.
  exists s1, s2, raw1, d1, out1, out2. repeat split; try assumption.
  - intros a' Ho Hb. unfold out_file_of. rewrite Ho, Hb. reflexivity.
  - unfold corrected_world. cbn [files]. apply lookup_insert_eq.
  - unfold corrected_world. cbn [files]. apply lookup_insert_eq.
  - intros name Hn. destruct (shift_cases _ _ _ _ H2) as (old & new & _ & _ & ->).
    apply assoc_setitem_ne. exact Hn.
Qed.

Example same_year_overwrites_witness :
  exists out2,
    files (snd (loop_body args_2020
                  [mk_correction (Str "2020-2021") 1 (fin (30 # 100))
                     (fneg (fin (30 # 100))) "output/data_2020_corrected.xlsx"]
                  row_s3
                  (snd (loop_body args_2020 [] row_s1 (start fs_2020)))))
      !! out_file_of args_2020 2020
    = Some (Xlsx [(sheet_of 2020, out2)])
    /\ assoc "V1" out2 = Some [Num (fin 1); Num (fin 2)].
Proof.
  pose (w1 := snd (loop_body args_2020 [] row_s1 (start fs_2020))).
  pose (cs1 := [mk_correction (Str "2020-2021") 1 (fin (30 # 100))
                  (fneg (fin (30 # 100))) "output/data_2020_corrected.xlsx"]).
  destruct (same_year_overwrites args_2020 row_s1 row_s3 []
              [] cs1 cs1
              (cs1 ++ [mk_correction (Str "2020-2021") 3 (fin (25 # 100))
                         (fneg (fin (25 # 100)))
                         "output/data_2020_corrected.xlsx"])
              (start fs_2020) w1 w1
              (snd (loop_body args_2020 cs1 row_s3 w1)) 2020)
    as (s1 & s2 & raw & dropped & out1 & out2 & E1 & E3 & _ & _ & F3 & R & D & _ & H2 & K).
  - reflexivity.
  - reflexivity.
  - rewrite (surjective_pairing (loop_body args_2020 [] row_s1 (start fs_2020))).
    f_equal.
  - discriminate.
  - reflexivity.
  - rewrite (surjective_pairing (loop_body args_2020 cs1 row_s3 w1)).
    f_equal.
  - apply app_one_neq.
  - exists out2. split; [exact F3|].
    apply app_inv_head in E3. injection E3 as <-.
    rewrite K by discriminate.
    vm_compute in R. injection R as <-.
    vm_compute in D. injection D as <-. reflexivity.
Defined.

(** ** Errors in the loop *)

(** An unreadable sheet is caught: warning, and on to the next
    outlier. *)
Lemma unreadable_sheet_skipped (a : args) (cs : list correction) (r : row)
    (w : world) (sensor next_year : Z) (e : exn) :
  sensor_of (Sensor r) = inr sensor ->
  target_year r = Some next_year ->
  lookup_sheet (files w) (input a) (sheet_of next_year) = inl e ->
  (forall c, e <> SystemExit c) ->
  loop_body a cs r w
  = (inr cs, mk_world (files w)
               (trace w ++ [ReadExcel (input a) (sheet_of next_year);
                            LogWarning (sheet_of next_year) e])).
Proof.
  intros S T L NE. unfold target_year in T.
  unfold loop_body, bind, lift. rewrite S.
  destruct (re_findall (Year_Pair r)) as [x|[|y0 [|y1 [|y2 years]]]];
    try discriminate.
  unfold int. rewrite T.
  open_read.
  rewrite L. destruct e; cbn [files trace];
    try (rewrite <- app_assoc; reflexivity).
  exfalso. eapply NE. reflexivity.
Qed.

(** A sensor without a column in the sheet is not: the [KeyError] of
    line 116 leaves the loop, and the outliers that follow are not
    processed. *)
Lemma missing_column_raises (a : args) (cs : list correction) (r : row)
    (rest : list row) (w : world) (sensor next_year : Z)
    (raw dropped : DataFrame) :
  sensor_of (Sensor r) = inr sensor ->
  target_year r = Some next_year ->
  lookup_sheet (files w) (input a) (sheet_of next_year) = inr raw ->
  drop_time raw = inr dropped ->
  assoc (sensor_column sensor) dropped = None ->
  loop a cs (r :: rest) w
  = (inl (KeyError (sensor_column sensor)),
     mk_world (files w)
       (trace w ++ [ReadExcel (input a) (sheet_of next_year)])).
Proof.
  intros S T L D A. unfold target_year in T.
  cbn [loop]. unfold loop_body, bind, lift. rewrite S.
  destruct (re_findall (Year_Pair r)) as [x|[|y0 [|y1 [|y2 years]]]];
    try discriminate.
  unfold int. rewrite T.
  open_read.
  rewrite L, D. unfold shift, getitem. rewrite A. reflexivity.
Qed.

(** C3, on the code: the first outlier has no column in its sheet; the
    run ends in its [KeyError], the second outlier is not corrected and no
    summary is written. *)
Lemma missing_column_aborts_run :
  fst (main cl_data (start fs_missing)) = inl (KeyError "V2")
  /\ files (snd (main cl_data (start fs_missing))) = fs_missing
  /\ trace (snd (main cl_data (start fs_missing)))
     = [Makedirs "output";
        LogInfo "Loading year-to-year differences";
        ReadExcel "in/data.xlsx" "Year-to-Year Differences";
        LogInfo "Detected 2 outliers using 'abs' method";
        ReadExcel "in/data.xlsx" "Raw Data 2020"].
Proof. repeat split; vm_compute; reflexivity. Qed.

(** ** The z-score test, over the reals *)

(** [c_sqrt] and [ge_c_sqrt] stand for a product with a square root and
    for a comparison of reals: this is what they compute. *)

Lemma Rsquare_le (a b : R) :
  (0 <= a)%R -> (0 <= b)%R -> (a <= b <-> a * a <= b * b)%R.
Proof.
  intros Ha Hb. split; intros H; [Lra.nra|].
  destruct (Rle_lt_dec a b) as [L|L]; [exact L|]. Lra.nra.
Qed.

Lemma Qle_bool_R (a b : Q) : Qle_bool a b = true <-> (Q2R a <= Q2R b)%R.
Proof.
  rewrite Qle_bool_iff. split; [apply Qle_Rle|apply Rle_Qle].
Qed.

Lemma Qle_bool_R_false (a b : Q) :
  Qle_bool a b = false <-> (Q2R b < Q2R a)%R.
Proof.
  split; intros H.
  - apply Rnot_le_lt. intros L. apply Qle_bool_R in L. congruence.
  - destruct (Qle_bool a b) eqn:E; [|reflexivity].
    apply Qle_bool_R in E. Lra.lra.
Qed.

Lemma ge_c_sqrt_exact (x c r : Q) :
  (0 <= r)%Q ->
  ge_c_sqrt x c r = true <-> (Q2R c * sqrt (Q2R r) <= Q2R x)%R.
Proof.
  intros Hr. apply Qle_Rle in Hr. rewrite RMicromega.Q2R_0 in Hr.
  pose proof (sqrt_pos (Q2R r)) as Sp.
  pose proof (sqrt_sqrt _ Hr) as Ss.
  set (s := sqrt (Q2R r)) in *.
  unfold ge_c_sqrt.
  destruct (Qle_bool c 0) eqn:C; destruct (Qle_bool 0 x) eqn:X.
  - apply Qle_bool_R in C, X. rewrite RMicromega.Q2R_0 in C, X.
    split; [intros _; Lra.nra|reflexivity].
  - apply Qle_bool_R in C. apply Qle_bool_R_false in X.
    rewrite RMicromega.Q2R_0 in C, X.
    rewrite Qle_bool_R, !Q2R_mult, <- Ss.
    pose proof (Rsquare_le (- Q2R x) (- (Q2R c * s))) as K.
    split; intros H.
    + assert (- Q2R x <= - (Q2R c * s))%R; [|Lra.lra]. apply K; Lra.nra.
    + assert (- Q2R x * - Q2R x <= - (Q2R c * s) * - (Q2R c * s))%R; [|Lra.nra].
      apply K; Lra.nra.
  - apply Qle_bool_R_false in C. apply Qle_bool_R in X.
    rewrite RMicromega.Q2R_0 in C, X.
    rewrite Qle_bool_R, !Q2R_mult, <- Ss.
    pose proof (Rsquare_le (Q2R c * s) (Q2R x)) as K.
    split; intros H.
    + apply K; Lra.nra.
    + assert (Q2R c * s * (Q2R c * s) <= Q2R x * Q2R x)%R; [|Lra.nra].
      apply K; Lra.nra.
  - apply Qle_bool_R_false in C, X. rewrite RMicromega.Q2R_0 in C, X.
    split; [discriminate|]. intros H. exfalso. Lra.nra.
Qed.

Lemma Q2R_abs (q : Q) : Q2R (Qabs q) = Rabs (Q2R q).
Proof.
  destruct (Qlt_le_dec q 0) as [N|P].
  - rewrite (Qeq_eqR _ _ (Qabs_neg q (Qlt_le_weak _ _ N))), Q2R_opp.
    apply Qlt_Rlt in N. rewrite RMicromega.Q2R_0 in N.
    rewrite Rabs_left; [reflexivity|exact N].
  - rewrite (Qeq_eqR _ _ (Qabs_pos q P)).
    apply Qle_Rle in P. rewrite RMicromega.Q2R_0 in P.
    rewrite Rabs_pos_eq; [reflexivity|exact P].
Qed.

Lemma var_nonneg (v : list Q) : (2 <= length v)%nat -> (0 <= var v)%Q.
Proof.
  intros H. unfold var.
  pose proof (Qlen_ge_2 v H) as L.
  pose proof (Qsum_squares_nonneg (Qsum v / Qlen v) v) as S.
  apply Qle_shift_div_l; [exact L|]. rewrite Qmult_0_l. exact S.
Qed.

(** With a deviation to compare with, a record of difference [d] is
    flagged exactly when [|d - mean| >= z * sqrt(var)] over the reals. *)
Lemma zscore_test_exact (col : list float) (d z : Q) :
  (2 <= length (dropna col))%nat ->
  fge_surd (fabs (fsub (fin d) (mean col))) (smul (fin z) (std col)) = true
  <-> (Q2R z * sqrt (Q2R (var (dropna col)))
       <= Rabs (Q2R d - Q2R (Qsum (dropna col) / Qlen (dropna col))))%R.
Proof.
  intros H. rewrite (std_defined _ H).
  rewrite mean_fin by (destruct (dropna col); [simpl in H; lia|discriminate]).
  cbn [fsub fabs smul fge_surd].
  rewrite (ge_c_sqrt_exact _ _ _ (var_nonneg _ H)).
  rewrite Q2R_abs, Q2R_minus, Q2R_mult, RMicromega.Q2R_1, Rmult_1_r.
  reflexivity.
Qed.

(** Whatever the method, a record without a difference is not flagged. *)
Lemma detect_outliers_present (df out : list row) (m : string)
    (abs_thr z_thr iqr_fac : float) :
  detect_outliers df m abs_thr z_thr iqr_fac = inr out ->
  forall r, In r out -> is_fin (Difference r) = true.
Proof.
  unfold detect_outliers.
  destruct (String.eqb m "abs"); [|destruct (String.eqb m "zscore");
    [|destruct (String.eqb m "iqr"); [|discriminate]]];
    intros [= <-] r Hr;
    match type of Hr with
    | In _ (select _ (map ?p _)) => rewrite (select_filter p) in Hr
    end;
    apply filter_In in Hr; destruct Hr as [_ Hr];
    destruct (Difference r); try reflexivity; simpl in Hr;
    try discriminate Hr.
  destruct (fsub (quantile (map Difference df) 1 4)
              (fmul iqr_fac (fsub (quantile (map Difference df) 3 4)
                                  (quantile (map Difference df) 1 4))));
  destruct (fadd (quantile (map Difference df) 3 4)
              (fmul iqr_fac (fsub (quantile (map Difference df) 3 4)
                                  (quantile (map Difference df) 1 4))));
  discriminate Hr.
Qed.

(** ** Runs *)

Lemma parse_args_method (cl : cmdline) (a : args) :
  parse_args cl = inr a -> in_choices (method a) = true.
Proof.
  unfold parse_args. destruct (cl_input cl); [|discriminate].
  destruct (in_choices (default "abs" (cl_method cl))) eqn:E; [|discriminate].
  intros [= <-]. exact E.
Qed.

(** On a method that [parse_args] lets through the detector returns:
    its [ValueError] cannot be reached from [main]. *)
Lemma detect_outliers_returns (df : list row) (m : string)
    (abs_thr z_thr iqr_fac : float) :
  in_choices m = true ->
  exists out, detect_outliers df m abs_thr z_thr iqr_fac = inr out.
Proof.
  unfold in_choices, method_choices, detect_outliers. simpl.
  destruct (String.eqb m "abs"); [eauto|].
  destruct (String.eqb m "zscore"); [eauto|].
  destruct (String.eqb m "iqr"); [eauto|discriminate].
Qed.

(** A run to its end: one outlier, one corrected file, the summary, the
    plot and the printed table. *)
Example run_plain_labels :
  fst (main cl_data (start fs_plain)) = inr tt
  /\ trace (snd (main cl_data (start fs_plain)))
     = [Makedirs "output";
        LogInfo "Loading year-to-year differences";
        ReadExcel "in/data.xlsx" "Year-to-Year Differences";
        LogInfo "Detected 1 outliers using 'abs' method";
        ReadExcel "in/data.xlsx" "Raw Data 2020";
        ToExcel "output/data_2020_corrected.xlsx" "Raw Data 2020";
        ToExcel "output/corrections_summary.xlsx" "Sheet1";
        LogInfo "Saved corrections summary to 'output/corrections_summary.xlsx'";
        Savefig "output/outliers_plot.png" [(Str "2020-2021", 3)];
        LogInfo "Saved plot to 'output/outliers_plot.png'";
        Print 1].
Proof. split; vm_compute; reflexivity. Qed.

(** Under labels such as "Sensor 3" the tick labels of the plot raise:
    [int(r['Sensor'])] at line 144 is given the whole label.  The corrected
    file and the summary are written by then, the plot is not. *)
Example run_worded_labels :
  fst (main cl_data (start fs_2020))
  = inl (InvalidLiteral "Sensor 1")
  /\ trace (snd (main cl_data (start fs_2020)))
     = [Makedirs "output";
        LogInfo "Loading year-to-year differences";
        ReadExcel "in/data.xlsx" "Year-to-Year Differences";
        LogInfo "Detected 2 outliers using 'abs' method";
        ReadExcel "in/data.xlsx" "Raw Data 2020";
        ToExcel "output/data_2020_corrected.xlsx" "Raw Data 2020";
        ReadExcel "in/data.xlsx" "Raw Data 2020";
        ToExcel "output/data_2020_corrected.xlsx" "Raw Data 2020";
        ToExcel "output/corrections_summary.xlsx" "Sheet1";
        LogInfo "Saved corrections summary to 'output/corrections_summary.xlsx'"].
Proof. split; vm_compute; reflexivity. Qed.

(** * Further properties *)

(** ** The detector, all methods *)

Lemma select_sublist (df : list row) (mask : list bool) :
  sublist (select df mask) df.
Proof.
  revert mask. induction df as [|r df IH]; intros [|b mask]; cbn [select];
    try apply sublist_nil_l.
  destruct b; [apply sublist_skip|apply sublist_cons]; apply IH.
Qed.

(** X1.  Whatever the method, what the detector returns is a
    subsequence of the table: records of the table, in the order of the
    table, none added and none repeated. *)
Theorem detect_sublist (df out : list row) (m : string)
    (abs_thr z_thr iqr_fac : float) :
  detect_outliers df m abs_thr z_thr iqr_fac = inr out ->
  sublist out df.
Proof.
  unfold detect_outliers.
  destruct (String.eqb m "abs"); [intros [= <-]; apply select_sublist|].
  destruct (String.eqb m "zscore"); [intros [= <-]; apply select_sublist|].
  destruct (String.eqb m "iqr"); [intros [= <-]; apply select_sublist|].
  discriminate.
Qed.

Example detect_sublist_witness :
  sublist [mk_row (Str "2019-2020") "Sensor 3" (fin 9)] df_gap.
Proof.
  apply (detect_sublist df_gap _ "abs" (fin 5) (fin 3) (fin (3 # 2))).
  reflexivity.
Defined.

(** X2.  Whatever the method and the thresholds, every record the
    detector returns has a difference: a missing one is never flagged. *)
Theorem flagged_difference_present (df out : list row) (m : string)
    (abs_thr z_thr iqr_fac : float) :
  detect_outliers df m abs_thr z_thr iqr_fac = inr out ->
  Forall (fun r => exists d, Difference r = fin d) out.
Proof.
  intros H. apply List.Forall_forall. intros r Hr.
  pose proof (detect_outliers_present _ _ _ _ _ _ H r Hr) as F.
  destruct (Difference r) as [|d]; [discriminate|]. exists d. reflexivity.
Qed.

Example flagged_difference_present_witness :
  Forall (fun r => exists d, Difference r = fin d)
         [mk_row (Str "2019-2020") "Sensor 1" (fin 1);
          mk_row (Str "2019-2020") "Sensor 3" (fin 9)].
Proof.
  apply (flagged_difference_present df_gap _ "zscore" (fin 5) (fin (-1))
           (fin (3 # 2))).
  reflexivity.
Defined.

(** ** The z-score method at its edges *)

(** X3.  The z-score method needs two differences: on a table with
    fewer than two present, a single record for one, the deviation is
    undefined and no record is flagged, whatever the threshold. *)
Theorem zscore_needs_two (df : list row) (abs_thr z_thr iqr_fac : float) :
  (length (dropna (map Difference df)) < 2)%nat ->
  detect_outliers df "zscore" abs_thr z_thr iqr_fac = inr [].
Proof.
  intros H. rewrite detect_zscore_eq, (std_undefined _ H). f_equal.
  apply filter_nil_iff. intros r _.
  destruct z_thr;
    destruct (fabs (fsub (Difference r) (mean (map Difference df))));
    reflexivity.
Qed.

Example zscore_needs_two_witness :
  detect_outliers [mk_row (Str "2019-2020") "Sensor 1" (fin 1000)]
                  "zscore" (fin (1 # 10)) (fin (-5)) (fin (3 # 2))
  = inr [].
Proof.
  apply (zscore_needs_two [mk_row (Str "2019-2020") "Sensor 1" (fin 1000)]).
  simpl. lia.
Defined.

(** X5.  A threshold that is not a number flags nothing: so for the
    absolute threshold under 'abs', for the z-score threshold under
    'zscore' and for the factor under 'iqr'. *)
Theorem nan_threshold_flags_nothing (df : list row) (a z f : float) :
  detect_outliers df "abs" nan z f = inr []
  /\ detect_outliers df "zscore" a nan f = inr []
  /\ detect_outliers df "iqr" a z nan = inr [].
Proof.
  repeat split.
  - unfold detect_outliers. cbn [String.eqb Ascii.eqb Bool.eqb].
    rewrite select_filter. f_equal. apply filter_nil_iff. intros r _.
    destruct (Difference r); reflexivity.
  - rewrite detect_zscore_eq. f_equal. apply filter_nil_iff. intros r _.
    destruct (fabs (fsub (Difference r) (mean (map Difference df))));
      reflexivity.
  - unfold detect_outliers. cbn [String.eqb Ascii.eqb Bool.eqb].
    rewrite (select_filter
               (fun d => flt d (fsub (quantile (map Difference df) 1 4)
                                  (fmul nan (fsub (quantile (map Difference df) 3 4)
                                               (quantile (map Difference df) 1 4))))
                         || fgt d (fadd (quantile (map Difference df) 3 4)
                                     (fmul nan (fsub (quantile (map Difference df) 3 4)
                                                  (quantile (map Difference df) 1 4)))))).
    f_equal. apply filter_nil_iff. intros r _.
    destruct (Difference r), (quantile (map Difference df) 1 4),
      (quantile (map Difference df) 3 4); reflexivity.
Qed.

(** ** The interquartile method *)

Lemma flt_spec (a b : float) :
  flt a b = true <-> exists x y, a = fin x /\ b = fin y /\ (x < y)%Q.
Proof.
  destruct a as [|x], b as [|y]; simpl; split;
    try discriminate;
    try (intros (x' & y' & H1 & H2 & _); discriminate).
  - intros H. exists x, y. repeat split.
    apply Qnot_le_lt. intros L. apply Qle_bool_iff in L.
    rewrite L in H. discriminate.
  - intros (x' & y' & H1 & H2 & H3). injection H1 as <-. injection H2 as <-.
    destruct (Qle_bool y x) eqn:E; [|reflexivity].
    apply Qle_bool_iff in E. lra.
Qed.

Lemma detect_iqr_eq (df : list row) (abs_thr z_thr iqr_fac : float) :
  detect_outliers df "iqr" abs_thr z_thr iqr_fac
  = inr (List.filter (flagged_iqr (map Difference df) iqr_fac) df).
Proof.
  unfold detect_outliers. cbn [String.eqb Ascii.eqb Bool.eqb].
  rewrite (select_filter
             (fun d => flt d (fsub (quantile (map Difference df) 1 4)
                                (fmul iqr_fac (fsub (quantile (map Difference df) 3 4)
                                                 (quantile (map Difference df) 1 4))))
                       || fgt d (fadd (quantile (map Difference df) 3 4)
                                   (fmul iqr_fac (fsub (quantile (map Difference df) 3 4)
                                                    (quantile (map Difference df) 1 4)))))).
  reflexivity.
Qed.

Lemma flagged_iqr_spec (col : list float) (iqr_fac : float) (r : row) :
  flagged_iqr col iqr_fac r = true <->
  exists d q1 q3 f,
    Difference r = fin d
    /\ quantile col 1 4 = fin q1
    /\ quantile col 3 4 = fin q3
    /\ iqr_fac = fin f
    /\ (d < q1 - f * (q3 - q1) \/ q3 + f * (q3 - q1) < d)%Q.
Proof.
  unfold flagged_iqr, fgt. rewrite orb_true_iff, !flt_spec.
  destruct (Difference r) as [|d], (quantile col 1 4) as [|q1],
    (quantile col 3 4) as [|q3], iqr_fac as [|f];
    cbn [fsub fmul fadd]; split;
    try (intros [(x & y & H1 & H2 & _)|(x & y & H1 & H2 & _)]; discriminate);
    try (intros (d' & a & b & f' & H1 & H2 & H3 & H4 & _); discriminate).
  - intros [(x & y & H1 & H2 & L)|(x & y & H1 & H2 & L)];
      injection H1 as <-; injection H2 as <-;
      exists d, q1, q3, f; repeat split; [left|right]; exact L.
  - intros (d' & a & b & f' & H1 & H2 & H3 & H4 & L).
    injection H1 as <-. injection H2 as <-. injection H3 as <-.
    injection H4 as <-.
    destruct L as [L|L]; [left|right]; eexists _, _; repeat split; exact L.
Qed.

Lemma Forall_nth_default {A} (P : A -> Prop) (l : list A) (i : nat) (d : A) :
  Forall P l -> P d -> P (nth i l d).
Proof.
  intros H Hd. revert i. induction H as [|x l Hx H IH]; intros [|i]; simpl; auto.
Qed.

Lemma Qinsert_Forall (P : Q -> Prop) (x : Q) (l : list Q) :
  P x -> Forall P l -> Forall P (Qinsert x l).
Proof.
  intros Hx H. induction H as [|y l Hy H IH]; simpl.
  - constructor; [exact Hx|constructor].
  - destruct (Qle_bool x y); repeat constructor; assumption.
Qed.

Lemma Qsort_Forall (P : Q -> Prop) (l : list Q) :
  Forall P l -> Forall P (Qsort l).
Proof.
  unfold Qsort. induction 1 as [|x l Hx H IH]; simpl; [constructor|].
  apply Qinsert_Forall; assumption.
Qed.

Lemma dropna_Forall (P : Q -> Prop) (col : list float) :
  (forall d, In (fin d) col -> P d) -> Forall P (dropna col).
Proof.
  induction col as [|[|q] col IH]; simpl; intros H.
  - constructor.
  - apply IH. intros d Hd. apply H. right. exact Hd.
  - constructor; [apply H; left; reflexivity|].
    apply IH. intros d Hd. apply H. right. exact Hd.
Qed.

(** On a column whose values all equal [c], every quantile is [c]. *)
Lemma quantile_constant (col : list float) (c : Q) (num den : Z) :
  (forall d, In (fin d) col -> (d == c)%Q) ->
  quantile col num den = nan
  \/ exists q, quantile col num den = fin q /\ (q == c)%Q.
Proof.
  intros H. unfold quantile.
  pose proof (Qsort_Forall _ _ (dropna_Forall (fun d => d == c)%Q col H)) as F.
  destruct (Qsort (dropna col)) as [|x v] eqn:E; [left; reflexivity|].
  right. eexists. split; [reflexivity|].
  assert (Hx : (x == c)%Q) by (inversion F; assumption).
  set (i := Z.to_nat ((Z.of_nat (length (x :: v)) - 1) * num / den)).
  pose proof (Forall_nth_default _ _ i x F Hx) as Lo.
  pose proof (Forall_nth_default _ _ (S i) _ F Lo) as Hi.
  cbv beta in Lo, Hi. rewrite Hi, Lo. ring.
Qed.

(** X7.  On a table whose differences are all the same number the
    'iqr' method flags nothing, whatever the factor: the quartiles and the
    two bounds all fall on that number, and the comparisons are strict. *)
Theorem iqr_constant_column (df : list row) (abs_thr z_thr iqr_fac : float)
    (c : Q) :
  (forall r d, In r df -> Difference r = fin d -> (d == c)%Q) ->
  detect_outliers df "iqr" abs_thr z_thr iqr_fac = inr [].
Proof.
  intros H.
  assert (Hc : forall d, In (fin d) (map Difference df) -> (d == c)%Q).
  { intros d Hd. apply in_map_iff in Hd. destruct Hd as (r & E & Hr).
    apply (H r d Hr E). }
  rewrite detect_iqr_eq.
  f_equal. apply filter_nil_iff. intros r Hr.
  destruct (flagged_iqr (map Difference df) iqr_fac r) eqn:F; [|reflexivity].
  apply flagged_iqr_spec in F. destruct F as (d & q1 & q3 & f & D & Q1 & Q3 & _ & L).
  pose proof (H r d Hr D) as Ed.
  destruct (quantile_constant _ c 1 4 Hc) as [N|(a & Ea & Ha)];
    [congruence|].
  destruct (quantile_constant _ c 3 4 Hc) as [N|(b & Eb & Hb)];
    [congruence|].
  rewrite Q1 in Ea. rewrite Q3 in Eb. injection Ea as <-. injection Eb as <-.
  exfalso. rewrite Ha, Hb, Ed in L.
  assert (Z : (f * (c - c) == 0)%Q) by ring.
  rewrite Z in L. lra.
Qed.

Example iqr_constant_column_witness :
  detect_outliers df_55 "iqr" (fin (1 # 10)) (fin 3) (fin 0) = inr [].
Proof.
  apply (iqr_constant_column df_55 _ _ _ 5).
  intros r d Hr Hd. simpl in Hr.
  destruct Hr as [<-|[<-|[]]]; injection Hd as <-; reflexivity.
Defined.

(** ** The loop, outlier by outlier *)

Lemma lookup_sheet_exception (fs : gmap string file) (path sheet : string)
    (e : exn) :
  lookup_sheet fs path sheet = inl e -> forall c, e <> SystemExit c.
Proof.
  unfold lookup_sheet. destruct (fs !! path) as [[sheets|]|].
  - destruct (assoc sheet sheets); [discriminate|]. intros [= <-] c. discriminate.
  - intros [= <-] c. discriminate.
  - intros [= <-] c. discriminate.
Qed.

Lemma loop_cons (a : args) (cs : list correction) (r : row) (rest : list row)
    (w : world) :
  loop a cs (r :: rest) w
  = match loop_body a cs r w with
    | (inl e, w') => (inl e, w')
    | (inr cs', w') => loop a cs' rest w'
    end.
Proof. reflexivity. Qed.

(** X8.  An outlier whose sheet cannot be read (no workbook at the path,
    a file that is no workbook, no sheet of that name) costs a warning and
    nothing else: the loop goes on with the next outlier, the corrections
    and the files as they were. *)
Theorem unreadable_sheet_continues (a : args) (cs : list correction) (r : row)
    (rest : list row) (w : world) (sensor next_year : Z) (e : exn) :
  sensor_of (Sensor r) = inr sensor ->
  target_year r = Some next_year ->
  lookup_sheet (files w) (input a) (sheet_of next_year) = inl e ->
  loop a cs (r :: rest) w
  = loop a cs rest
      (mk_world (files w)
         (trace w ++ [ReadExcel (input a) (sheet_of next_year);
                      LogWarning (sheet_of next_year) e])).
Proof.
  intros S T L. rewrite loop_cons.
  rewrite (unreadable_sheet_skipped a cs r w sensor next_year e S T L
             (lookup_sheet_exception _ _ _ _ L)).
  reflexivity.
Qed.

Example unreadable_sheet_continues_witness :
  loop args_2020 [] [mk_row (Str "2018-2019") "Sensor 3" (fin (1 # 4)); row_s3]
       (start fs_2020)
  = loop args_2020 [] [row_s3]
      (mk_world fs_2020
         [ReadExcel "in/data.xlsx" "Raw Data 2018";
          LogWarning "Raw Data 2018"
            (ValueError "Worksheet named 'Raw Data 2018' not found")]).
Proof.
  apply (unreadable_sheet_continues args_2020 []
           (mk_row (Str "2018-2019") "Sensor 3" (fin (1 # 4))) [row_s3]
           (start fs_2020) 3 2018);
    reflexivity.
Defined.

Lemma assoc_None {A} (k : string) (l : list (string * A)) :
  ~ In k (map fst l) -> assoc k l = None.
Proof.
  induction l as [|[k' x] l IH]; simpl; intros H; [reflexivity|].
  destruct (String.eqb k k') eqn:E.
  - apply String.eqb_eq in E. subst k'. tauto.
  - apply IH. tauto.
Qed.

(** X9.  An outlier whose sensor has no column in the sheet, once the
    time column is dropped, ends the loop in a [KeyError] naming the
    column: the sheet was read, nothing is written, no record is kept, and
    the outliers that follow are not looked at. *)
Theorem missing_column_ends_loop (a : args) (cs : list correction) (r : row)
    (rest : list row) (w : world) (sensor next_year : Z)
    (raw dropped : DataFrame) :
  sensor_of (Sensor r) = inr sensor ->
  target_year r = Some next_year ->
  lookup_sheet (files w) (input a) (sheet_of next_year) = inr raw ->
  drop_time raw = inr dropped ->
  ~ In (sensor_column sensor) (columns dropped) ->
  loop a cs (r :: rest) w
  = (inl (KeyError (sensor_column sensor)),
     mk_world (files w)
       (trace w ++ [ReadExcel (input a) (sheet_of next_year)])).
Proof.
  intros S T L D N. unfold target_year in T.
  rewrite loop_cons. unfold loop_body, bind, lift. rewrite S.
  destruct (re_findall (Year_Pair r)) as [x|[|y0 [|y1 [|y2 years]]]];
    try discriminate.
  unfold int. rewrite T. open_read.
  rewrite L, D. unfold shift, getitem. rewrite (assoc_None _ _ N).
  reflexivity.
Qed.

Example missing_column_ends_loop_witness :
  loop args_2020 []
       [mk_row (Str "2020-2021") "Sensor 2" (fin (1 # 2)); row_s3]
       (start fs_2020)
  = (inl (KeyError "V2"),
     mk_world fs_2020 [ReadExcel "in/data.xlsx" "Raw Data 2020"]).
Proof.
  apply (missing_column_ends_loop args_2020 []
           (mk_row (Str "2020-2021") "Sensor 2" (fin (1 # 2))) [row_s3]
           (start fs_2020) 2 2020
           [("V1", [Num (fin 1); Num (fin 2)]); ("V3", [Num (fin 10); Num nan]);
            ("TimeStamp", [Str "08:00"; Str "09:00"])]
           [("V1", [Num (fin 1); Num (fin 2)]); ("V3", [Num (fin 10); Num nan])]);
    try reflexivity.
  simpl. intros [H|[H|[]]]; discriminate H.
Defined.

(** X10.  A sheet without any column ends the loop in the [IndexError]
    of [df_raw.columns[-1]]: nothing is written and the outliers that
    follow are not looked at. *)
Theorem empty_sheet_ends_loop (a : args) (cs : list correction) (r : row)
    (rest : list row) (w : world) (sensor next_year : Z) :
  sensor_of (Sensor r) = inr sensor ->
  target_year r = Some next_year ->
  lookup_sheet (files w) (input a) (sheet_of next_year) = inr [] ->
  loop a cs (r :: rest) w
  = (inl IndexError,
     mk_world (files w)
       (trace w ++ [ReadExcel (input a) (sheet_of next_year)])).
Proof.
  intros S T L. unfold target_year in T.
  rewrite loop_cons. unfold loop_body, bind, lift. rewrite S.
  destruct (re_findall (Year_Pair r)) as [x|[|y0 [|y1 [|y2 years]]]];
    try discriminate.
  unfold int. rewrite T. open_read. rewrite L. reflexivity.
Qed.

Example empty_sheet_ends_loop_witness :
  loop args_2020 [] [row_s3; row_s1] (start fs_empty_sheet)
  = (inl IndexError,
     mk_world fs_empty_sheet [ReadExcel "in/data.xlsx" "Raw Data 2020"]).
Proof.
  apply (empty_sheet_ends_loop args_2020 [] row_s3 [row_s1]
           (start fs_empty_sheet) 3 2020);
    reflexivity.
Defined.

(** X11.  The sensor number is read off the label before the year
    tokens are looked at: a label without a token ends the loop in an
    [IndexError], a label whose last token is no integer in the
    [ValueError] of [int] on that token, in both cases before any sheet is
    read and whatever the year label holds. *)
Theorem bad_sensor_label_ends_loop (a : args) (cs : list correction) (r : row)
    (rest : list row) (w : world) :
  (split (Sensor r) = [] -> loop a cs (r :: rest) w = (inl IndexError, w))
  /\ (forall tok, last (split (Sensor r)) = Some tok -> py_int tok = None ->
        loop a cs (r :: rest) w = (inl (InvalidLiteral tok), w)).
Proof.
  split.
  - intros E. rewrite loop_cons. unfold loop_body, bind, lift, sensor_of,
      last_token. rewrite E. reflexivity.
  - intros tok E N. rewrite loop_cons.
    unfold loop_body, bind, lift, sensor_of, last_token, int.
    rewrite E, N. reflexivity.
Qed.

(** White space as Python has it: a no-break space (code 160) parts
    the tokens of a label and is stripped by [int]; a file separator
    (code 28) parts tokens too, but [int] does not strip it. *)
Example white_space_of_labels :
  sensor_of ("Sensor" ++ String "160" "3") = inr 3
  /\ int (String "160" "3") = inr 3
  /\ split ("a" ++ String "028" "b") = ["a"; "b"]
  /\ int (String "028" "3") = inl (InvalidLiteral (String "028" "3")).
Proof. repeat split; reflexivity. Qed.

Example bad_sensor_label_ends_loop_witness :
  loop args_2020 [] [mk_row (Str "no year here") "Sensor 3A" (fin 1); row_s3]
       (start fs_2020)
  = (inl (InvalidLiteral "3A"), start fs_2020).
Proof.
  apply (proj2 (bad_sensor_label_ends_loop args_2020 []
                  (mk_row (Str "no year here") "Sensor 3A" (fin 1)) [row_s3]
                  (start fs_2020)) "3A");
    reflexivity.
Defined.

(** X12.  When the last column of the sheet read has no 'time' in its
    name, the sheet is corrected whole: the table written has the columns
    of the sheet, all of them and in their order, and every column other
    than the sensor's is written as read. *)
Theorem columns_kept_without_time (a : args) (cs : list correction) (r : row)
    (w : world) (cs' : list correction) (w' : world) :
  loop_body a cs r w = (inr cs', w') -> cs' <> cs ->
  exists sensor next_year raw out,
    lookup_sheet (files w) (input a) (sheet_of next_year) = inr raw
    /\ files w' !! out_file_of a next_year
       = Some (Xlsx [(sheet_of next_year, out)])
    /\ forall last_col,
         last (columns raw) = Some last_col ->
         contains "time" (lower last_col) = false ->
         shift raw (sensor_column sensor) (fneg (Difference r)) = inr out
         /\ columns out = columns raw
         /\ (forall name, name <> sensor_column sensor ->
               assoc name out = assoc name raw).
Proof.
  intros E N.
  destruct (loop_body_appended _ _ _ _ _ _ E N)
    as (sensor & y & raw & out & [S Y L (dropped & D & H)] & -> & ->).
  exists sensor, y, raw, out. split; [exact L|]. split.
  { unfold corrected_world. cbn [files]. apply lookup_insert_eq. }
  intros last_col HL HT.
  destruct (drop_time_cases _ _ D) as (c & Hc & Hd).
  rewrite HL in Hc. injection Hc as <-. rewrite HT in Hd. subst dropped.
  destruct (shift_cases _ _ _ _ H) as (old & new & G & O & ->).
  repeat split.
  - exact H.
  - apply (columns_setitem _ _ _ _ G).
  - intros name Hn. apply assoc_setitem_ne. exact Hn.
Qed.

Example columns_kept_without_time_witness :
  exists sensor next_year raw out,
    lookup_sheet fs_missing "in/data.xlsx" (sheet_of next_year) = inr raw
    /\ files (snd (loop_body args_2020 [] row_s3 (start fs_missing)))
         !! out_file_of args_2020 next_year
       = Some (Xlsx [(sheet_of next_year, out)])
    /\ forall last_col,
         last (columns raw) = Some last_col ->
         contains "time" (lower last_col) = false ->
         shift raw (sensor_column sensor) (fneg (Difference row_s3)) = inr out
         /\ columns out = columns raw
         /\ (forall name, name <> sensor_column sensor ->
               assoc name out = assoc name raw).
Proof.
  apply (columns_kept_without_time args_2020 [] row_s3 (start fs_missing)
           [mk_correction (Str "2020-2021") 3 (fin (25 # 100))
              (fneg (fin (25 # 100))) "output/data_2020_corrected.xlsx"]
           (snd (loop_body args_2020 [] row_s3 (start fs_missing)))).
  - rewrite (surjective_pairing (loop_body args_2020 [] row_s3 (start fs_missing))).
    f_equal.
  - discriminate.
Defined.

(** ** What the loop writes *)

Lemma loop_body_other_files (a : args) (cs : list correction) (r : row)
    (w : world) (res : result (list correction)) (w' : world) (p : string) :
  loop_body a cs r w = (res, w') ->
  (forall y, p <> out_file_of a y) ->
  files w' !! p = files w !! p.
Proof.
  intros E N. apply loop_body_cases in E.
  destruct E as [(F & _)|(sensor & y & raw & out & _ & _ & ->)].
  - rewrite F. reflexivity.
  - unfold corrected_world. cbn [files]. apply lookup_insert_ne.
    intros H. apply (N y). symmetry. exact H.
Qed.

(** X13.  Through the whole loop, however it ends, the only files
    written are corrected files: a path that is not
    [{output}/{base}_{year}_corrected.xlsx] for some year holds what it
    held, and so does the workbook read. *)
Theorem loop_writes_only_corrected_files (a : args) (rows : list row)
    (cs : list correction) (w : world)
    (res : result (list correction)) (w' : world) :
  loop a cs rows w = (res, w') ->
  (forall p, (forall y, p <> out_file_of a y) -> files w' !! p = files w !! p)
  /\ files w' !! input a = files w !! input a.
Proof.
  intros L. split.
  - intros p N. revert cs w L.
    induction rows as [|r rows IH]; intros cs w; cbn [loop].
    + intros [= _ <-]. reflexivity.
    + unfold bind. destruct (loop_body a cs r w) as [[e|cs1] w1] eqn:B.
      * intros [= _ <-]. apply (loop_body_other_files _ _ _ _ _ _ _ B N).
      * intros L. rewrite (IH _ _ L).
        apply (loop_body_other_files _ _ _ _ _ _ _ B N).
  - apply (loop_input _ _ _ _ _ _ L).
Qed.

Example loop_writes_only_corrected_files_witness :
  files (snd (loop args_2020 [] [row_s1; row_s3] (start fs_2020)))
    !! input args_2020
  = files (start fs_2020) !! input args_2020.
Proof.
  apply (proj2 (loop_writes_only_corrected_files args_2020 [row_s1; row_s3]
                  [] (start fs_2020)
                  (fst (loop args_2020 [] [row_s1; row_s3] (start fs_2020)))
                  (snd (loop args_2020 [] [row_s1; row_s3] (start fs_2020)))
                  (surjective_pairing _))).
Defined.

(** ** The records of a run *)

Lemma loop_body_one_sheet (a : args) (cs : list correction) (r : row)
    (w : world) (res : result (list correction)) (w' : world) (p : string) :
  loop_body a cs r w = (res, w') ->
  one_sheet (files w !! p) -> one_sheet (files w' !! p).
Proof.
  intros E O. apply loop_body_cases in E.
  destruct E as [(F & _)|(sensor & y & raw & out & _ & _ & ->)].
  - rewrite F. exact O.
  - unfold corrected_world. cbn [files].
    destruct (decide (out_file_of a y = p)) as [<-|N].
    + rewrite lookup_insert_eq. eexists _, _. reflexivity.
    + rewrite lookup_insert_ne by exact N. exact O.
Qed.

Lemma loop_one_sheet (a : args) (rows : list row) (cs : list correction)
    (w : world) (res : result (list correction)) (w' : world) (p : string) :
  loop a cs rows w = (res, w') ->
  one_sheet (files w !! p) -> one_sheet (files w' !! p).
Proof.
  revert cs w. induction rows as [|r rows IH]; intros cs w; cbn [loop].
  - intros [= _ <-] O. exact O.
  - unfold bind. destruct (loop_body a cs r w) as [[e|cs1] w1] eqn:B.
    + intros [= _ <-] O. apply (loop_body_one_sheet _ _ _ _ _ _ _ B O).
    + intros L O. apply (IH _ _ L).
      apply (loop_body_one_sheet _ _ _ _ _ _ _ B O).
Qed.

Lemma recorded_weaken (a : args) (r : row) (rows : list row) (c : correction) :
  recorded a rows c -> recorded a (r :: rows) c.
Proof.
  intros (O & r' & y & I & H). split; [exact O|].
  exists r', y. split; [right; exact I|exact H].
Qed.

Lemma loop_new_records (a : args) (rows : list row) (cs cs' : list correction)
    (w w' : world) :
  loop a cs rows w = (inr cs', w') ->
  exists new,
    cs' = cs ++ new
    /\ (length new <= length rows)%nat
    /\ Forall (fun c => recorded a rows c
                        /\ one_sheet (files w' !! c_CorrectedFile c)) new.
Proof.
  revert cs w. induction rows as [|r rows IH]; intros cs w; cbn [loop].
  - intros [= <- <-]. exists []. rewrite app_nil_r.
    split; [reflexivity|]. split; [reflexivity|constructor].
  - unfold bind. destruct (loop_body a cs r w) as [[e|cs1] w1] eqn:B;
      [discriminate|].
    intros L. destruct (IH _ _ L) as (new & E & Len & F).
    assert (F' : Forall (fun c => recorded a (r :: rows) c
                          /\ one_sheet (files w' !! c_CorrectedFile c)) new).
    { eapply List.Forall_impl; [|exact F]. intros c [R O].
      split; [apply recorded_weaken; exact R|exact O]. }
    apply loop_body_cases in B.
    destruct B as [(_ & K & _)|(sensor & y & raw & out & C & R & W)].
    + rewrite (K cs1 eq_refl) in E. exists new.
      split; [exact E|]. split; [simpl; lia|exact F'].
    + injection R as R. subst cs1 w1.
      exists (mk_correction (Year_Pair r) sensor (Difference r)
                (fneg (Difference r)) (out_file_of a y) :: new).
      split; [rewrite E, <- app_assoc; reflexivity|].
      split; [simpl; lia|]. constructor; [|exact F'].
      cbn [c_CorrectedFile]. split.
      * split; [reflexivity|]. exists r, y. cbn.
        repeat split; try reflexivity.
        -- left. reflexivity.
        -- destruct C as [S _ _ _]. exact S.
        -- apply (corrects_target_year _ _ _ _ _ _ _ C).
      * apply (loop_one_sheet _ _ _ _ _ _ _ L).
        unfold corrected_world. cbn [files]. rewrite lookup_insert_eq.
        eexists _, _. reflexivity.
Qed.

(** X14.  A loop that comes to its end has appended to the list of
    corrections, never removed or changed: at most one record per outlier,
    each with the label, the difference and the sensor number of one of the
    outliers, the offset opposite to the difference, and the file of the
    year of that outlier. *)
Theorem loop_records (a : args) (rows : list row) (cs cs' : list correction)
    (w w' : world) :
  loop a cs rows w = (inr cs', w') ->
  exists new,
    cs' = cs ++ new
    /\ (length new <= length rows)%nat
    /\ Forall (recorded a rows) new.
Proof.
  intros L. destruct (loop_new_records _ _ _ _ _ _ L) as (new & E & Len & F).
  exists new. split; [exact E|]. split; [exact Len|].
  eapply List.Forall_impl; [|exact F]. intros c [R _]. exact R.
Qed.

Example loop_records_witness :
  exists new,
    fst (loop args_2020 [] [row_s1; row_s3] (start fs_2020)) = inr ([] ++ new)
    /\ (length new <= 2)%nat
    /\ Forall (recorded args_2020 [row_s1; row_s3]) new.
Proof.
  destruct (loop_records args_2020 [row_s1; row_s3] []
              [mk_correction (Str "2020-2021") 1 (fin (30 # 100))
                 (fneg (fin (30 # 100))) "output/data_2020_corrected.xlsx";
               mk_correction (Str "2020-2021") 3 (fin (25 # 100))
                 (fneg (fin (25 # 100))) "output/data_2020_corrected.xlsx"]
              (start fs_2020)
              (snd (loop args_2020 [] [row_s1; row_s3] (start fs_2020))))
    as (new & E & H).
  - rewrite (surjective_pairing (loop args_2020 [] [row_s1; row_s3] (start fs_2020))).
    f_equal.
  - exists new. split; [rewrite <- E; reflexivity|exact H].
Defined.

(** X15.  When the loop comes to its end, every file a new record
    names is in the store, a workbook of one sheet: a later correction may
    have replaced it, none has removed it. *)
Theorem recorded_files_written (a : args) (rows : list row)
    (cs cs' : list correction) (w w' : world) :
  loop a cs rows w = (inr cs', w') ->
  exists new,
    cs' = cs ++ new
    /\ Forall (fun c => one_sheet (files w' !! c_CorrectedFile c)) new.
Proof.
  intros L. destruct (loop_new_records _ _ _ _ _ _ L) as (new & E & _ & F).
  exists new. split; [exact E|].
  eapply List.Forall_impl; [|exact F]. intros c [_ O]. exact O.
Qed.

Example recorded_files_written_witness :
  exists new,
    fst (loop args_2020 [] [row_s1; row_s3] (start fs_2020)) = inr ([] ++ new)
    /\ Forall (fun c => one_sheet
                 (files (snd (loop args_2020 [] [row_s1; row_s3] (start fs_2020)))
                    !! c_CorrectedFile c)) new.
Proof.
  destruct (recorded_files_written args_2020 [row_s1; row_s3] []
              [mk_correction (Str "2020-2021") 1 (fin (30 # 100))
                 (fneg (fin (30 # 100))) "output/data_2020_corrected.xlsx";
               mk_correction (Str "2020-2021") 3 (fin (25 # 100))
                 (fneg (fin (25 # 100))) "output/data_2020_corrected.xlsx"]
              (start fs_2020)
              (snd (loop args_2020 [] [row_s1; row_s3] (start fs_2020))))
    as (new & E & H).
  - rewrite (surjective_pairing (loop args_2020 [] [row_s1; row_s3] (start fs_2020))).
    f_equal.
  - exists new. split; [rewrite <- E; reflexivity|exact H].
Defined.

(** ** Names of sheets, columns and files *)

Section Names.

Local Open Scope string_scope.

Lemma py_str_read_back (n : Z) :
  match NilZero.int_of_string (py_str n) with
  | Some d => Z.of_int d
  | None => 0
  end = n.
Proof.
  unfold py_str. rewrite <- (DecimalZ.of_to n) at 2.
  destruct (Z.to_int n) as [[| | | | | | | | | |]|[| | | | | | | | | |]] eqn:E;
    try reflexivity;
    rewrite NilZero.isi by discriminate; reflexivity.
Qed.

Lemma py_str_inj (m n : Z) : py_str m = py_str n -> m = n.
Proof.
  intros H. rewrite <- (py_str_read_back m), <- (py_str_read_back n), H.
  reflexivity.
Qed.

Lemma str_length_app (s t : string) :
  String.length (s ++ t) = (String.length s + String.length t)%nat.
Proof.
  induction s as [|c s IH]; [reflexivity|].
  change (S (String.length (s ++ t))
          = S (String.length s + String.length t)).
  rewrite IH. reflexivity.
Qed.

Lemma app_cancel_r (s t u : string) : s ++ u = t ++ u -> s = t.
Proof.
  revert t. induction s as [|c s IH]; intros [|d t] H.
  - reflexivity.
  - apply (f_equal String.length) in H. rewrite !str_length_app in H.
    simpl in H. lia.
  - apply (f_equal String.length) in H. rewrite !str_length_app in H.
    simpl in H. lia.
  - injection H as -> H. f_equal. apply IH. exact H.
Qed.

(** X16.  Different sensor numbers are corrected in different columns
    and different years in different sheets and different files: the names
    [V{sensor}], [Raw Data {year}] and
    [{output}/{base}_{year}_corrected.xlsx] determine the number they are
    built from. *)
Theorem names_determine_numbers (a : args) (m n : Z) :
  (sensor_column m = sensor_column n -> m = n)
  /\ (sheet_of m = sheet_of n -> m = n)
  /\ (out_file_of a m = out_file_of a n -> m = n).
Proof.
  repeat split.
  - unfold sensor_column. intros H. injection H as H. apply py_str_inj, H.
  - unfold sheet_of. intros H. apply (app_cancel_l "Raw Data ") in H.
    apply py_str_inj, H.
  - intros H. apply (f_equal basename) in H.
    rewrite !out_file_basename in H.
    apply app_cancel_l in H. injection H as H.
    exact (py_str_inj _ _
             (app_cancel_r (py_str m) (py_str n) "_corrected.xlsx" H)).
Qed.

Example names_determine_numbers_witness :
  sensor_column 1 <> sensor_column 3
  /\ out_file_of args_2020 2020 <> out_file_of args_2020 2021.
Proof.
  split; intros H.
  - apply (proj1 (names_determine_numbers args_2020 1 3)) in H. discriminate H.
  - apply (proj2 (proj2 (names_determine_numbers args_2020 2020 2021))) in H.
    discriminate H.
Defined.

End Names.

(** ** Runs, stage by stage *)

(** [os.makedirs] either raises, leaving the world as it was, or
    returns with the directory made. *)
Lemma makedirs_cases (dir : string) (w : world) :
  (exists e, makedirs dir w = (inl e, w))
  \/ makedirs dir w = (inr tt, emit (Makedirs dir) w).
Proof.
  unfold makedirs.
  destruct (String.length dir =? 0)%nat; [left; eauto|].
  destruct (file_above (files w) EmptyString dir); [left; eauto|].
  destruct (is_file (files w) (rstrip_sep dir)); [left; eauto|].
  right. reflexivity.
Qed.

Lemma makedirs_returns (dir : string) (w : world) :
  fst (makedirs dir w) = inr tt ->
  makedirs dir w = (inr tt, emit (Makedirs dir) w).
Proof.
  destruct (makedirs_cases dir w) as [(e & ->)|E]; [discriminate|].
  intros _. exact E.
Qed.

(** Without the output directory the run ends at line 80, before
    anything is read. *)
Lemma main_no_directory (cl : cmdline) (a : args) (w : world) (e : exn) :
  parse_args cl = inr a ->
  fst (makedirs (output a) w) = inl e ->
  main cl w = (inl e, w).
Proof.
  intros P D. unfold main, bind at 1. unfold lift at 1. rewrite P.
  unfold bind at 1.
  destruct (makedirs_cases (output a) w) as [(e' & E)|E]; rewrite E in *.
  - simpl in D. congruence.
  - discriminate D.
Qed.

(** [main] behind [parse_args] and [os.makedirs]: the differences are
    read, melted and screened, then the outliers are corrected and
    reported. *)
Lemma main_stages (cl : cmdline) (a : args) (w : world) :
  parse_args cl = inr a ->
  fst (makedirs (output a) w) = inr tt ->
  main cl w
  = match lookup_sheet (files w) (input a) (sheet_summary a) with
    | inl e => (inl e, asked a w)
    | inr diff_df =>
        match melt diff_df with
        | inl e => (inl e, asked a w)
        | inr long_df =>
            match detect_outliers long_df (method a) (threshold a)
                    (zscore a) (iqr_factor a) with
            | inl e => (inl e, asked a w)
            | inr outliers => correct_and_report a outliers (asked a w)
            end
        end
    end.
Proof.
  intros P D. unfold main, bind at 1. unfold lift at 1. rewrite P.
  unfold bind at 1. rewrite (makedirs_returns _ _ D).
  unfold read_excel.
  unfold bind, tell, lift, emit, asked. cbn [files trace].
  rewrite <- !app_assoc. cbn [app].
  destruct (lookup_sheet (files w) (input a) (sheet_summary a)) as [e|diff_df];
    [reflexivity|].
  destruct (melt diff_df) as [e|long_df]; [reflexivity|].
  destruct (detect_outliers long_df (method a) (threshold a) (zscore a)
              (iqr_factor a)) as [e|outliers]; [reflexivity|].
  unfold correct_and_report, emit. cbn [files trace].
  destruct (loop a [] outliers _) as [[e|cs] w2]; [reflexivity|].
  unfold to_excel, savefig, summarized, plotted, corr_file_of, plot_file_of.
  cbn [files trace].
  destruct (xtick_labels outliers) as [e|xticks].
  - rewrite <- !app_assoc. reflexivity.
  - cbn [files trace]. rewrite <- !app_assoc. reflexivity.
Qed.

(** The output directory of the command line: an empty path, the path
    of the workbook and a path below the workbook end the run at line 80,
    with nothing read. *)
Example run_without_directory :
  main (mk_cmdline (Some "in/data.xlsx") None None None None None (Some ""))
       (start fs_2020)
  = (inl (FileNotFoundError ""), start fs_2020)
  /\ main (mk_cmdline (Some "in/data.xlsx") None None None None None
             (Some "in/data.xlsx"))
          (start fs_2020)
     = (inl (FileExistsError "in/data.xlsx"), start fs_2020)
  /\ main (mk_cmdline (Some "in/data.xlsx") None None None None None
             (Some "in/data.xlsx/out"))
          (start fs_2020)
     = (inl NotADirectoryError, start fs_2020).
Proof. repeat split; vm_compute; reflexivity. Qed.

(** X17.  Once the output directory is there, a workbook that cannot
    be read, or without the summary sheet, is fatal: [main] ends in the
    error of [read_excel] ([FileNotFoundError] when no file is at the input
    path), having written no file. *)
Theorem unreadable_workbook_fatal (cl : cmdline) (a : args) (w : world)
    (e : exn) :
  parse_args cl = inr a ->
  fst (makedirs (output a) w) = inr tt ->
  lookup_sheet (files w) (input a) (sheet_summary a) = inl e ->
  main cl w
  = (inl e,
     mk_world (files w)
       (trace w ++ [Makedirs (output a);
                    LogInfo "Loading year-to-year differences";
                    ReadExcel (input a) (sheet_summary a)]))
  /\ (files w !! input a = None -> e = FileNotFoundError (input a)).
Proof.
  intros P D L. split.
  - rewrite (main_stages _ _ _ P D), L. reflexivity.
  - intros N. unfold lookup_sheet in L. rewrite N in L.
    injection L as <-. reflexivity.
Qed.

Example unreadable_workbook_fatal_witness :
  main cl_data (start no_files)
  = (inl (FileNotFoundError "in/data.xlsx"),
     mk_world no_files
       [Makedirs "output"; LogInfo "Loading year-to-year differences";
        ReadExcel "in/data.xlsx" "Year-to-Year Differences"]).
Proof.
  apply (unreadable_workbook_fatal cl_data args_2020 (start no_files)
           (FileNotFoundError "in/data.xlsx"));
    reflexivity.
Defined.

(** X18.  Once the output directory is there, a summary sheet without
    a column named Year_Pair (and without one named Difference) is fatal:
    [main] ends in the [KeyError] of [melt], whose argument is a sentence
    of pandas, before any outlier is looked for and with no file
    written. *)
Theorem missing_year_pair_fatal (cl : cmdline) (a : args) (w : world)
    (diff_df : DataFrame) :
  parse_args cl = inr a ->
  fst (makedirs (output a) w) = inr tt ->
  lookup_sheet (files w) (input a) (sheet_summary a) = inr diff_df ->
  ~ In "Year_Pair" (columns diff_df) ->
  ~ In "Difference" (columns diff_df) ->
  exists sentence,
    main cl w
    = (inl (KeyError sentence),
       mk_world (files w)
         (trace w ++ [Makedirs (output a);
                      LogInfo "Loading year-to-year differences";
                      ReadExcel (input a) (sheet_summary a)])).
Proof.
  intros P D L NY ND. exists missing_id_vars.
  rewrite (main_stages _ _ _ P D), L.
  assert (M : melt diff_df = inl (KeyError missing_id_vars)).
  { unfold melt. rewrite (assoc_None _ _ NY).
    assert (E : existsb (fun c => String.eqb (fst c) "Difference") diff_df
                = false).
    { destruct (existsb _ diff_df) eqn:X; [|reflexivity].
      apply existsb_exists in X. destruct X as (c & Hc & Ec).
      apply String.eqb_eq in Ec. exfalso. apply ND. rewrite <- Ec.
      apply in_map. exact Hc. }
    rewrite E. reflexivity. }
  rewrite M. reflexivity.
Qed.

Example missing_year_pair_fatal_witness :
  exists sentence,
    main (mk_cmdline (Some "in/data.xlsx") (Some "Raw Data 2020") None None
            None None None)
         (start fs_2020)
    = (inl (KeyError sentence),
       mk_world fs_2020
         [Makedirs "output"; LogInfo "Loading year-to-year differences";
          ReadExcel "in/data.xlsx" "Raw Data 2020"]).
Proof.
  apply (missing_year_pair_fatal
           (mk_cmdline (Some "in/data.xlsx") (Some "Raw Data 2020") None None
              None None None)
           (mk_args "in/data.xlsx" "Raw Data 2020" "abs" (fin (1 # 10))
              (fin 3) (fin (3 # 2)) "output")
           (start fs_2020)
           [("V1", [Num (fin 1); Num (fin 2)]); ("V3", [Num (fin 10); Num nan]);
            ("TimeStamp", [Str "08:00"; Str "09:00"])]);
    try reflexivity;
    simpl; intros [H|[H|[H|[]]]]; discriminate H.
Defined.

(** X19.  When the output directory is there and no record is flagged
    the run comes to its end: no sheet of raw data is read and no corrected
    file written; the summary is written without any column, then the
    plot, and an empty table is printed. *)
Theorem no_outlier_run (cl : cmdline) (a : args) (w : world)
    (diff_df : DataFrame) (long_df : list row) :
  parse_args cl = inr a ->
  fst (makedirs (output a) w) = inr tt ->
  lookup_sheet (files w) (input a) (sheet_summary a) = inr diff_df ->
  melt diff_df = inr long_df ->
  detect_outliers long_df (method a) (threshold a) (zscore a) (iqr_factor a)
    = inr [] ->
  main cl w
  = (inr tt,
     mk_world
       (<[plot_file_of a := Png]>
          (<[corr_file_of a := Xlsx [("Sheet1", [])]]> (files w)))
       (trace w ++
        [Makedirs (output a);
         LogInfo "Loading year-to-year differences";
         ReadExcel (input a) (sheet_summary a);
         LogInfo ("Detected 0 outliers using '" ++ method a ++ "' method")%string;
         ToExcel (corr_file_of a) "Sheet1";
         LogInfo ("Saved corrections summary to '" ++ corr_file_of a ++ "'")%string;
         Savefig (plot_file_of a) [];
         LogInfo ("Saved plot to '" ++ plot_file_of a ++ "'")%string;
         Print 0])).
Proof.
  intros P K L M D. rewrite (main_stages _ _ _ P K), L, M, D.
  unfold correct_and_report, plotted, summarized, asked, emit.
  cbn [loop ret xtick_labels files trace length summary_frame].
  rewrite <- !app_assoc. reflexivity.
Qed.

Example no_outlier_run_witness :
  fst (main (mk_cmdline (Some "in/data.xlsx") None None (Some (fin 5)) None
               None None)
            (start fs_2020))
  = inr tt.
Proof.
  rewrite (no_outlier_run
             (mk_cmdline (Some "in/data.xlsx") None None (Some (fin 5)) None
                None None)
             (mk_args "in/data.xlsx" "Year-to-Year Differences" "abs" (fin 5)
                (fin 3) (fin (3 # 2)) "output")
             (start fs_2020)
             [("Year_Pair", [Str "2019-2020"; Str "2020-2021"]);
              ("Sensor 1", [Num (fin (5 # 100)); Num (fin (30 # 100))]);
              ("Sensor 3", [Num (fin (1 # 100)); Num (fin (25 # 100))])]
             [mk_row (Str "2019-2020") "Sensor 1" (fin (5 # 100));
              mk_row (Str "2020-2021") "Sensor 1" (fin (30 # 100));
              mk_row (Str "2019-2020") "Sensor 3" (fin (1 # 100));
              mk_row (Str "2020-2021") "Sensor 3" (fin (25 # 100))]);
    reflexivity.
Defined.

(** The tick labels raise on the first outlier whose label is no
    integer as a whole. *)
Lemma xtick_labels_raises (outliers : list row) (r : row) :
  In r outliers -> py_int (Sensor r) = None ->
  exists r', In r' outliers /\ py_int (Sensor r') = None
    /\ xtick_labels outliers = inl (InvalidLiteral (Sensor r')).
Proof.
  induction outliers as [|r0 outliers IH]; intros I N; [contradiction|].
  cbn [xtick_labels]. unfold int at 1.
  destruct (py_int (Sensor r0)) as [n|] eqn:E.
  - destruct I as [->|I]; [congruence|].
    destruct (IH I N) as (r' & I' & N' & ->). exists r'.
    repeat split; [right; exact I'|exact N'].
  - exists r0. repeat split; [left; reflexivity|exact E].
Qed.

Lemma xtick_labels_returns (outliers : list row) (xticks : list (cell * Z)) :
  xtick_labels outliers = inr xticks ->
  Forall (fun r => exists n, py_int (Sensor r) = Some n) outliers
  /\ length xticks = length outliers.
Proof.
  revert xticks. induction outliers as [|r outliers IH]; intros xticks.
  - intros [= <-]. split; [constructor|reflexivity].
  - cbn [xtick_labels]. unfold int at 1.
    destruct (py_int (Sensor r)) as [n|] eqn:E; [|discriminate].
    destruct (xtick_labels outliers) as [e|t]; [discriminate|].
    intros [= <-]. destruct (IH t eq_refl) as [F L].
    split; [constructor; [exists n; exact E|exact F]|simpl; rewrite L; reflexivity].
Qed.

(** X20.  The tick labels of the plot pass the whole sensor label to
    [int] (line 144).  When the output directory is there, the loop has
    come to its end and one outlier has a label that is no integer as a
    whole, "Sensor 3" for one, the run ends in the [ValueError] of [int] on
    such a label, after the corrected files and the summary are written,
    before the plot is saved and the table printed. *)
Theorem worded_label_ends_run (cl : cmdline) (a : args) (w w2 : world)
    (diff_df : DataFrame) (long_df outliers : list row)
    (cs : list correction) (r : row) :
  parse_args cl = inr a ->
  fst (makedirs (output a) w) = inr tt ->
  lookup_sheet (files w) (input a) (sheet_summary a) = inr diff_df ->
  melt diff_df = inr long_df ->
  detect_outliers long_df (method a) (threshold a) (zscore a) (iqr_factor a)
    = inr outliers ->
  loop a [] outliers (screened a outliers w) = (inr cs, w2) ->
  In r outliers -> py_int (Sensor r) = None ->
  exists r',
    In r' outliers /\ py_int (Sensor r') = None
    /\ main cl w
       = (inl (InvalidLiteral (Sensor r')),
          mk_world
            (<[corr_file_of a := Xlsx [("Sheet1", summary_frame cs)]]> (files w2))
            (trace w2 ++ [ToExcel (corr_file_of a) "Sheet1";
                          LogInfo ("Saved corrections summary to '"
                                   ++ corr_file_of a ++ "'")%string])).
Proof.
  intros P K L M D E I N.
  rewrite (main_stages _ _ _ P K), L, M, D. unfold correct_and_report.
  change (emit _ (asked a w)) with (screened a outliers w). rewrite E.
  destruct (xtick_labels_raises _ _ I N) as (r' & I' & N' & ->).
  exists r'. repeat split; assumption.
Qed.

Example worded_label_ends_run_witness :
  exists r',
    In r' [row_s1; row_s3] /\ py_int (Sensor r') = None
    /\ fst (main cl_data (start fs_2020)) = inl (InvalidLiteral (Sensor r')).
Proof.
  destruct (worded_label_ends_run cl_data args_2020 (start fs_2020)
              (snd (loop args_2020 [] [row_s1; row_s3]
                      (screened args_2020 [row_s1; row_s3] (start fs_2020))))
              [("Year_Pair", [Str "2019-2020"; Str "2020-2021"]);
               ("Sensor 1", [Num (fin (5 # 100)); Num (fin (30 # 100))]);
               ("Sensor 3", [Num (fin (1 # 100)); Num (fin (25 # 100))])]
              [mk_row (Str "2019-2020") "Sensor 1" (fin (5 # 100));
               mk_row (Str "2020-2021") "Sensor 1" (fin (30 # 100));
               mk_row (Str "2019-2020") "Sensor 3" (fin (1 # 100));
               mk_row (Str "2020-2021") "Sensor 3" (fin (25 # 100))]
              [row_s1; row_s3]
              [mk_correction (Str "2020-2021") 1 (fin (30 # 100))
                 (fneg (fin (30 # 100))) "output/data_2020_corrected.xlsx";
               mk_correction (Str "2020-2021") 3 (fin (25 # 100))
                 (fneg (fin (25 # 100))) "output/data_2020_corrected.xlsx"]
              row_s3)
    as (r' & I & N & E); try reflexivity.
  - right. left. reflexivity.
  - exists r'. rewrite E. repeat split; assumption.
Defined.

Lemma corr_plot_distinct (a : args) : corr_file_of a <> plot_file_of a.
Proof.
  unfold corr_file_of, plot_file_of. intros H.
  apply (f_equal basename) in H.
  rewrite !basename_join in H by reflexivity. discriminate H.
Qed.

(** X21.  A run that ends normally got through every stage: the
    arguments were accepted, the differences read, melted and screened, the
    loop came to its end, and every outlier has a sensor label that is an
    integer as a whole.  At its end the summary, one row per correction
    and at most one correction per outlier, and the plot are in the store,
    the table was printed last, and the workbook is as it was unless the
    summary or the plot was written over it. *)
Theorem normal_end (cl : cmdline) (w w' : world) :
  main cl w = (inr tt, w') ->
  exists a diff_df long_df outliers cs,
    parse_args cl = inr a
    /\ lookup_sheet (files w) (input a) (sheet_summary a) = inr diff_df
    /\ melt diff_df = inr long_df
    /\ detect_outliers long_df (method a) (threshold a) (zscore a)
         (iqr_factor a) = inr outliers
    /\ fst (loop a [] outliers (screened a outliers w)) = inr cs
    /\ Forall (fun r => exists n, py_int (Sensor r) = Some n) outliers
    /\ (length cs <= length outliers)%nat
    /\ files w' !! corr_file_of a = Some (Xlsx [("Sheet1", summary_frame cs)])
    /\ files w' !! plot_file_of a = Some Png
    /\ last (trace w') = Some (Print (length cs))
    /\ (input a <> corr_file_of a -> input a <> plot_file_of a ->
        files w' !! input a = files w !! input a).
Proof.
  intros E.
  destruct (parse_args cl) as [e|a] eqn:P.
  { unfold main, bind, lift in E. rewrite P in E. discriminate E. }
  destruct (fst (makedirs (output a) w)) as [e|[]] eqn:K.
  { rewrite (main_no_directory _ _ _ _ P K) in E. discriminate E. }
  rewrite (main_stages _ _ _ P K) in E.
  destruct (lookup_sheet (files w) (input a) (sheet_summary a))
    as [e|diff_df] eqn:L; [discriminate|].
  destruct (melt diff_df) as [e|long_df] eqn:M; [discriminate|].
  destruct (detect_outliers long_df (method a) (threshold a) (zscore a)
              (iqr_factor a)) as [e|outliers] eqn:D; [discriminate|].
  unfold correct_and_report in E.
  change (emit _ (asked a w)) with (screened a outliers w) in E.
  destruct (loop a [] outliers (screened a outliers w)) as [[e|cs] w2] eqn:Lp;
    [discriminate|].
  destruct (xtick_labels outliers) as [e|xticks] eqn:X; [discriminate|].
  injection E as <-.
  exists a, diff_df, long_df, outliers, cs.
  destruct (xtick_labels_returns _ _ X) as [F _].
  destruct (loop_new_records _ _ _ _ _ _ Lp) as (new & En & Len & _).
  simpl in En. subst new.
  pose proof (corr_plot_distinct a) as CP.
  repeat split; try assumption; try reflexivity.
  - rewrite Lp. reflexivity.
  - unfold plotted, summarized. cbn [files].
    rewrite lookup_insert_ne by (intros H; apply CP; symmetry; exact H).
    apply lookup_insert_eq.
  - unfold plotted. cbn [files]. apply lookup_insert_eq.
  - unfold plotted. cbn [trace].
    change [Savefig (plot_file_of a) xticks;
            LogInfo ("Saved plot to '" +:+ plot_file_of a +:+ "'");
            Print (length cs)]
      with ([Savefig (plot_file_of a) xticks;
             LogInfo ("Saved plot to '" +:+ plot_file_of a +:+ "'")]
            ++ [Print (length cs)]).
    rewrite app_assoc. apply last_snoc.
  - intros NC NP. unfold plotted, summarized. cbn [files].
    rewrite lookup_insert_ne by (intros H; apply NP; symmetry; exact H).
    rewrite lookup_insert_ne by (intros H; apply NC; symmetry; exact H).
    rewrite (loop_input _ _ _ _ _ _ Lp). reflexivity.
Qed.

Example normal_end_witness :
  exists a diff_df long_df outliers cs,
    parse_args cl_data = inr a
    /\ lookup_sheet fs_plain (input a) (sheet_summary a) = inr diff_df
    /\ melt diff_df = inr long_df
    /\ detect_outliers long_df (method a) (threshold a) (zscore a)
         (iqr_factor a) = inr outliers
    /\ fst (loop a [] outliers (screened a outliers (start fs_plain))) = inr cs
    /\ Forall (fun r => exists n, py_int (Sensor r) = Some n) outliers
    /\ (length cs <= length outliers)%nat
    /\ files (snd (main cl_data (start fs_plain))) !! corr_file_of a
       = Some (Xlsx [("Sheet1", summary_frame cs)])
    /\ files (snd (main cl_data (start fs_plain))) !! plot_file_of a = Some Png
    /\ last (trace (snd (main cl_data (start fs_plain))))
       = Some (Print (length cs))
    /\ (input a <> corr_file_of a -> input a <> plot_file_of a ->
        files (snd (main cl_data (start fs_plain))) !! input a
        = files (start fs_plain) !! input a).
Proof.
  apply (normal_end cl_data (start fs_plain)
           (snd (main cl_data (start fs_plain)))).
  rewrite (surjective_pairing (main cl_data (start fs_plain))). f_equal.
Defined.

(** ** The reshaping *)

Lemma melt_column_cells (ids : column) (name : string) (vals : column)
    (rows : list row) :
  melt_column ids name vals = inr rows ->
  forall r, In r rows <->
    Sensor r = name
    /\ exists i, ids !! i = Some (Year_Pair r)
                 /\ vals !! i = Some (Num (Difference r)).
Proof.
  revert vals rows. induction ids as [|p ids IH]; intros vals rows.
  - destruct vals as [|[s|x] vals]; intros [= <-] r; (split; [intros []|]);
      intros (_ & i & H & _); destruct i; discriminate H.
  - destruct vals as [|[s|x] vals]; cbn [melt_column].
    + intros [= <-] r. split; [intros []|].
      intros (_ & i & _ & H). destruct i; discriminate H.
    + discriminate.
    + destruct (melt_column ids name vals) as [e|t] eqn:E; [discriminate|].
      intros [= <-] r. specialize (IH vals t E r). split.
      * intros [<-|Hin].
        -- split; [reflexivity|]. exists O. split; reflexivity.
        -- apply IH in Hin. destruct Hin as (HS & i & H1 & H2).
           split; [exact HS|]. exists (S i). split; assumption.
      * intros (HS & [|i] & H1 & H2).
        -- left. cbn in H1, H2. injection H1 as ->. injection H2 as ->.
           destruct r; cbn in *. subst. reflexivity.
        -- right. apply IH. split; [exact HS|]. exists i. split; assumption.
Qed.

Lemma melt_columns_cells (ids : column) (cols : DataFrame) (rows : list row) :
  melt_columns ids cols = inr rows ->
  forall r, In r rows <->
    exists vals i, In (Sensor r, vals) cols
                   /\ ids !! i = Some (Year_Pair r)
                   /\ vals !! i = Some (Num (Difference r)).
Proof.
  revert rows. induction cols as [|[name vals] cols IH]; intros rows.
  - intros [= <-] r. split; [intros []|]. intros (v & i & [] & _).
  - cbn [melt_columns].
    destruct (melt_column ids name vals) as [e|x] eqn:E; [discriminate|].
    destruct (melt_columns ids cols) as [e|y] eqn:E'; [discriminate|].
    intros [= <-] r. rewrite in_app_iff, (melt_column_cells _ _ _ _ E r),
      (IH y eq_refl r).
    split.
    + intros [(HS & i & H1 & H2)|(v & i & Hin & H1 & H2)].
      * exists vals, i. repeat split; try assumption. left. rewrite HS.
        reflexivity.
      * exists v, i. repeat split; try assumption. right. exact Hin.
    + intros (v & i & [Hin|Hin] & H1 & H2).
      * injection Hin as -> ->. left. split; [reflexivity|].
        exists i. split; assumption.
      * right. exists v, i. repeat split; assumption.
Qed.

(** X22.  The reshaping loses no cell and invents none: the rows of
    the long table are exactly the cells of the columns other than
    Year_Pair, each with the name of its column as sensor and the label of
    its line as year pair. *)
Theorem melt_cells (df : DataFrame) (rows : list row) :
  melt df = inr rows ->
  exists ids,
    assoc "Year_Pair" df = Some ids
    /\ forall r, In r rows <->
         exists vals i,
           In (Sensor r, vals) df
           /\ Sensor r <> "Year_Pair"
           /\ ids !! i = Some (Year_Pair r)
           /\ vals !! i = Some (Num (Difference r)).
Proof.
  unfold melt. destruct (existsb _ df); [discriminate|].
  destruct (assoc "Year_Pair" df) as [ids|]; [|discriminate].
  intros M. exists ids. split; [reflexivity|]. intros r.
  rewrite (melt_columns_cells _ _ _ M r). split.
  - intros (v & i & Hin & H1 & H2). apply filter_In in Hin.
    destruct Hin as [Hin N]. cbn [fst] in N.
    exists v, i. repeat split; try assumption.
    intros E. rewrite E in N. discriminate N.
  - intros (v & i & Hin & N & H1 & H2). exists v, i. repeat split; try assumption.
    apply filter_In. split; [exact Hin|]. cbn [fst].
    apply String.eqb_neq in N. rewrite N. reflexivity.
Qed.

Example melt_cells_witness :
  exists ids,
    assoc "Year_Pair" [("Year_Pair", [Str "2019-2020"]);
                       ("Sensor 1", [Num (fin 1)])] = Some ids
    /\ forall r, In r [mk_row (Str "2019-2020") "Sensor 1" (fin 1)] <->
         exists vals i,
           In (Sensor r, vals) [("Year_Pair", [Str "2019-2020"]);
                                ("Sensor 1", [Num (fin 1)])]
           /\ Sensor r <> "Year_Pair"
           /\ ids !! i = Some (Year_Pair r)
           /\ vals !! i = Some (Num (Difference r)).
Proof.
  apply (melt_cells [("Year_Pair", [Str "2019-2020"]);
                     ("Sensor 1", [Num (fin 1)])]).
  reflexivity.
Defined.

(** ** Labels as the sheets write them *)

Section Labels.

Local Open Scope string_scope.

Lemma findall4_two_tokens (a1 a2 a3 a4 b1 b2 b3 b4 sep : ascii) :
  is_digit a1 = true -> is_digit a2 = true ->
  is_digit a3 = true -> is_digit a4 = true ->
  is_digit b1 = true -> is_digit b2 = true ->
  is_digit b3 = true -> is_digit b4 = true ->
  is_digit sep = false ->
  findall4 (token4 a1 a2 a3 a4 ++ String sep (token4 b1 b2 b3 b4))
  = [token4 a1 a2 a3 a4; token4 b1 b2 b3 b4].
Proof.
  intros A1 A2 A3 A4 B1 B2 B3 B4 HS.
  change (token4 a1 a2 a3 a4 ++ String sep (token4 b1 b2 b3 b4))
    with (String a1 (String a2 (String a3 (String a4
            (String sep (token4 b1 b2 b3 b4)))))).
  rewrite findall4_step, A1, A2, A3, A4. cbn [andb]. f_equal.
  unfold token4 at 1. rewrite findall4_step, HS. cbn [andb].
  rewrite findall4_step, B1, B2, B3, B4. reflexivity.
Qed.

(** X23.  A label made of two years of four digits around one
    character that is no digit, "2019-2020" for one, holds exactly these
    two tokens: the outlier is not skipped and its target year is the
    year on the left. *)
Theorem two_year_label (a1 a2 a3 a4 b1 b2 b3 b4 sep : ascii)
    (sensor : string) (diff : float) :
  is_digit a1 = true -> is_digit a2 = true ->
  is_digit a3 = true -> is_digit a4 = true ->
  is_digit b1 = true -> is_digit b2 = true ->
  is_digit b3 = true -> is_digit b4 = true ->
  is_digit sep = false ->
  findall4 (token4 a1 a2 a3 a4 ++ String sep (token4 b1 b2 b3 b4))
    = [token4 a1 a2 a3 a4; token4 b1 b2 b3 b4]
  /\ target_year
       (mk_row (Str (token4 a1 a2 a3 a4 ++ String sep (token4 b1 b2 b3 b4)))
               sensor diff)
     = Some (value4 a1 a2 a3 a4).
Proof.
  intros A1 A2 A3 A4 B1 B2 B3 B4 HS.
  pose proof (findall4_two_tokens _ _ _ _ _ _ _ _ _
                A1 A2 A3 A4 B1 B2 B3 B4 HS) as F.
  split; [exact F|].
  unfold target_year. cbn [Year_Pair re_findall]. rewrite F.
  apply py_int_token4; assumption.
Qed.

Example two_year_label_witness :
  findall4 "2021/2020" = ["2021"; "2020"]
  /\ target_year (mk_row (Str "2021/2020") "Sensor 1" (fin 1)) = Some 2021.
Proof.
  apply (two_year_label "2" "0" "2" "1" "2" "0" "2" "0" "/" "Sensor 1" (fin 1));
    reflexivity.
Defined.

End Labels.

(** ** Numbers as text and back *)

Section ReadBack.

Local Open Scope string_scope.

Lemma lstrip_no_space (s : string) : no_space s = true -> lstrip s = s.
Proof.
  destruct s as [|c s]; [reflexivity|]. cbn [no_space lstrip].
  destruct (is_space c) eqn:E; [discriminate|].
  rewrite (not_space_int _ E). reflexivity.
Qed.

Lemma rstrip_no_space (s : string) : no_space s = true -> rstrip s = s.
Proof.
  induction s as [|c s IH]; [reflexivity|]. cbn [no_space rstrip].
  destruct (is_space c) eqn:E; [discriminate|]. cbn [negb andb].
  intros H. rewrite (IH H), (not_space_int _ E). destruct s; reflexivity.
Qed.

Lemma uint_no_space (d : Decimal.uint) :
  no_space (NilEmpty.string_of_uint d) = true.
Proof. induction d; cbn [NilEmpty.string_of_uint no_space]; auto. Qed.

Lemma digits_val_digit (acc : Z) (b : bool) (c : ascii) (s : string) :
  is_digit c = true ->
  digits_val acc b (String c s) = digits_val (10 * acc + digit_val c) true s.
Proof. intros H. cbn [digits_val]. rewrite H. reflexivity. Qed.

Ltac digit_step IH :=
  cbn [NilEmpty.string_of_uint Pos.of_uint_acc];
  rewrite digits_val_digit by reflexivity;
  rewrite <- IH; f_equal;
  try (rewrite ?Pos2Z.inj_add, ?Pos2Z.inj_mul;
       match goal with
       | |- context [digit_val ?c] =>
           let v := eval vm_compute in (digit_val c) in
           change (digit_val c) with v
       end; lia).

Lemma digits_val_acc (d : Decimal.uint) (acc : positive) :
  digits_val (Z.pos acc) true (NilEmpty.string_of_uint d)
  = Some (Z.pos (Pos.of_uint_acc d acc)).
Proof.
  revert acc. induction d as [|d IH|d IH|d IH|d IH|d IH|d IH|d IH|d IH|d IH|d IH];
    intros acc; [reflexivity| | | | | | | | | |]; digit_step IH.
Qed.

Lemma digits_val_uint (d : Decimal.uint) :
  digits_val 0 true (NilEmpty.string_of_uint d) = Some (Z.of_uint d).
Proof.
  unfold Z.of_uint.
  induction d as [|d IH|d IH|d IH|d IH|d IH|d IH|d IH|d IH|d IH|d IH];
    [reflexivity|exact IH| | | | | | | | |];
    cbn [NilEmpty.string_of_uint Pos.of_uint];
    rewrite digits_val_digit by reflexivity;
    apply digits_val_acc.
Qed.

Lemma digits_val_start (d : Decimal.uint) :
  d <> Decimal.Nil ->
  digits_val 0 false (NilEmpty.string_of_uint d) = Some (Z.of_uint d).
Proof.
  intros N. rewrite <- digits_val_uint. destruct d; [contradiction| | | | | | | | | |];
    reflexivity.
Qed.

Lemma py_int_uint (d : Decimal.uint) :
  d <> Decimal.Nil ->
  py_int (NilEmpty.string_of_uint d) = Some (Z.of_uint d)
  /\ py_int (String "-" (NilEmpty.string_of_uint d)) = Some (- Z.of_uint d).
Proof.
  intros N. pose proof (digits_val_start d N) as V.
  pose proof (uint_no_space d) as S.
  split.
  - unfold py_int. rewrite (lstrip_no_space _ S), (rstrip_no_space _ S).
    rewrite <- V. destruct d; [contradiction| | | | | | | | | |]; reflexivity.
  - assert (S' : no_space (String "-" (NilEmpty.string_of_uint d)) = true)
      by exact S.
    unfold py_int. rewrite (lstrip_no_space _ S'), (rstrip_no_space _ S').
    rewrite V. reflexivity.
Qed.

Lemma py_int_py_str (n : Z) : py_int (py_str n) = Some n.
Proof.
  unfold py_str. rewrite <- (DecimalZ.of_to n) at 2.
  destruct (Z.to_int n) as [d|d]; cbn [NilZero.string_of_int Z.of_int].
  - destruct (Decimal.uint_eq_dec d Decimal.Nil) as [->|N]; [reflexivity|].
    replace (NilZero.string_of_uint d) with (NilEmpty.string_of_uint d)
      by (destruct d; [contradiction| | | | | | | | | |]; reflexivity).
    apply (py_int_uint d N).
  - destruct (Decimal.uint_eq_dec d Decimal.Nil) as [->|N]; [reflexivity|].
    replace (NilZero.string_of_uint d) with (NilEmpty.string_of_uint d)
      by (destruct d; [contradiction| | | | | | | | | |]; reflexivity).
    apply (py_int_uint d N).
Qed.

Lemma nz_uint_no_space (d : Decimal.uint) :
  no_space (NilZero.string_of_uint d) = true.
Proof.
  unfold NilZero.string_of_uint.
  destruct d; try reflexivity; apply (uint_no_space (_ d)).
Qed.

Lemma py_str_no_space (n : Z) : no_space (py_str n) = true /\ py_str n <> "".
Proof.
  unfold py_str, NilZero.string_of_int.
  destruct (Z.to_int n) as [d|d].
  - split; [apply nz_uint_no_space|].
    unfold NilZero.string_of_uint. destruct d; discriminate.
  - split; [|discriminate].
    change (no_space (NilZero.string_of_uint d) = true).
    apply nz_uint_no_space.
Qed.

Lemma string_of_snoc (l : list ascii) (c : ascii) (t : string) :
  string_of_list_ascii (l ++ [c]) ++ t = string_of_list_ascii l ++ String c t.
Proof.
  induction l as [|a l IH]; [reflexivity|].
  change (String a (string_of_list_ascii (l ++ [c]) ++ t)
          = String a (string_of_list_ascii l ++ String c t)).
  rewrite IH. reflexivity.
Qed.

Lemma str_app_nil_r (s : string) : s ++ "" = s.
Proof.
  induction s as [|a s IH]; [reflexivity|].
  change (String a (s ++ "") = String a s). rewrite IH. reflexivity.
Qed.

Lemma split_aux_token (t : string) (cur : list ascii) :
  no_space t = true -> cur <> [] \/ t <> "" ->
  split_aux cur t = [string_of_list_ascii (rev cur) ++ t].
Proof.
  revert cur. induction t as [|c t IH]; intros cur S N.
  - destruct N as [N|N]; [|contradiction]. cbn [split_aux].
    rewrite str_app_nil_r. destruct cur; [contradiction|reflexivity].
  - cbn [no_space] in S. apply andb_prop in S as [Sc St].
    apply negb_true_iff in Sc. cbn [split_aux]. rewrite Sc.
    rewrite (IH (c :: cur) St) by (left; discriminate).
    cbn [rev]. rewrite string_of_snoc. reflexivity.
Qed.

Lemma split_aux_last (p t : string) (cur : list ascii) :
  no_space t = true -> t <> "" ->
  last (split_aux cur (p ++ String " " t)) = Some t.
Proof.
  intros S N. revert cur. induction p as [|c p IH]; intros cur.
  - change ("" ++ String " " t) with (String " " t). cbn [split_aux].
    change (is_space " ") with true. cbv iota.
    rewrite (split_aux_token t [] S) by (right; exact N).
    cbn [rev string_of_list_ascii]. change ("" ++ t) with t.
    apply last_snoc.
  - change (String c p ++ String " " t) with (String c (p ++ String " " t)).
    cbn [split_aux]. destruct (is_space c).
    + specialize (IH []). apply last_Some in IH. destruct IH as [l ->].
      rewrite app_assoc. apply last_snoc.
    + apply IH.
Qed.

Lemma sensor_of_words (words : string) (n : Z) :
  sensor_of (words ++ String " " (py_str n)) = inr n.
Proof.
  destruct (py_str_no_space n) as [S N].
  unfold sensor_of, last_token, split.
  rewrite (split_aux_last words _ [] S N). unfold int.
  rewrite (py_int_py_str n). reflexivity.
Qed.

Lemma sensor_of_number (n : Z) : sensor_of (py_str n) = inr n.
Proof.
  destruct (py_str_no_space n) as [S N].
  unfold sensor_of, last_token, split.
  rewrite (split_aux_token _ [] S) by (right; exact N).
  cbn [rev string_of_list_ascii last]. change ("" ++ py_str n) with (py_str n).
  unfold int. rewrite (py_int_py_str n). reflexivity.
Qed.

(** X24.  The sensor number is read back from the labels the columns
    are named by: from [n] written in decimal after any words and a blank,
    "Sensor 3" for one, and from [n] alone, the loop gets [n], and corrects
    the column [V] followed by the same decimal. *)
Theorem sensor_label_read_back (words : string) (n : Z) :
  sensor_of (words ++ String " " (py_str n)) = inr n
  /\ sensor_of (py_str n) = inr n
  /\ py_int (py_str n) = Some n.
Proof.
  split; [apply sensor_of_words|].
  split; [apply sensor_of_number|apply py_int_py_str].
Qed.

End ReadBack.

(** ** The conventions, end to end *)

(** X25.  An outlier that follows the conventions is corrected: with a
    sensor label ending in the number [n], a label of two years of four
    digits, a sheet "Raw Data {year}" of the left year in the workbook and
    a column [V{n}] of numbers in it, the iteration writes the shifted
    sheet to the file of that year and appends the record. *)
Theorem conventional_outlier_corrected (a : args) (cs : list correction)
    (w : world) (words : string) (n : Z) (diff : float)
    (a1 a2 a3 a4 b1 b2 b3 b4 sep : ascii) (raw dropped out : DataFrame) :
  is_digit a1 = true -> is_digit a2 = true ->
  is_digit a3 = true -> is_digit a4 = true ->
  is_digit b1 = true -> is_digit b2 = true ->
  is_digit b3 = true -> is_digit b4 = true ->
  is_digit sep = false ->
  lookup_sheet (files w) (input a) (sheet_of (value4 a1 a2 a3 a4)) = inr raw ->
  drop_time raw = inr dropped ->
  shift dropped (sensor_column n) (fneg diff) = inr out ->
  let label := Str (token4 a1 a2 a3 a4 ++ String sep (token4 b1 b2 b3 b4))%string in
  let r := mk_row label (words ++ String " " (py_str n))%string diff in
  loop_body a cs r w
  = (inr (cs ++ [mk_correction label n diff (fneg diff)
                   (out_file_of a (value4 a1 a2 a3 a4))]),
     corrected_world a (value4 a1 a2 a3 a4) out w).
Proof.
  intros A1 A2 A3 A4 B1 B2 B3 B4 HS L D H label r.
  pose proof (findall4_two_tokens _ _ _ _ _ _ _ _ _
                A1 A2 A3 A4 B1 B2 B3 B4 HS) as F.
  apply (loop_body_corrects a cs r w n (value4 a1 a2 a3 a4) raw out).
  constructor.
  - apply (sensor_of_words words n).
  - eexists _, _, _. split; [reflexivity|]. split; [exact F|].
    unfold int. rewrite (py_int_token4 _ _ _ _ A1 A2 A3 A4). reflexivity.
  - exact L.
  - exists dropped. split; assumption.
Qed.

Example conventional_outlier_corrected_witness :
  loop_body args_2020 []
    (mk_row (Str "2020-2021") "Sensor 3" (fin (1 # 4))) (start fs_2020)
  = (inr [mk_correction (Str "2020-2021") 3 (fin (1 # 4)) (fneg (fin (1 # 4)))
            (out_file_of args_2020 2020)],
     corrected_world args_2020 2020
       [("V1", [Num (fin 1); Num (fin 2)]);
        ("V3", [Num (fadd (fin 10) (fneg (fin (1 # 4)))); Num nan])]
       (start fs_2020)).
Proof.
  apply (conventional_outlier_corrected args_2020 [] (start fs_2020)
           "Sensor" 3 (fin (1 # 4)) "2" "0" "2" "0" "2" "0" "2" "1" "-"
           [("V1", [Num (fin 1); Num (fin 2)]); ("V3", [Num (fin 10); Num nan]);
            ("TimeStamp", [Str "08:00"; Str "09:00"])]
           [("V1", [Num (fin 1); Num (fin 2)]); ("V3", [Num (fin 10); Num nan])]);
    reflexivity.
Defined.

(** ** The absolute method at its edge *)

(** X26.  With a threshold that is zero or negative the 'abs' method
    flags every record that has a difference, a difference of zero
    included. *)
Theorem abs_nonpositive_threshold (df : list row) (t : Q)
    (z_thr iqr_fac : float) :
  (t <= 0)%Q ->
  detect_outliers df "abs" (fin t) z_thr iqr_fac
  = inr (List.filter (fun r => is_fin (Difference r)) df).
Proof.
  intros Ht. unfold detect_outliers. cbn [String.eqb Ascii.eqb Bool.eqb].
  rewrite select_filter. f_equal. apply filter_ext_in. intros r _.
  destruct (Difference r) as [|d]; cbn [fabs fge is_fin]; [reflexivity|].
  apply Qle_bool_iff. pose proof (Qabs_nonneg d). lra.
Qed.

Example abs_nonpositive_threshold_witness :
  detect_outliers df_gap "abs" (fin 0) (fin 3) (fin (3 # 2))
  = inr (List.filter (fun r => is_fin (Difference r)) df_gap).
Proof.
  apply (abs_nonpositive_threshold df_gap 0). vm_compute. discriminate.
Defined.


(** * Binary64 *)

Section Binary64.

Local Open Scope float_scope.

(** ** Facts of binary64 arithmetic *)

Lemma shr_1_nonneg (mrs : shr_record) :
  (0 <= shr_m mrs)%Z -> (0 <= shr_m (shr_1 mrs))%Z.
Proof.
  destruct mrs as [m r s]. simpl. destruct m as [|[p|p|]|p]; simpl; lia.
Qed.

Lemma iter_pos_nonneg (p : positive) (mrs : shr_record) :
  (0 <= shr_m mrs)%Z -> (0 <= shr_m (SpecFloat.iter_pos shr_1 p mrs))%Z.
Proof.
  revert mrs. induction p as [p IH|p IH|]; simpl; intros mrs H.
  - apply IH, IH, shr_1_nonneg, H.
  - apply IH, IH, H.
  - apply shr_1_nonneg, H.
Qed.

Lemma shr_fexp_nonneg (m e : Z) (l : location) :
  (0 <= m)%Z -> (0 <= shr_m (fst (shr_fexp prec emax m e l)))%Z.
Proof.
  intros H. unfold shr_fexp, shr.
  assert (K : (0 <= shr_m (shr_record_of_loc m l))%Z).
  { destruct l as [|[]]; simpl; exact H. }
  destruct (fexp prec emax (Zdigits2 m + e) - e)%Z; simpl; auto.
  apply iter_pos_nonneg, K.
Qed.

Lemma round_nearest_even_nonneg (m : Z) (l : location) :
  (0 <= m)%Z -> (0 <= round_nearest_even m l)%Z.
Proof.
  intros H. unfold round_nearest_even.
  destruct l as [|[]]; try lia. destruct (Z.even m); lia.
Qed.

(** Rounding gives a number. *)
Lemma binary_round_aux_not_nan (sx : bool) (mx ex : Z) (lx : location) :
  (0 <= mx)%Z -> F64.not_nan (binary_round_aux prec emax sx mx ex lx) = true.
Proof.
  intros H. unfold binary_round_aux.
  pose proof (shr_fexp_nonneg mx ex lx H) as K1.
  destruct (shr_fexp prec emax mx ex lx) as [mrs' e']. simpl in K1.
  pose proof (shr_fexp_nonneg _ e' loc_Exact
                (round_nearest_even_nonneg _ (loc_of_shr_record mrs') K1)) as K2.
  destruct (shr_fexp prec emax _ e' loc_Exact) as [mrs'' e'']. simpl in K2.
  destruct (shr_m mrs''); try reflexivity.
  - destruct (Z.leb e'' (emax - prec)); reflexivity.
  - lia.
Qed.

Lemma binary_normalize_not_nan (m e : Z) (s : bool) :
  F64.not_nan (binary_normalize prec emax m e s) = true.
Proof.
  unfold binary_normalize, binary_round. destruct m; [reflexivity| |];
  match goal with |- context [shl_align ?a ?b ?c] => destruct (shl_align a b c) end;
  apply binary_round_aux_not_nan; lia.
Qed.

Lemma SFsub_not_nan (x y : spec_float) :
  F64.not_nan x = true -> F64.finite_sf y = true ->
  F64.not_nan (SF64sub x y) = true.
Proof.
  destruct x as [sx|sx| |sx mx ex], y as [sy|sy| |sy my ey];
    try discriminate; intros _ _; unfold SF64sub, SFsub; try reflexivity.
  - destruct sx, sy; reflexivity.
  - apply binary_normalize_not_nan.
Qed.

Lemma is_nan_spec (x : F64.f64) :
  PrimFloat.is_nan x = negb (F64.not_nan (Prim2SF x)).
Proof.
  unfold PrimFloat.is_nan. rewrite FloatAxioms.eqb_spec. unfold SFeqb, SFcompare.
  destruct (Prim2SF x) as [s|s| |s m e]; simpl; try reflexivity.
  - destruct s; reflexivity.
  - destruct s; rewrite Z.compare_refl, Pos.compare_cont_refl; reflexivity.
Qed.

Lemma is_finite_spec (x : F64.f64) :
  PrimFloat.is_finite x = F64.finite_sf (Prim2SF x).
Proof.
  unfold PrimFloat.is_finite, PrimFloat.is_infinity.
  rewrite is_nan_spec, FloatAxioms.eqb_spec, FloatAxioms.abs_spec.
  change (Prim2SF PrimFloat.infinity) with (S754_infinity false).
  destruct (Prim2SF x) as [s|s| |s m e]; reflexivity.
Qed.

Lemma is_zero_spec (x : F64.f64) :
  PrimFloat.is_zero x = F64.zero_sf (Prim2SF x).
Proof.
  unfold PrimFloat.is_zero. rewrite FloatAxioms.eqb_spec.
  change (Prim2SF PrimFloat.zero) with (S754_zero false).
  destruct (Prim2SF x) as [s|s| |s m e]; try reflexivity; destruct s; reflexivity.
Qed.

(** A number less a finite number is a number. *)
Lemma sub_not_nan (d m : F64.f64) :
  PrimFloat.is_nan d = false -> PrimFloat.is_finite m = true ->
  PrimFloat.is_nan (d - m) = false.
Proof.
  rewrite !is_nan_spec, is_finite_spec, FloatAxioms.sub_spec. intros H K.
  rewrite SFsub_not_nan; [reflexivity| |exact K].
  destruct (F64.not_nan (Prim2SF d)); [reflexivity|discriminate].
Qed.

Lemma sub_nan (d m : F64.f64) :
  PrimFloat.is_nan d = true -> PrimFloat.is_nan (d - m) = true.
Proof.
  rewrite !is_nan_spec, FloatAxioms.sub_spec.
  destruct (Prim2SF d); try discriminate. reflexivity.
Qed.

(** Zero times a finite number is zero; zero times an infinity or NaN
    is not. *)
Lemma mul_zero_l (z s : F64.f64) :
  PrimFloat.is_zero z = true -> PrimFloat.is_finite s = true ->
  PrimFloat.is_zero (z * s) = true.
Proof.
  rewrite !is_zero_spec, is_finite_spec, FloatAxioms.mul_spec.
  destruct (Prim2SF z); try discriminate.
  destruct (Prim2SF s); try discriminate; reflexivity.
Qed.


(** [|y| >= 0] but for NaN. *)
Lemma leb_zero_abs (t y : F64.f64) :
  PrimFloat.is_zero t = true ->
  (t <=? PrimFloat.abs y) = negb (PrimFloat.is_nan y).
Proof.
  rewrite is_zero_spec, is_nan_spec, FloatAxioms.leb_spec, FloatAxioms.abs_spec.
  destruct (Prim2SF t); try discriminate. intros _.
  destruct (Prim2SF y) as [b|b| |b m e]; reflexivity.
Qed.

Lemma eqb_not_nan (d m : F64.f64) :
  (d =? m) = true -> PrimFloat.is_nan d = false.
Proof.
  rewrite is_nan_spec, FloatAxioms.eqb_spec. unfold SFeqb, SFcompare.
  destruct (Prim2SF d); try discriminate; reflexivity.
Qed.

(** Rounding keeps the sign. *)
Lemma binary_round_aux_sign (sx : bool) (mx ex : Z) (lx : location) :
  (0 <= mx)%Z -> F64.has_sign sx (binary_round_aux prec emax sx mx ex lx) = true.
Proof.
  intros H. unfold binary_round_aux.
  pose proof (shr_fexp_nonneg mx ex lx H) as K1.
  destruct (shr_fexp prec emax mx ex lx) as [mrs' e']. simpl in K1.
  pose proof (shr_fexp_nonneg _ e' loc_Exact
                (round_nearest_even_nonneg _ (loc_of_shr_record mrs') K1)) as K2.
  destruct (shr_fexp prec emax _ e' loc_Exact) as [mrs'' e'']. simpl in K2.
  destruct (shr_m mrs''); simpl.
  - apply Bool.eqb_reflx.
  - destruct (Z.leb e'' (emax - prec)); apply Bool.eqb_reflx.
  - lia.
Qed.

(** A finite number at most 0 times a finite number at least 0 is at
    most 0. *)
Lemma mul_nonpos (z s : F64.f64) :
  (z <=? 0) = true -> PrimFloat.is_finite z = true ->
  (0 <=? s) = true -> PrimFloat.is_finite s = true ->
  (z * s <=? 0) = true.
Proof.
  rewrite !is_finite_spec, !FloatAxioms.leb_spec, FloatAxioms.mul_spec.
  change (Prim2SF 0) with (S754_zero false).
  destruct (Prim2SF z) as [sz|sz| |sz mz ez]; try discriminate;
    destruct (Prim2SF s) as [ss|ss| |ss ms es]; try discriminate;
    try reflexivity.
  destruct sz; [|discriminate]. destruct ss; [discriminate|].
  intros _ _ _ _. unfold SF64mul, SFmul. cbn [xorb].
  pose proof (binary_round_aux_sign true (Z.pos (mz * ms)) (ez + es)
                  loc_Exact ltac:(lia)) as K.
    destruct (binary_round_aux prec emax true (Z.pos (mz * ms)) (ez + es)
                loc_Exact) as [b|b| |b m e]; try discriminate K;
      destruct b; try discriminate K; reflexivity.
Qed.

(** Against a threshold at most 0 the test [|y| >= t] holds but for
    NaN. *)
Lemma leb_nonpos_abs (t y : F64.f64) :
  (t <=? 0) = true -> (t <=? PrimFloat.abs y) = negb (PrimFloat.is_nan y).
Proof.
  rewrite is_nan_spec, !FloatAxioms.leb_spec, FloatAxioms.abs_spec.
  change (Prim2SF 0) with (S754_zero false).
  destruct (Prim2SF t) as [st|st| |st mt et]; try discriminate;
    destruct (Prim2SF y) as [b|b| |b m e]; try reflexivity;
    destruct st; try discriminate; reflexivity.
Qed.

(** ** The z-score test in binary64 *)

Lemma select_filter64 (p : F64.f64 -> bool) (df : list F64.row) :
  F64.select df (map p (map F64.Difference df))
  = List.filter (fun r => p (F64.Difference r)) df.
Proof.
  induction df as [|r df IH]; simpl; [reflexivity|].
  rewrite IH. reflexivity.
Qed.

Lemma detect_zscore_eq64 (mean std : list F64.f64 -> F64.f64)
    (quantile : list F64.f64 -> Z -> Z -> F64.f64) (df : list F64.row)
    (abs_thr z_thr iqr_fac : F64.f64) :
  F64.detect_outliers mean std quantile df "zscore" abs_thr z_thr iqr_fac
  = inr (List.filter
           (fun r => z_thr * std (map F64.Difference df)
                     <=? PrimFloat.abs (F64.Difference r
                                        - mean (map F64.Difference df))) df).
Proof.
  unfold F64.detect_outliers. simpl.
  rewrite (select_filter64
             (fun d => z_thr * std (map F64.Difference df)
                       <=? PrimFloat.abs (d - mean (map F64.Difference df)))).
  reflexivity.
Qed.

(** When the product of threshold and deviation is a zero and the mean
    is finite, the test holds of every difference that is a number. *)
Lemma zscore_zero_product (mean std : list F64.f64 -> F64.f64)
    (quantile : list F64.f64 -> Z -> Z -> F64.f64) (df : list F64.row)
    (abs_thr z iqr_fac : F64.f64) :
  PrimFloat.is_zero (z * std (map F64.Difference df)) = true ->
  PrimFloat.is_finite (mean (map F64.Difference df)) = true ->
  F64.detect_outliers mean std quantile df "zscore" abs_thr z iqr_fac
    = inr (List.filter F64.present df)
  /\ (forall r, In r df ->
        (F64.Difference r =? mean (map F64.Difference df)) = true ->
        In r (List.filter F64.present df)).
Proof.
  intros Z F. split.
  - rewrite detect_zscore_eq64. f_equal. apply filter_ext_in. intros r _.
    rewrite (leb_zero_abs _ _ Z). unfold F64.present. f_equal.
    destruct (PrimFloat.is_nan (F64.Difference r)) eqn:N.
    + apply sub_nan. exact N.
    + apply sub_not_nan; assumption.
  - intros r Hr E. apply filter_In. split; [exact Hr|].
    unfold F64.present. rewrite (eqb_not_nan _ _ E). reflexivity.
Qed.

(** X4.  In binary64, with a finite mean: when the threshold is finite
    and at most 0 and the deviation that pandas computes is finite and at
    least 0, the z-score method flags every record whose difference is a
    number. *)
Theorem zscore_nonpositive_threshold_binary64
    (mean std : list F64.f64 -> F64.f64)
    (quantile : list F64.f64 -> Z -> Z -> F64.f64) (df : list F64.row)
    (abs_thr z iqr_fac : F64.f64) :
  (z <=? 0) = true -> PrimFloat.is_finite z = true ->
  (0 <=? std (map F64.Difference df)) = true ->
  PrimFloat.is_finite (std (map F64.Difference df)) = true ->
  PrimFloat.is_finite (mean (map F64.Difference df)) = true ->
  F64.detect_outliers mean std quantile df "zscore" abs_thr z iqr_fac
  = inr (List.filter F64.present df).
Proof.
  intros Z Fz S Fs M.
  rewrite detect_zscore_eq64. f_equal. apply filter_ext_in. intros r _.
  rewrite (leb_nonpos_abs _ _ (mul_nonpos _ _ Z Fz S Fs)).
  unfold F64.present. f_equal.
  destruct (PrimFloat.is_nan (F64.Difference r)) eqn:N.
  - apply sub_nan. exact N.
  - apply sub_not_nan; assumption.
Qed.

Example zscore_nonpositive_threshold_binary64_witness :
  F64.detect_outliers F64.nanmean F64.nanstd F64.nanquantile F64.df_gap
    "zscore" 0.1 (-1) 1.5
  = inr [F64.mk_row (F64.Str "2019-2020") "Sensor 1" 1;
         F64.mk_row (F64.Str "2019-2020") "Sensor 3" 9].
Proof.
  rewrite (zscore_nonpositive_threshold_binary64 F64.nanmean F64.nanstd
             F64.nanquantile F64.df_gap 0.1 (-1) 1.5);
    reflexivity.
Defined.

(** C4, amended, in binary64.  When the mean and the deviation that
    pandas computes are finite (at least two differences present, no
    overflow), the z-score method with threshold 0 returns every record
    whose difference is a number, those equal to the mean included. *)
Theorem zscore_zero_threshold_binary64 (mean std : list F64.f64 -> F64.f64)
    (quantile : list F64.f64 -> Z -> Z -> F64.f64) (df : list F64.row)
    (abs_thr z iqr_fac : F64.f64) :
  PrimFloat.is_zero z = true ->
  PrimFloat.is_finite (std (map F64.Difference df)) = true ->
  PrimFloat.is_finite (mean (map F64.Difference df)) = true ->
  F64.detect_outliers mean std quantile df "zscore" abs_thr z iqr_fac
    = inr (List.filter F64.present df)
  /\ (forall r, In r df ->
        (F64.Difference r =? mean (map F64.Difference df)) = true ->
        In r (List.filter F64.present df)).
Proof.
  intros Z S M. apply zscore_zero_product; [|exact M].
  apply mul_zero_l; assumption.
Qed.

Example zscore_zero_threshold_binary64_witness :
  F64.detect_outliers F64.nanmean F64.nanstd F64.nanquantile F64.df_123
    "zscore" 0.1 0 1.5
  = inr F64.df_123.
Proof.
  destruct (zscore_zero_threshold_binary64 F64.nanmean F64.nanstd
              F64.nanquantile F64.df_123 0.1 0 1.5) as [E _];
    [reflexivity|reflexivity|reflexivity|].
  rewrite E. reflexivity.
Defined.

(** Without the condition: three differences 2^1023 sum to infinity,
    the deviation is infinite, 0 times it is NaN and nothing is
    returned. *)
Example zscore_zero_threshold_overflow :
  F64.nanstd (map F64.Difference F64.df_huge) = PrimFloat.infinity
  /\ F64.detect_outliers F64.nanmean F64.nanstd F64.nanquantile F64.df_huge
       "zscore" 0.1 0 1.5
     = inr [].
Proof. split; reflexivity. Qed.



(** A constant column need not have a computed deviation of zero: the
    mean of three times 0.1 is rounded to 0.10000000000000002, the
    deviation is about 1.7e-17, and with threshold 3 nothing is flagged. *)
Example constant_column_rounded :
  F64.nanmean (map F64.Difference F64.df_tenths) = 0.10000000000000002
  /\ F64.nanstd (map F64.Difference F64.df_tenths) = 1.6996749443881478e-17
  /\ F64.detect_outliers F64.nanmean F64.nanstd F64.nanquantile F64.df_tenths
       "zscore" 0.1 3 1.5
     = inr [].
Proof. repeat split; reflexivity. Qed.

(** The bounds of the 'iqr' method are rounded: on 0.38, 0.36, -0.02,
    0.53, 0.22 with factor 1.5 the lower bound is -0.01999999999999999 and
    -0.02 is flagged. *)
Example iqr_bounds_rounded :
  F64.detect_outliers F64.nanmean F64.nanstd F64.nanquantile F64.df_spread
    "iqr" 0.1 3 1.5
  = inr [F64.mk_row (F64.Str "2019-2020") "Sensor 3" (-0.02)].
Proof. reflexivity. Qed.

(** ** The correction in binary64 *)

(** An iteration that appended a record went through every line of the
    body. *)
Lemma loop_body_appended64 (a : args) (cs : list F64.correction) (r : F64.row)
    (w : F64.world) (cs' : list F64.correction) (w' : F64.world) :
  F64.loop_body a cs r w = (inr cs', w') -> cs' <> cs ->
  exists sensor year raw dropped out,
    sensor_of (F64.Sensor r) = inr sensor
    /\ F64.lookup_sheet (F64.files w) (input a) (sheet_of year) = inr raw
    /\ F64.drop_time raw = inr dropped
    /\ F64.shift dropped (sensor_column sensor) (- F64.Difference r) = inr out
    /\ cs' = cs ++ [F64.mk_correction (F64.Year_Pair r) sensor
                      (F64.Difference r) (- F64.Difference r)
                      (out_file_of a year)]
    /\ w' = F64.corrected_world a year out w.
Proof.
  unfold F64.loop_body, F64.bind, F64.lift. intros E N.
  destruct (sensor_of (F64.Sensor r)) as [e|sensor]; [discriminate|].
  destruct (F64.re_findall (F64.Year_Pair r)) as [e|years]; [discriminate|].
  destruct years as [|y0 [|y1 [|y2 years]]];
    try (injection E as E _; symmetry in E; contradiction).
  destruct (int y0) as [e|year]; [discriminate|].
  unfold F64.try_except, F64.read_excel, F64.bind, F64.tell, F64.ret, F64.emit
    in E.
  cbn [F64.files F64.trace] in E.
  destruct (F64.lookup_sheet (F64.files w) (input a) (sheet_of year))
    as [e|raw] eqn:L.
  { destruct e; try discriminate E;
      injection E as E _; symmetry in E; contradiction. }
  destruct (F64.drop_time raw) as [e|dropped] eqn:D; [discriminate|].
  destruct (F64.shift dropped (sensor_column sensor) (- F64.Difference r))
    as [e|out] eqn:H; [discriminate|].
  unfold F64.to_excel in E. cbn [F64.files F64.trace] in E.
  injection E as <- <-.
  exists sensor, year, raw, dropped, out. repeat split; try assumption.
  unfold F64.corrected_world. rewrite <- app_assoc. reflexivity.
Qed.

Lemma setitem_split64 (pre post : F64.DataFrame) (col : string)
    (old new : F64.column) :
  ~ In col (map fst pre) ->
  F64.setitem (pre ++ (col, old) :: post) col new = pre ++ (col, new) :: post.
Proof.
  induction pre as [|[k c] pre IH]; simpl; intros N.
  - rewrite String.eqb_refl. reflexivity.
  - destruct (String.eqb col k) eqn:E.
    + apply String.eqb_eq in E. subst k. tauto.
    + rewrite IH by tauto. reflexivity.
Qed.

Lemma add_offset_shifted64 (offset : F64.f64) (old new : F64.column) :
  F64.add_offset old offset = inr new ->
  Forall2 (F64.shifted_by offset) old new.
Proof.
  revert new. induction old as [|[s|x] old IH]; simpl; intros new H.
  - injection H as <-. constructor.
  - discriminate.
  - destruct (F64.add_offset old offset) as [e|t]; [discriminate|].
    injection H as <-. constructor; [|apply IH; reflexivity].
    exists x. split; reflexivity.
Qed.

(** Line 116 on a frame: the first column of that name, and only it, is
    replaced by its cells plus the offset. *)
Lemma shift_structure64 (df out : F64.DataFrame) (col : string)
    (offset : F64.f64) :
  F64.shift df col offset = inr out ->
  exists pre old new post,
    df = pre ++ (col, old) :: post
    /\ ~ In col (map fst pre)
    /\ Forall2 (F64.shifted_by offset) old new
    /\ out = pre ++ (col, new) :: post.
Proof.
  unfold F64.shift, F64.getitem.
  destruct (assoc col df) as [old|] eqn:G; [|discriminate].
  destruct (F64.add_offset old offset) as [e|new] eqn:O; [discriminate|].
  intros [= <-].
  destruct (assoc_split _ _ _ G) as (pre & post & -> & N).
  exists pre, old, new, post. repeat split; [exact N| |].
  - apply add_offset_shifted64. exact O.
  - apply setitem_split64. exact N.
Qed.

Lemma drop_time_cases64 (raw dropped : F64.DataFrame) :
  F64.drop_time raw = inr dropped -> dropped = raw \/ dropped = removelast raw.
Proof.
  unfold F64.drop_time. destruct (last (F64.columns raw)); [|discriminate].
  intros [= <-]. destruct (contains "time" (lower s)); auto.
Qed.

(** C2, refuted as stated.  Readings 0.1 and 0.7 are corrected for a
    difference of -0.2: the offset recorded is 0.2, the table written
    holds 0.30000000000000004 and 0.8999999999999999, and corrected minus
    original is 0.20000000000000004 and 0.19999999999999996, in binary64
    as between the numbers themselves: not 0.2. *)
Lemma roundtrip_inexact :
  F64.loop_body args_2020 [] F64.row_tenths (F64.start F64.fs_tenths)
  = (inr [F64.mk_correction (F64.Str "2020-2021") 1 (-0.2) 0.2
            "output/data_2020_corrected.xlsx"],
     F64.corrected_world args_2020 2020
       [("V1", [F64.Num 0.30000000000000004; F64.Num 0.8999999999999999])]
       (F64.start F64.fs_tenths))
  /\ (0.30000000000000004 - 0.1 =? - (-0.2)) = false
  /\ (0.8999999999999999 - 0.7 =? - (-0.2)) = false
  /\ F64.exact_difference 0.30000000000000004 0.1 (- (-0.2)) = false
  /\ F64.exact_difference 0.8999999999999999 0.7 (- (-0.2)) = false.
Proof. repeat split; vm_compute; reflexivity. Qed.

(** C2, amended, in binary64.  An iteration that corrects records the
    offset [-diff], and the table it writes is the sheet it read, without
    its last column when that is one of time stamps, with the sensor's
    column replaced, cell by cell, by the reading plus the offset as
    binary64 adds them. *)
Theorem correction_offset_binary64 (a : args) (cs : list F64.correction)
    (r : F64.row) (w : F64.world) (cs' : list F64.correction)
    (w' : F64.world) :
  F64.loop_body a cs r w = (inr cs', w') -> cs' <> cs ->
  exists rec sheet raw dropped pre old new post,
    cs' = cs ++ [rec]
    /\ F64.c_OrigDiff rec = F64.Difference r
    /\ F64.c_OffsetApplied rec = - F64.c_OrigDiff rec
    /\ F64.lookup_sheet (F64.files w) (input a) sheet = inr raw
    /\ (dropped = raw \/ dropped = removelast raw)
    /\ dropped = pre ++ (sensor_column (F64.c_Sensor rec), old) :: post
    /\ ~ In (sensor_column (F64.c_Sensor rec)) (map fst pre)
    /\ F64.files w' !! F64.c_CorrectedFile rec
       = Some (F64.Xlsx
                 [(sheet,
                   pre ++ (sensor_column (F64.c_Sensor rec), new) :: post)])
    /\ Forall2 (F64.shifted_by (F64.c_OffsetApplied rec)) old new.
Proof.
  intros E N.
  destruct (loop_body_appended64 _ _ _ _ _ _ E N)
    as (sensor & year & raw & dropped & out & S & L & D & H & -> & ->).
  destruct (shift_structure64 _ _ _ _ H) as (pre & old & new & post & Ed & Np & F & ->).
  exists (F64.mk_correction (F64.Year_Pair r) sensor (F64.Difference r)
            (- F64.Difference r) (out_file_of a year)),
         (sheet_of year), raw, dropped, pre, old, new, post.
  cbn [F64.c_OrigDiff F64.c_OffsetApplied F64.c_CorrectedFile F64.c_Sensor].
  repeat split; try assumption.
  - apply drop_time_cases64. exact D.
  - unfold F64.corrected_world. cbn [F64.files]. apply lookup_insert_eq.
Qed.

Example correction_offset_binary64_witness :
  exists rec sheet raw dropped pre old new post,
    [F64.mk_correction (F64.Str "2020-2021") 1 (-0.2) 0.2
       "output/data_2020_corrected.xlsx"] = [] ++ [rec]
    /\ F64.c_OrigDiff rec = F64.Difference F64.row_tenths
    /\ F64.c_OffsetApplied rec = - F64.c_OrigDiff rec
    /\ F64.lookup_sheet (F64.files (F64.start F64.fs_tenths))
         (input args_2020) sheet = inr raw
    /\ (dropped = raw \/ dropped = removelast raw)
    /\ dropped = pre ++ (sensor_column (F64.c_Sensor rec), old) :: post
    /\ ~ In (sensor_column (F64.c_Sensor rec)) (map fst pre)
    /\ F64.files (snd (F64.loop_body args_2020 [] F64.row_tenths
                         (F64.start F64.fs_tenths)))
         !! F64.c_CorrectedFile rec
       = Some (F64.Xlsx
                 [(sheet,
                   pre ++ (sensor_column (F64.c_Sensor rec), new) :: post)])
    /\ Forall2 (F64.shifted_by (F64.c_OffsetApplied rec)) old new.
Proof.
  apply (correction_offset_binary64 args_2020 [] F64.row_tenths
           (F64.start F64.fs_tenths)
           [F64.mk_correction (F64.Str "2020-2021") 1 (-0.2) 0.2
              "output/data_2020_corrected.xlsx"]
           (snd (F64.loop_body args_2020 [] F64.row_tenths
                   (F64.start F64.fs_tenths)))).
  - rewrite (surjective_pairing (F64.loop_body args_2020 [] F64.row_tenths
                                   (F64.start F64.fs_tenths))).
    f_equal.
  - discriminate.
Defined.

End Binary64.
